(** * JobMatchBot (joy.py): a shallow embedding of [JobSearchBot] and its properties

    The bot keeps a dictionary of user profiles, polls Telegram for
    commands, scrapes two job boards and sends the postings that an
    oracle scores above the user's threshold.

    Conventions of the embedding.
    - A Python [str] is a Rocq [string], one [ascii] per character (code
      points below 256); [len], [strip], [split], [replace], [startswith],
      [in] and [int] below follow Python on such text.  The literals of
      the source are kept as they are written.
    - A method of the class is a computation in the monad [M]: it threads
      the bot's fields, can raise a Python exception, and appends every
      action on the outside world (HTTP request, file write, log line,
      thread start, sleep) to a trace, in program order.
    - What the outside world answers is read from a [World]: each answer
      is indexed by the number of interactions made so far, so a [World]
      stands for an arbitrary, possibly failing, environment.
    - Threads are started but not interleaved: a method body runs to its
      end (or to the exception that leaves it).
    - [load_users], [send_jobs_to_all_users], [schedule_user_jobs],
      [health_check] and [run] touch neither the profiles nor the offset
      and are not embedded: the first reads the file once at start, the
      others start threads, register timers and loop. *)

From Stdlib Require Import ZArith String Ascii List Lia Bool.
From stdpp Require Import gmap strings list pretty.

Local Open Scope Z_scope.

(** ** Python text operations *)

Module Py.

(** [str.isspace] on one character, for code points below 256. *)
Definition isspace (c : ascii) : bool :=
  let n := nat_of_ascii c in
  (Nat.leb 9 n && Nat.leb n 13) || (Nat.leb 28 n && Nat.leb n 32)
  || Nat.eqb n 133 || Nat.eqb n 160.

(** [str.isdigit] on one character: the ASCII digits and the
    superscripts one, two and three. *)
Definition isdigit (c : ascii) : bool :=
  let n := nat_of_ascii c in
  (Nat.leb 48 n && Nat.leb n 57) || Nat.eqb n 178 || Nat.eqb n 179
  || Nat.eqb n 185.

(** The white space that [int] skips around a literal: as [isspace],
    without the four separators 28 to 31. *)
Definition isspace_int (c : ascii) : bool :=
  let n := nat_of_ascii c in
  (Nat.leb 9 n && Nat.leb n 13) || Nat.eqb n 32
  || Nat.eqb n 133 || Nat.eqb n 160.

Fixpoint lstrip_by (sp : ascii -> bool) (s : string) : string :=
  match s with
  | EmptyString => EmptyString
  | String c s' => if sp c then lstrip_by sp s' else s
  end.

Fixpoint rstrip_by (sp : ascii -> bool) (s : string) : string :=
  match s with
  | EmptyString => EmptyString
  | String c s' =>
      match rstrip_by sp s' with
      | EmptyString => if sp c then EmptyString else String c EmptyString
      | r => String c r
      end
  end.

(** [s.strip()] *)
Definition strip (s : string) : string :=
  rstrip_by isspace (lstrip_by isspace s).

(** [s.startswith(p)] *)
Definition startswith (s p : string) : bool := String.prefix p s.

(** [sub in s] *)
Fixpoint contains (sub s : string) : bool :=
  String.prefix sub s
  || match s with
     | EmptyString => false
     | String _ s' => contains sub s'
     end.

(** [s.replace(old, new)] for a non-empty [old]: the occurrences are
    taken from the left and do not overlap.  [skip] counts the
    characters of a match that are still to be dropped. *)
Fixpoint replace_from (old new : string) (skip : nat) (s : string) : string :=
  match s with
  | EmptyString => EmptyString
  | String c s' =>
      match skip with
      | S k => replace_from old new k s'
      | O =>
          if String.prefix old s
          then new +:+ replace_from old new (Nat.pred (String.length old)) s'
          else String c (replace_from old new O s')
      end
  end.

Definition replace (s old new : string) : string := replace_from old new O s.

(** [s.split(sep)] for a non-empty [sep]; [cur] is the current field,
    reversed. *)
Fixpoint split_from (sep : string) (skip : nat) (cur : list ascii)
    (s : string) : list string :=
  match s with
  | EmptyString => [string_of_list_ascii (rev cur)]
  | String c s' =>
      match skip with
      | S k => split_from sep k cur s'
      | O =>
          if String.prefix sep s
          then string_of_list_ascii (rev cur)
               :: split_from sep (Nat.pred (String.length sep)) [] s'
          else split_from sep O (c :: cur) s'
      end
  end.

Definition split (s sep : string) : list string := split_from sep O [] s.

(** [s.split()]: fields are separated by runs of white space and none
    of them is empty. *)
Fixpoint split_ws_from (cur : list ascii) (s : string) : list string :=
  match s with
  | EmptyString =>
      match cur with
      | [] => []
      | _ => [string_of_list_ascii (rev cur)]
      end
  | String c s' =>
      if isspace c
      then match cur with
           | [] => split_ws_from [] s'
           | _ => string_of_list_ascii (rev cur) :: split_ws_from [] s'
           end
      else split_ws_from (c :: cur) s'
  end.

Definition split_ws (s : string) : list string := split_ws_from [] s.

(** [sep.join(l)] *)
Fixpoint join (sep : string) (l : list string) : string :=
  match l with
  | [] => EmptyString
  | [x] => x
  | x :: rest => x +:+ sep +:+ join sep rest
  end.

(** [''.join(filter(str.isdigit, s))] *)
Fixpoint filter_isdigit (s : string) : string :=
  match s with
  | EmptyString => EmptyString
  | String c s' =>
      if isdigit c then String c (filter_isdigit s') else filter_isdigit s'
  end.

Definition digit_val (c : ascii) : option Z :=
  let n := nat_of_ascii c in
  if Nat.leb 48 n && Nat.leb n 57 then Some (Z.of_nat (n - 48)) else None.

(** The digits of a decimal literal: single underscores are allowed
    between two digits only. [after_digit] tells whether the previous
    character was a digit. *)
Fixpoint int_digits (acc : Z) (after_digit : bool) (s : string) : option Z :=
  match s with
  | EmptyString => if after_digit then Some acc else None
  | String c s' =>
      if Ascii.eqb c "_"
      then (if after_digit then int_digits acc false s' else None)
      else match digit_val c with
           | Some d => int_digits (10 * acc + d) true s'
           | None => None
           end
  end.

(** [int(s)] on a string, base ten; [None] is [ValueError].  (The
    interpreter's cap on the number of digits of a literal is left
    out.) *)
Definition int (s : string) : option Z :=
  match rstrip_by isspace_int (lstrip_by isspace_int s) with
  | EmptyString => None
  | String c r =>
      if Ascii.eqb c "+" then int_digits 0 false r
      else if Ascii.eqb c "-" then Z.opp <$> int_digits 0 false r
      else int_digits 0 false (String c r)
  end.

(** [str(n)] for an integer. *)
Definition str_int (n : Z) : string := pretty n.

(** [s[:n]] *)
Definition str_prefix (n : nat) (s : string) : string := substring 0 n s.

(** [l[-n:]] for a positive [n]: the last [n] elements, all of [l] when
    it is shorter. *)
Definition last_n {A} (n : nat) (l : list A) : list A :=
  drop (length l - n) l.

(** [l[:n]] *)
Definition first_n {A} (n : nat) (l : list A) : list A := take n l.

(** Truth value of a string: [if s:] *)
Definition truthy (s : string) : bool :=
  match s with EmptyString => false | _ => true end.

End Py.

(** ** The interpreter's [hash] on strings

    [hash(s)] for a [str] is SipHash-1-3 of the characters of [s] (one
    byte each for the text considered here), keyed with the two 64-bit
    words [k0], [k1] of the hash secret that the interpreter draws when
    the process starts; the 64-bit result is read as a signed integer,
    the empty string hashes to 0 and the result -1 is replaced by -2. *)

Module PyHash.

Definition mask64 : Z := 2 ^ 64 - 1.
Definition wrap64 (x : Z) : Z := Z.land x mask64.
Definition add64 (x y : Z) : Z := wrap64 (x + y).
Definition rotl64 (x : Z) (b : Z) : Z :=
  wrap64 (Z.lor (Z.shiftl x b) (Z.shiftr x (64 - b))).

Record sipstate := Sip { v0 : Z; v1 : Z; v2 : Z; v3 : Z }.

Definition sipround (s : sipstate) : sipstate :=
  let '(Sip a b c d) := s in
  let a := add64 a b in
  let b := Z.lxor (rotl64 b 13) a in
  let a := rotl64 a 32 in
  let c := add64 c d in
  let d := Z.lxor (rotl64 d 16) c in
  let a := add64 a d in
  let d := Z.lxor (rotl64 d 21) a in
  let c := add64 c b in
  let b := Z.lxor (rotl64 b 17) c in
  let c := rotl64 c 32 in
  Sip a b c d.

(** A little-endian word from at most eight bytes. *)
Fixpoint le_word (bytes : list Z) : Z :=
  match bytes with
  | [] => 0
  | b :: rest => Z.lor b (Z.shiftl (le_word rest) 8)
  end.

Definition absorb (s : sipstate) (m : Z) : sipstate :=
  let s1 := sipround (Sip (v0 s) (v1 s) (v2 s) (Z.lxor (v3 s) m)) in
  Sip (Z.lxor (v0 s1) m) (v1 s1) (v2 s1) (v3 s1).

(** The full eight-byte words of the input, then the tail. [fuel]
    bounds the number of words. *)
Fixpoint absorb_words (fuel : nat) (s : sipstate) (bytes : list Z)
    : sipstate * list Z :=
  match fuel with
  | O => (s, bytes)
  | S fuel' =>
      if Nat.leb 8 (length bytes)
      then absorb_words fuel' (absorb s (le_word (take 8 bytes))) (drop 8 bytes)
      else (s, bytes)
  end.

Definition siphash13 (k0 k1 : Z) (bytes : list Z) : Z :=
  let s := Sip (Z.lxor k0 0x736f6d6570736575) (Z.lxor k1 0x646f72616e646f6d)
               (Z.lxor k0 0x6c7967656e657261) (Z.lxor k1 0x7465646279746573) in
  let len := Z.of_nat (length bytes) in
  let '(s, tail) := absorb_words (length bytes) s bytes in
  let b := Z.lor (wrap64 (Z.shiftl len 56)) (le_word tail) in
  let s := absorb s b in
  let s := Sip (v0 s) (v1 s) (Z.lxor (v2 s) 0xff) (v3 s) in
  let s := sipround (sipround (sipround s)) in
  Z.lxor (Z.lxor (v0 s) (v1 s)) (Z.lxor (v2 s) (v3 s)).

Definition to_signed64 (x : Z) : Z :=
  if Z.ltb x (2 ^ 63) then x else x - 2 ^ 64.

Definition bytes_of (s : string) : list Z :=
  map (fun c => Z.of_nat (nat_of_ascii c)) (list_ascii_of_string s).

(** [hash(s)] in a process whose hash secret is [(k0, k1)]. *)
Definition hash (secret : Z * Z) (s : string) : Z :=
  match s with
  | EmptyString => 0
  | _ =>
      let x := to_signed64 (siphash13 (fst secret) (snd secret) (bytes_of s)) in
      if Z.eqb x (-1) then -2 else x
  end.

End PyHash.

(** ** Data model *)

(** A chat id comes from Telegram as an integer and comes back from the
    keys of [self.users] as a string; [str(chat_id)] is the key. *)
Inductive ChatId :=
| IntId (n : Z)
| StrId (s : string).

Definition str_chat (c : ChatId) : string :=
  match c with
  | IntId n => Py.str_int n
  | StrId s => s
  end.

(** One value of [self.users]. *)
Record UserData := mkUser {
  resume : string;
  search_keywords : list string;
  search_location : string;
  min_match_score : Z;
  jobs_sent : list string;
  notification_time : string;
  is_active : bool;
  last_activity : string;
  welcomed : bool
}.

(** One entry of the list that [scrape_jobs] returns. *)
Record Job := mkJob {
  job_source : string;
  job_title : string;
  job_company : string;
  job_location : string;
  job_link : string;
  job_id : string
}.

(** The dictionary [{"score": ..., "analysis": ...}]. *)
Record MatchResult := mkMatch { score : Z; analysis : string }.

Inductive Exn :=
| KeyError | IndexError | ValueError | TypeError | NameError
| AttributeError | RequestException | OSError | PdfError | ApiError
| RuntimeError.

(** An element of a parsed page, as far as the scraper looks at it. *)
Record Element := mkElement { el_text : string; el_href : option string }.

(** A card of a result page: [card sel] is [card.select_one(sel)]. *)
Definition Card := string -> option Element.

Record Message := mkMessage {
  msg_chat : Z;
  msg_document : option string;
  msg_text : option string
}.

Record Update := mkUpdate { update_id : Z; upd_message : option Message }.

(** Replies of the outside world. *)
Inductive PostReply := PostRaises | PostStatus (code : Z).
Inductive UpdatesReply :=
| UpdatesRaise                                  (* transport or JSON error *)
| UpdatesJson (result : option (list Update)).  (* the "result" key *)
Inductive FileInfoReply :=
| FileInfoRaises
| FileInfoJson (result : option (option string)). (* "result", then "file_path" *)
Inductive DownloadReply := DownloadRaises | DownloadStatus (code : Z).
Inductive PageReply :=
| PageRaises
| PageStatus (code : Z) (select : string -> list Card).

Record World := mkWorld {
  now : nat -> string;                          (* datetime.now().isoformat() *)
  dump_fails : nat -> bool;                     (* writing USER_DB_FILE raises *)
  post_message : nat -> PostReply;              (* POST sendMessage *)
  get_updates : nat -> option Z -> UpdatesReply;(* GET getUpdates[?offset=] *)
  get_file : nat -> string -> FileInfoReply;    (* GET getFile?file_id= *)
  download : nat -> string -> DownloadReply;    (* GET of the file *)
  write_pdf_fails : nat -> bool;                (* makedirs / open / write *)
  pdf_pages : nat -> string -> option (list string); (* fitz; None: raises *)
  fetch_page : nat -> string -> PageReply;      (* GET of a result page *)
  chat_completion : nat -> string -> option string; (* Groq; None: raises *)
  thread_start_fails : nat -> bool;
  hash_secret : Z * Z;                          (* drawn when the process starts *)
  BOT_TOKEN : string;
  GROQ_MODEL : string
}.

(** Names of the methods that are started in a thread. *)
Inductive Target := TSendJobsToUser | TSendResumeAnalysis.

(** What the bot does to the outside world, and the writes to
    [last_update_id]. *)
Inductive Event :=
| EvSend (chat_id : ChatId) (text : string) (parse_mode : option string)
| EvSave (snapshot : gmap string UserData)
| EvLogError (what : string) (e : option Exn)
| EvGetUpdates (offset : option Z)
| EvGet (url : string)
| EvWriteFile (path : string)
| EvComplete (prompt : string) (temperature : string)
| EvScore (job : Job)
| EvThread (target : Target) (chat_id : ChatId)
| EvSleep (seconds : string)
| EvOffset (n : Z).

(** The fields of the bot, the trace so far and the count of
    interactions with the world. *)
Record State := mkState {
  users : gmap string UserData;
  last_update_id : option Z;
  trace : list Event;
  ticks : nat
}.

(** ** The monad of method bodies *)

Inductive Res (A : Type) :=
| Ok (a : A)
| Raise (e : Exn).
Arguments Ok {A} a.
Arguments Raise {A} e.

Definition M (A : Type) : Type := State -> Res A * State.

Definition ret {A} (a : A) : M A := fun st => (Ok a, st).

Definition bind {A B} (m : M A) (k : A -> M B) : M B :=
  fun st =>
    match m st with
    | (Ok a, st') => k a st'
    | (Raise e, st') => (Raise e, st')
    end.

Definition raise {A} (e : Exn) : M A := fun st => (Raise e, st).

(** [try: body except Exception as e: handler e] *)
Definition try_except {A} (body : M A) (handler : Exn -> M A) : M A :=
  fun st =>
    match body st with
    | (Ok a, st') => (Ok a, st')
    | (Raise e, st') => handler e st'
    end.

#[global] Instance M_ret : MRet M := @ret.
#[global] Instance M_bind : MBind M := fun A B k m => bind m k.

Definition gets {A} (f : State -> A) : M A := fun st => (Ok (f st), st).

Definition emit (e : Event) : M unit :=
  fun st => (Ok tt, mkState (users st) (last_update_id st)
                            (trace st ++ [e]) (ticks st)).

(** One interaction with the world: the answer at the current count,
    and the count moves on. *)
Definition ask {A} (f : nat -> A) : M A :=
  fun st => (Ok (f (ticks st)),
             mkState (users st) (last_update_id st) (trace st) (S (ticks st))).

Definition set_users (us : gmap string UserData) : M unit :=
  fun st => (Ok tt, mkState us (last_update_id st) (trace st) (ticks st)).

Definition set_last_update_id (n : Z) : M unit :=
  fun st => (Ok tt, mkState (users st) (Some n) (trace st ++ [EvOffset n])
                            (ticks st)).

(** [d[k]] on a value that may be missing. *)
Definition subscript {A} (o : option A) (e : Exn) : M A :=
  match o with
  | Some a => ret a
  | None => raise e
  end.

(** [for x in l: body x] *)
Fixpoint for_each {A} (l : list A) (body : A -> M unit) : M unit :=
  match l with
  | [] => ret tt
  | x :: rest => body x;; for_each rest body
  end.

(** The same loop with a local variable that the body updates. *)
Fixpoint for_fold {A B} (l : list A) (acc : B) (body : A -> B -> M B) : M B :=
  match l with
  | [] => ret acc
  | x :: rest => acc' ← body x acc; for_fold rest acc' body
  end.

(** In-place update of the dictionary of one user: [self.users[k][..] = ..]. *)
Definition update_user (k : string) (f : UserData -> UserData) : M unit :=
  us ← gets users;
  match us !! k with
  | Some u => set_users (<[k := f u]> us)
  | None => raise KeyError
  end.

Definition with_resume (v : string) (u : UserData) : UserData :=
  mkUser v (search_keywords u) (search_location u) (min_match_score u)
         (jobs_sent u) (notification_time u) (is_active u) (last_activity u)
         (welcomed u).
Definition with_search_keywords (v : list string) (u : UserData) : UserData :=
  mkUser (resume u) v (search_location u) (min_match_score u)
         (jobs_sent u) (notification_time u) (is_active u) (last_activity u)
         (welcomed u).
Definition with_search_location (v : string) (u : UserData) : UserData :=
  mkUser (resume u) (search_keywords u) v (min_match_score u)
         (jobs_sent u) (notification_time u) (is_active u) (last_activity u)
         (welcomed u).
Definition with_min_match_score (v : Z) (u : UserData) : UserData :=
  mkUser (resume u) (search_keywords u) (search_location u) v
         (jobs_sent u) (notification_time u) (is_active u) (last_activity u)
         (welcomed u).
Definition with_jobs_sent (v : list string) (u : UserData) : UserData :=
  mkUser (resume u) (search_keywords u) (search_location u) (min_match_score u)
         v (notification_time u) (is_active u) (last_activity u)
         (welcomed u).
Definition with_notification_time (v : string) (u : UserData) : UserData :=
  mkUser (resume u) (search_keywords u) (search_location u) (min_match_score u)
         (jobs_sent u) v (is_active u) (last_activity u)
         (welcomed u).
Definition with_is_active (v : bool) (u : UserData) : UserData :=
  mkUser (resume u) (search_keywords u) (search_location u) (min_match_score u)
         (jobs_sent u) (notification_time u) v (last_activity u)
         (welcomed u).
Definition with_last_activity (v : string) (u : UserData) : UserData :=
  mkUser (resume u) (search_keywords u) (search_location u) (min_match_score u)
         (jobs_sent u) (notification_time u) (is_active u) v
         (welcomed u).

(** ** The methods of [JobSearchBot] *)

(** The profile that [register_user] creates at time [t]. *)
Definition new_user (t : string) : UserData :=
  mkUser "" ["AI Engineer"%string] "India" 70 [] "09:00" true t true.

(** The [parse_mode] entry of the data of [send_message]: present when
    the argument is truthy. *)
Definition data_mode (parse_mode : option string) : option string :=
  match parse_mode with
  | Some m => if Py.truthy m then Some m else None
  | None => None
  end.

Definition nl : string := String (ascii_of_nat 10) EmptyString.

Section Bot.

Variable w : World.

Definition TELEGRAM_URL : string := "https://api.telegram.org/bot" +:+ BOT_TOKEN w.

(** [save_users] *)
Definition save_users : M unit :=
  try_except
    (fails ← ask (dump_fails w);
     if (fails : bool) then raise OSError
     else us ← gets users; emit (EvSave us))
    (fun e => emit (EvLogError "Error saving user data" (Some e))).

(** [register_user]: [True] for a new user. *)
Definition register_user (chat_id : ChatId) : M bool :=
  let chat_id_str := str_chat chat_id in
  us ← gets users;
  match us !! chat_id_str with
  | None =>
      t ← ask (now w);
      set_users (<[chat_id_str := new_user t]> us);;
      save_users;;
      mret true
  | Some _ => mret false
  end.

(** [set_resume] *)
Definition set_resume (chat_id : ChatId) (resume_text : string) : M bool :=
  let chat_id_str := str_chat chat_id in
  us ← gets users;
  match us !! chat_id_str with
  | Some _ =>
      update_user chat_id_str (with_resume resume_text);;
      t ← ask (now w);
      update_user chat_id_str (with_last_activity t);;
      save_users;;
      mret true
  | None => mret false
  end.

(** [x is not None] guards an assignment. *)
Definition when_given {A} (o : option A) (f : A -> M unit) : M unit :=
  match o with
  | Some a => f a
  | None => mret tt
  end.

(** [set_search_preferences] *)
Definition set_search_preferences (chat_id : ChatId)
    (keywords : option (list string)) (location : option string)
    (min_score : option Z) (notification_time : option string) : M bool :=
  let chat_id_str := str_chat chat_id in
  us ← gets users;
  match us !! chat_id_str with
  | Some _ =>
      when_given keywords (fun v => update_user chat_id_str (with_search_keywords v));;
      when_given location (fun v => update_user chat_id_str (with_search_location v));;
      when_given min_score (fun v => update_user chat_id_str (with_min_match_score v));;
      when_given notification_time
        (fun v => update_user chat_id_str (with_notification_time v));;
      t ← ask (now w);
      update_user chat_id_str (with_last_activity t);;
      save_users;;
      mret true
  | None => mret false
  end.

(** [send_message]: the key [parse_mode] is sent when it is truthy. *)
Definition send_message (chat_id : ChatId) (text : string)
    (parse_mode : option string) : M unit :=
  try_except
    (emit (EvSend chat_id text (data_mode parse_mode));;
     r ← ask (post_message w);
     match r with
     | PostRaises => raise RequestException
     | PostStatus code =>
         if code =? 200 then mret tt
         else emit (EvLogError "Failed to send message" None)
     end)
    (fun e => emit (EvLogError "Error sending message" (Some e))).

(** [extract_text_from_pdf] *)
Definition extract_text_from_pdf (pdf_path : string) : M string :=
  try_except
    (pages ← ask (fun t => pdf_pages w t pdf_path);
     pages ← subscript pages PdfError;
     let text := Py.join nl pages in
     mret (if Py.truthy text then Py.strip text
           else "❌ Unable to extract text."%string))
    (fun e => emit (EvLogError "PDF extraction error" (Some e));;
              mret "❌ Error reading PDF."%string).

Definition preferences_prompt : string :=
  "🔍 Let's customize your job search!" +:+ nl +:+ nl +:+
  "Please send your preferences in this format:" +:+ nl +:+
  "/preferences [job titles] | [location] | [minimum match %] | [notification time]"
    +:+ nl +:+ nl +:+
  "Example: /preferences Data Scientist, ML Engineer | New York | 75 | 08:00"
    +:+ nl +:+ nl +:+
  "Or you can set them individually:" +:+ nl +:+
  "/keywords Data Scientist, ML Engineer" +:+ nl +:+
  "/location New York" +:+ nl +:+
  "/score 75" +:+ nl +:+
  "/time 08:00".

(** [ask_for_preferences] *)
Definition ask_for_preferences (chat_id : ChatId) : M unit :=
  send_message chat_id preferences_prompt None.

(** [ask_for_resume] *)
Definition ask_for_resume (chat_id : ChatId) : M unit :=
  send_message chat_id
    "🚀 Please send your resume (as a PDF) so I can match jobs for you!" None.

(** [handle_document] *)
Definition handle_document (file_id : string) (chat_id : ChatId) : M unit :=
  try_except
    (let info_url := TELEGRAM_URL +:+ "/getFile?file_id=" +:+ file_id in
     emit (EvGet info_url);;
     file_info ← ask (fun t => get_file w t file_id);
     match file_info with
     | FileInfoRaises => raise RequestException
     | FileInfoJson None => mret tt
     | FileInfoJson (Some result) =>
         file_path ← subscript result KeyError;
         let file_url := "https://api.telegram.org/file/bot" +:+ BOT_TOKEN w
                         +:+ "/" +:+ file_path in
         emit (EvGet file_url);;
         response ← ask (fun t => download w t file_url);
         match response with
         | DownloadRaises => raise RequestException
         | DownloadStatus code =>
             if code =? 200 then
               let pdf_path := "resumes/resume_" +:+ str_chat chat_id +:+ ".pdf" in
               fails ← ask (write_pdf_fails w);
               (if (fails : bool) then raise OSError
                else emit (EvWriteFile pdf_path));;
               resume_text ← extract_text_from_pdf pdf_path;
               saved ← set_resume chat_id resume_text;
               if (saved : bool) then
                 send_message chat_id
                   "✅ Resume received! I'll start sending job matches based on your profile."
                   None;;
                 ask_for_preferences chat_id
               else
                 send_message chat_id
                   "❌ Failed to save your resume. Please try again." None
             else send_message chat_id "❌ Failed to download the PDF." None
         end
     end)
    (fun e =>
       emit (EvLogError "Error handling document" (Some e));;
       send_message chat_id
         "❌ Something went wrong processing your document." None).

(** *** Scoring *)

(** The text that [get_match_score] builds. *)
Definition match_prompt (job_data : Job) (resume_text : string) : string :=
  Py.join nl
    [ ""%string;
      "        Resume:";
      "        " +:+ Py.str_prefix 2000 resume_text
        +:+ "...  # Truncate to avoid token limits";
      "        ";
      "        Job Details:";
      "        Title: " +:+ job_title job_data;
      "        Company: " +:+ job_company job_data;
      "        Location: " +:+ job_location job_data;
      "        ";
      "        Task: Evaluate how well this candidate's profile matches the job.";
      "        ";
      "        Please provide:";
      "        1. A numerical match score (0-100)";
      "        2. 3-5 key strengths that make this candidate suitable";
      "        3. 1-2 potential gaps in the candidate's profile";
      "        4. 2-3 specific suggestions to improve candidacy for this role";
      "        ";
      "        Format your response as:";
      "        Score: [number]";
      "        Strengths: [bullet points]";
      "        Gaps: [bullet points]";
      "        Suggestions: [bullet points]";
      "        " ].

(** What a scoring method hands back to its caller: a dictionary,
    [None], or an exception.  The number is the count of interactions
    at the call. *)
Definition Scorer : Type := nat -> Job -> string -> Res (option MatchResult).

(** [get_match_score]: the body assigns [prompt] and ends, so the call
    evaluates to [None]. *)
Definition get_match_score : Scorer :=
  fun _ job_data resume_text =>
    let prompt := match_prompt job_data resume_text in
    Ok None.

(** The call [self.get_match_score(job, resume)] for a scoring method [sc]. *)
Definition call_scorer (sc : Scorer) (job : Job) (resume_text : string)
    : M (option MatchResult) :=
  emit (EvScore job);;
  r ← ask (fun t => sc t job resume_text);
  match r with
  | Ok v => mret v
  | Raise e => raise e
  end.

(** [match_result["score"]] and [match_result["analysis"]]: [None] is
    not subscriptable. *)
Definition item {A} (match_result : option MatchResult)
    (field : MatchResult -> A) : M A :=
  match match_result with
  | Some d => mret (field d)
  | None => raise TypeError
  end.

Definition improvement_prompt (resume_text : string)
    (job_keywords : list string) : string :=
  Py.join nl
    [ ""%string;
      "        Resume:";
      "        " +:+ Py.str_prefix 3000 resume_text
        +:+ "...  # Truncate to avoid token limits";
      "        ";
      "        Job Keywords: " +:+ Py.join ", " job_keywords;
      "        ";
      "        Task: Provide specific suggestions to improve this resume for jobs related to the keywords.";
      "        ";
      "        Please provide:";
      "        1. 3-5 specific improvements to make the resume more effective";
      "        2. 2-3 skills or experiences that should be highlighted more prominently";
      "        3. Any formatting or structure suggestions";
      "        ";
      "        Format your response as:";
      "        Improvements:";
      "        - [improvement 1]";
      "        - [improvement 2]...";
      "        ";
      "        Skills to Highlight:";
      "        - [skill 1]";
      "        - [skill 2]...";
      "        ";
      "        Formatting Suggestions:";
      "        - [suggestion 1]";
      "        - [suggestion 2]...";
      "        " ].

(** [client.chat.completions.create(...)] and the text of its first choice. *)
Definition complete (prompt temperature : string) : M string :=
  emit (EvComplete prompt temperature);;
  r ← ask (fun t => chat_completion w t prompt);
  subscript r ApiError.

(** [get_resume_improvement_suggestions] *)
Definition get_resume_improvement_suggestions (resume_text : string)
    (job_keywords : list string) : M string :=
  let prompt := improvement_prompt resume_text job_keywords in
  try_except
    (complete prompt "0.3")
    (fun e => emit (EvLogError "Resume improvement error" (Some e));;
              mret "Error generating resume improvement suggestions."%string).

(** Lines 285 to 291: the score is read from the first line that holds
    the label. *)
Definition extract_score (result : string) : M (option MatchResult) :=
  if Py.contains "Score:" result then
    score_line ← subscript
      (head (filter (fun line => Py.contains "Score:" line = true)
                    (Py.split result nl))) IndexError;
    score ← subscript (Py.int (Py.filter_isdigit score_line)) ValueError;
    mret (Some (mkMatch (Z.min (Z.max score 0) 100) result))
  else mret (Some (mkMatch 50 result)).

(** The name [prompt] is bound neither in [send_resume_analysis] nor
    in the module: reading it raises [NameError]. *)
Definition read_unbound_prompt : M string := raise NameError.

(** [send_resume_analysis]: the report, followed by the scoring block
    (lines 275 to 294). *)
Definition send_resume_analysis (chat_id : ChatId) : M (option MatchResult) :=
  let chat_id_str := str_chat chat_id in
  us ← gets users;
  match us !! chat_id_str with
  | None => mret None
  | Some user_data =>
      if negb (Py.truthy (resume user_data)) then
        ask_for_resume chat_id;; mret None
      else
        send_message chat_id
          "🔍 Analyzing your resume... This may take a minute." None;;
        suggestions ← get_resume_improvement_suggestions
                        (resume user_data) (search_keywords user_data);
        let message :=
          "📋 *Resume Analysis*" +:+ nl +:+ nl +:+ suggestions +:+ nl +:+ nl +:+
          "Would you like me to help you implement these suggestions? Reply with /improve to get started." in
        send_message chat_id message (Some "Markdown"%string);;
        try_except
          (prompt ← read_unbound_prompt;
           result ← complete prompt "0.2";
           extract_score result)
          (fun e => emit (EvLogError "Scoring error" (Some e));;
                    mret (Some (mkMatch 50 "Error in analysis")))
  end.

(** *** Fetching postings *)

(** [el.text.strip()] on the result of [select_one]. *)
Definition text_of (o : option Element) : M string :=
  match o with
  | Some e => mret (Py.strip (el_text e))
  | None => raise AttributeError
  end.

(** [el['href']] on the result of [select_one]. *)
Definition href_of (o : option Element) : M string :=
  match o with
  | Some e => subscript (el_href e) KeyError
  | None => raise TypeError
  end.

(** [hash] in this process. *)
Definition py_hash (s : string) : Z := PyHash.hash (hash_secret w) s.

(** The dictionary built for a LinkedIn card (lines 315 to 322). *)
Definition linkedin_job (job : Card) : M Job :=
  title ← text_of (job "h3");
  company ← text_of (job "h4");
  location ← text_of (job ".job-search-card__location");
  link ← href_of (job "a");
  href ← href_of (job "a");
  mret (mkJob "LinkedIn" title company location link
              ("li_" +:+ Py.str_int (py_hash href))).

(** The dictionary built for an Indeed card (lines 339 to 347). *)
Definition indeed_job (job : Card) : M Job :=
  href ← href_of (job "h2 a");
  let job_id := "indeed_" +:+ Py.str_int (py_hash href) in
  title ← text_of (job "h2 a");
  company ← text_of (job ".companyName");
  location ← text_of (job ".companyLocation");
  href' ← href_of (job "h2 a");
  mret (mkJob "Indeed" title company location
              ("https://in.indeed.com" +:+ href') job_id).

(** ['+'.join(keywords[0].replace(',', ' ').split())] *)
Definition keywords_str (keywords : list string) : M string :=
  first ← subscript (head keywords) IndexError;
  mret (Py.join "+" (Py.split_ws (Py.replace first "," " "))).

Definition linkedin_url (keywords : list string) (location : string) : M string :=
  ks ← keywords_str keywords;
  mret ("https://www.linkedin.com/jobs/search/?keywords=" +:+ ks
        +:+ "&location=" +:+ location).

Definition indeed_url (keywords : list string) (location : string) : M string :=
  ks ← keywords_str keywords;
  mret ("https://in.indeed.com/jobs?q=" +:+ ks +:+ "&l="
        +:+ Py.replace location " " "+").

(** One of the two blocks of [scrape_jobs]: the outer [try], the
    request, and the loop over at most ten cards with its inner [try].
    Whatever raises in the outer [try] does so before the first
    [append], so its handler leaves [job_list] as the block found it. *)
Definition scrape_board (board : string) (url : M string) (selector : string)
    (parse : Card -> M Job) (job_list : list Job) : M (list Job) :=
  try_except
    (u ← url;
     emit (EvGet u);;
     response ← ask (fun t => fetch_page w t u);
     match response with
     | PageRaises => raise RequestException
     | PageStatus code select =>
         if code =? 200 then
           for_fold (Py.first_n 10 (select selector)) job_list
             (fun job job_list =>
                try_except
                  (j ← parse job; mret (job_list ++ [j]))
                  (fun e =>
                     emit (EvLogError (board +:+ " parsing error") (Some e));;
                     mret job_list))
         else mret job_list
     end)
    (fun e => emit (EvLogError (board +:+ " scraping error") (Some e));;
              mret job_list).

(** [scrape_jobs] *)
Definition scrape_jobs (keywords : list string) (location : string)
    : M (list Job) :=
  emit (EvSleep "random.uniform(1, 3)");;
  job_list ← scrape_board "LinkedIn" (linkedin_url keywords location)
               ".base-card" linkedin_job [];
  job_list ← scrape_board "Indeed" (indeed_url keywords location)
               ".job_seen_beacon" indeed_job job_list;
  mret job_list.

(** *** One run for one user *)

Definition no_new_jobs : string :=
  "🔍 No new job matches found today. I'll keep searching!".

Definition match_message (job : Job) (score : Z) (analysis : string) : string :=
  "🚀 *New Job Match!*" +:+ nl +:+ nl +:+
  "📌 *" +:+ job_title job +:+ "*" +:+ nl +:+
  "🏢 " +:+ job_company job +:+ nl +:+
  "📍 " +:+ job_location job +:+ nl +:+
  "🌐 Source: " +:+ job_source job +:+ nl +:+
  "📊 *AI Match Score:* " +:+ Py.str_int score +:+ "%" +:+ nl +:+ nl +:+
  "*Analysis:*" +:+ nl +:+ analysis +:+ nl +:+ nl +:+
  "🔗 [Apply Here](" +:+ job_link job +:+ ")".

Definition none_met (found : nat) (threshold : Z) : string :=
  "🔍 I found " +:+ Py.str_int (Z.of_nat found)
  +:+ " new jobs, but none met your minimum match score of "
  +:+ Py.str_int threshold +:+ "%. I'll keep searching!".

Definition sent_summary (matches_found : Z) : string :=
  "✅ Sent you " +:+ Py.str_int matches_found
  +:+ " job matches today! I'll send more when I find them.".

(** A read through the reference [user_data = self.users[chat_id_str]]:
    the dictionary of the user as it is now. *)
Definition user_data (chat_id_str : string) : M UserData :=
  us ← gets users;
  subscript (us !! chat_id_str) KeyError.

(** Lines 386 to 388: the id is appended to [jobs_sent], and the list
    is cut to its last hundred entries when it has grown beyond. *)
Definition record_sent (chat_id_str : string) (id : string) : M unit :=
  update_user chat_id_str (fun u => with_jobs_sent (jobs_sent u ++ [id]) u);;
  u ← user_data chat_id_str;
  if Nat.ltb 100 (length (jobs_sent u)) then
    update_user chat_id_str
      (fun u => with_jobs_sent (Py.last_n 100 (jobs_sent u)) u)
  else mret tt.

(** Lines 390 to 413: the posting is scored and, above the threshold,
    sent. *)
Definition score_and_send (sc : Scorer) (chat_id : ChatId) (job : Job)
    (matches_found : Z) : M Z :=
  let chat_id_str := str_chat chat_id in
  u ← user_data chat_id_str;
  match_result ← call_scorer sc job (resume u);
  score ← item match_result score;
  analysis ← item match_result analysis;
  u ← user_data chat_id_str;
  if min_match_score u <=? score then
    send_message chat_id (match_message job score analysis)
                 (Some "Markdown"%string);;
    emit (EvSleep "1");;
    mret (matches_found + 1)
  else mret matches_found.

(** The body of the loop over [new_jobs] (lines 385 to 413). *)
Definition process_job (sc : Scorer) (chat_id : ChatId) (job : Job)
    (matches_found : Z) : M Z :=
  record_sent (str_chat chat_id) (job_id job);;
  score_and_send sc chat_id job matches_found.

(** [send_jobs_to_user] from line 371 on, once [jobs] is fetched. *)
Definition deliver (sc : Scorer) (chat_id : ChatId) (jobs : list Job) : M unit :=
  let chat_id_str := str_chat chat_id in
  match jobs with
  | [] => send_message chat_id no_new_jobs None
  | _ =>
      u ← user_data chat_id_str;
      let new_jobs := filter (fun job => job_id job ∉ jobs_sent u) jobs in
      match new_jobs with
      | [] => send_message chat_id no_new_jobs None
      | _ =>
          matches_found ← for_fold new_jobs 0 (process_job sc chat_id);
          u ← user_data chat_id_str;
          (if matches_found =? 0 then
             send_message chat_id
               (none_met (length new_jobs) (min_match_score u)) None
           else send_message chat_id (sent_summary matches_found) None);;
          save_users
      end
  end.

(** [send_jobs_to_user], for a scoring method [sc]. *)
Definition send_jobs_to_user_with (sc : Scorer) (chat_id : ChatId) : M unit :=
  let chat_id_str := str_chat chat_id in
  us ← gets users;
  match us !! chat_id_str with
  | None => mret tt
  | Some u =>
      if negb (is_active u) then mret tt
      else if negb (Py.truthy (resume u)) then ask_for_resume chat_id
      else
        jobs ← scrape_jobs (search_keywords u) (search_location u);
        deliver sc chat_id jobs
  end.

(** [send_jobs_to_user] as the class has it. *)
Definition send_jobs_to_user (chat_id : ChatId) : M unit :=
  send_jobs_to_user_with get_match_score chat_id.

(** *** Commands *)

Definition welcome_msg : string :=
  "👋 Welcome to JobMatchBot!" +:+ nl +:+ nl +:+
  "I'll help you find jobs that match your profile. To get started:" +:+ nl +:+
  "1️⃣ Send me your resume as a PDF file" +:+ nl +:+
  "2️⃣ I'll ask you for job search preferences" +:+ nl +:+
  "3️⃣ I'll send you daily job matches with AI-powered match scores"
    +:+ nl +:+ nl +:+
  "Type /help anytime to see available commands.".

Definition help_msg : string :=
  "🤖 *JobMatchBot Commands* 🤖" +:+ nl +:+ nl +:+
  "/start - Start or restart the bot" +:+ nl +:+
  "/preferences - Set all preferences at once" +:+ nl +:+
  "/keywords [job titles] - Set job search keywords" +:+ nl +:+
  "/location [place] - Set job search location" +:+ nl +:+
  "/score [number] - Set minimum match score" +:+ nl +:+
  "/time [HH:MM] - Set daily notification time" +:+ nl +:+
  "/jobs - Get jobs immediately" +:+ nl +:+
  "/analyze - Get resume analysis and improvement suggestions" +:+ nl +:+
  "/pause - Pause daily notifications" +:+ nl +:+
  "/resume - Resume daily notifications" +:+ nl +:+
  "/status - Check your current settings".

Definition time_format_error : string :=
  "❌ Please enter time in HH:MM format.".

Definition time_updated (time_str : string) : string :=
  "✅ Daily notification time updated to: " +:+ time_str.

Definition score_updated (score : Z) : string :=
  "✅ Minimum match score updated to: " +:+ Py.str_int score +:+ "%".

(** [threading.Thread(target=..., args=(chat_id,)).start()] *)
Definition start_thread (target : Target) (chat_id : ChatId) : M unit :=
  fails ← ask (thread_start_fails w);
  if (fails : bool) then raise RuntimeError
  else emit (EvThread target chat_id).

(** [parts[i]] *)
Definition nth_part (parts : list string) (i : nat) : M string :=
  subscript (parts !! i) IndexError.

(** The branch of [/preferences] (lines 472 to 487). *)
Definition cmd_preferences (text : string) (chat_id : ChatId) : M unit :=
  try_except
    (let parts := Py.split (Py.strip (Py.replace text "/preferences" "")) "|" in
     if Nat.leb 4 (length parts) then
       p0 ← nth_part parts 0;
       let keywords := map Py.strip (Py.split p0 ",") in
       p1 ← nth_part parts 1;
       let location := Py.strip p1 in
       p2 ← nth_part parts 2;
       min_score ← subscript (Py.int (Py.strip p2)) ValueError;
       p3 ← nth_part parts 3;
       let notif_time := Py.strip p3 in
       _ ← set_search_preferences chat_id (Some keywords) (Some location)
             (Some min_score) (Some notif_time);
       send_message chat_id
         "✅ Your job search preferences have been updated!" None
     else ask_for_preferences chat_id)
    (fun e =>
       emit (EvLogError "Error parsing preferences" (Some e));;
       send_message chat_id
         "❌ Invalid format. Please use: /preferences [keywords] | [location] | [score] | [time]"
         None).

(** The branch of [/keywords] (lines 490 to 499). *)
Definition cmd_keywords (text : string) (chat_id : ChatId) : M unit :=
  try_except
    (let keywords :=
       map Py.strip (Py.split (Py.strip (Py.replace text "/keywords" "")) ",") in
     match keywords with
     | k0 :: _ =>
         if Py.truthy k0 then
           _ ← set_search_preferences chat_id (Some keywords) None None None;
           send_message chat_id
             ("✅ Job search keywords updated to: " +:+ Py.join ", " keywords) None
         else send_message chat_id "❌ Please provide at least one keyword." None
     | [] => send_message chat_id "❌ Please provide at least one keyword." None
     end)
    (fun e =>
       emit (EvLogError "Error setting keywords" (Some e));;
       send_message chat_id "❌ Failed to update keywords. Please try again." None).

(** The branch of [/location] (lines 502 to 507). *)
Definition cmd_location (text : string) (chat_id : ChatId) : M unit :=
  let location := Py.strip (Py.replace text "/location" "") in
  if Py.truthy location then
    _ ← set_search_preferences chat_id None (Some location) None None;
    send_message chat_id ("✅ Job search location updated to: " +:+ location) None
  else send_message chat_id "❌ Please provide a location." None.

(** The branch of [/score] (lines 510 to 518). *)
Definition cmd_score (text : string) (chat_id : ChatId) : M unit :=
  try_except
    (score ← subscript (Py.int (Py.strip (Py.replace text "/score" ""))) ValueError;
     if (0 <=? score) && (score <=? 100) then
       _ ← set_search_preferences chat_id None None (Some score) None;
       send_message chat_id (score_updated score) None
     else send_message chat_id "❌ Score must be between 0 and 100." None)
    (fun _ => send_message chat_id "❌ Please enter a valid number." None).

(** The branch of [/time] (lines 521 to 526). *)
Definition cmd_time (text : string) (chat_id : ChatId) : M unit :=
  let time_str := Py.strip (Py.replace text "/time" "") in
  if Py.truthy time_str && Nat.eqb (String.length time_str) 5
     && Py.contains ":" time_str
  then
    _ ← set_search_preferences chat_id None None None (Some time_str);
    send_message chat_id (time_updated time_str) None
  else send_message chat_id time_format_error None.

(** The branches of [/pause] and [/resume]. *)
Definition cmd_set_active (chat_id : ChatId) (active : bool) (reply : string)
    : M unit :=
  let chat_id_str := str_chat chat_id in
  us ← gets users;
  match us !! chat_id_str with
  | Some _ =>
      update_user chat_id_str (with_is_active active);;
      save_users;;
      send_message chat_id reply None
  | None => mret tt
  end.

(** [parse_command] *)
Definition parse_command (text : string) (chat_id : ChatId)
    (skip_welcome : bool) : M unit :=
  let text := Py.strip text in
  if Py.startswith text "/start" then
    is_new_user ← register_user chat_id;
    if negb skip_welcome && ((is_new_user : bool) || String.eqb text "/start") then
      send_message chat_id welcome_msg None;;
      ask_for_resume chat_id
    else mret tt
  else if Py.startswith text "/help" then
    send_message chat_id help_msg (Some "Markdown"%string)
  else if Py.startswith text "/preferences" then cmd_preferences text chat_id
  else if Py.startswith text "/keywords" then cmd_keywords text chat_id
  else if Py.startswith text "/location" then cmd_location text chat_id
  else if Py.startswith text "/score" then cmd_score text chat_id
  else if Py.startswith text "/time" then cmd_time text chat_id
  else if Py.startswith text "/jobs" then
    send_message chat_id
      "🔍 Searching for jobs matching your profile... This may take a minute."
      None;;
    start_thread TSendJobsToUser chat_id
  else if Py.startswith text "/analyze" then
    send_message chat_id
      "📋 Analyzing your resume... This may take a minute." None;;
    start_thread TSendResumeAnalysis chat_id
  else if Py.startswith text "/pause" then
    cmd_set_active chat_id false
      "⏸️ Job notifications paused. Type /resume to restart."
  else if Py.startswith text "/resume" then
    cmd_set_active chat_id true "▶️ Job notifications resumed!"
  else mret tt.   (* [/extract] evaluates an attribute and calls nothing *)

(** *** Polling *)

(** [max(update["update_id"] for update in updates)] on a non-empty list. *)
Definition max_update_id (first : Update) (rest : list Update) : Z :=
  fold_left Z.max (map update_id rest) (update_id first).

(** The offset of the request: [last_update_id + 1] when
    [last_update_id] is truthy (neither [None] nor 0). *)
Definition request_offset (last : option Z) : option Z :=
  match last with
  | Some n => if n =? 0 then None else Some (n + 1)
  | None => None
  end.

(** The body of the loop over the batch (lines 574 to 593). *)
Definition handle_update (update : Update) : M unit :=
  match upd_message update with
  | Some message =>
      let chat_id := IntId (msg_chat message) in
      is_new_user ← register_user chat_id;
      match msg_document message with
      | Some file_id => handle_document file_id chat_id
      | None =>
          match msg_text message with
          | Some text =>
              if Py.startswith text "/start" && negb is_new_user
              then parse_command text chat_id true
              else parse_command text chat_id false
          | None => mret tt
          end
      end
  | None => mret tt
  end.

(** [process_telegram_updates] *)
Definition process_telegram_updates : M unit :=
  last ← gets last_update_id;
  let offset := request_offset last in
  try_except
    (emit (EvGetUpdates offset);;
     updates ← ask (fun t => get_updates w t offset);
     match updates with
     | UpdatesRaise => raise RequestException
     | UpdatesJson (Some (first :: rest)) =>
         set_last_update_id (max_update_id first rest);;
         for_each (first :: rest) handle_update
     | UpdatesJson _ => mret tt
     end)
    (fun e => emit (EvLogError "Error processing updates" (Some e))).

End Bot.

(** * Vocabulary of the properties *)

(** ** Judgements on computations

    [preserves I m]: whatever [m] returns or raises, it takes a state
    where [I] holds to a state where [I] holds. *)

Definition preserves {A} (I : State -> Prop) (m : M A) : Prop :=
  forall st, I st -> I (snd (m st)).

(** [m] returns in every state, and what it returns is in [P]. *)
Definition returns {A} (P : A -> Prop) (m : M A) : Prop :=
  forall st, exists a, fst (m st) = Ok a /\ P a.

(** No exception leaves [m]. *)
Definition never_raises {A} (m : M A) : Prop := returns (fun _ => True) m.

(** When [m] returns, what it returns is in [P]. *)
Definition ensures {A} (P : A -> Prop) (m : M A) : Prop :=
  forall st, match fst (m st) with Ok a => P a | Raise _ => True end.

(** The bot before anything happened, and what [m] gives when run
    there. *)
Definition empty_state : State := mkState ∅ None [] 0.

Definition outcome {A} (m : M A) : Res A := fst (m empty_state).

(** [m] computes without reading or changing the state. *)
Definition stateless {A} (m : M A) : Prop :=
  forall st, m st = (outcome m, st).

(** ** Elementary steps and invariants *)

(** What lines 386 to 388 do to a profile: the id is added at the end
    and the last hundred entries are kept. *)
Definition mark_sent (id : string) (u : UserData) : UserData :=
  with_jobs_sent (Py.last_n 100 (jobs_sent u ++ [id])) u.

(** The profile after the ids of [new_jobs] are recorded one by one. *)
Definition record_all (new_jobs : list Job) (u : UserData) : UserData :=
  fold_left (fun u j => mark_sent (job_id j) u) new_jobs u.

(** The events that tell nothing about deliveries, scoring and the
    polling offset. *)
Definition neutral (e : Event) : bool :=
  match e with
  | EvSend _ _ _ | EvScore _ | EvOffset _ => false
  | _ => true
  end.

(** An edit of a profile that leaves the delivered ids and the threshold
    alone. *)
Definition field_edit (f : UserData -> UserData) : Prop :=
  forall u, jobs_sent (f u) = jobs_sent u
            /\ min_match_score (f u) = min_match_score u.

(** [I] is stable under the elementary steps: events in [EvOk],
    interactions with the world and in-place edits in [FOk] of a
    registered profile. *)
Record Stable (I : State -> Prop) (EvOk : Event -> Prop)
    (FOk : (UserData -> UserData) -> Prop) : Prop := mkStable {
  stable_emit : forall st e, EvOk e -> I st ->
    I (mkState (users st) (last_update_id st) (trace st ++ [e]) (ticks st));
  stable_ask : forall st, I st ->
    I (mkState (users st) (last_update_id st) (trace st) (S (ticks st)));
  stable_update : forall st k u f, FOk f -> users st !! k = Some u -> I st ->
    I (mkState (<[k := f u]> (users st)) (last_update_id st) (trace st) (ticks st));
  stable_neutral : forall e, neutral e = true -> EvOk e
}.

(** The trace is [t0] followed by events that are all in [P]. *)
Definition extends (t0 : list Event) (P : Event -> Prop) (st : State) : Prop :=
  exists evs, trace st = t0 ++ evs /\ Forall P evs.

(** The store is [us]. *)
Definition users_are (us : gmap string UserData) (st : State) : Prop :=
  users st = us.

Definition is_offset (e : Event) : bool :=
  match e with EvOffset _ => true | _ => false end.

(** The offset is [m] and the trace is [t0] followed by events none of
    which writes the offset. *)
Definition polled (m : Z) (t0 : list Event) (st : State) : Prop :=
  last_update_id st = Some m /\ extends t0 (fun e => is_offset e = false) st.

(** ** The delivered ids and the thresholds *)

(** Every profile of the store holds at most a hundred delivered ids. *)
Definition store_ok (st : State) : Prop :=
  forall k u, users st !! k = Some u -> (length (jobs_sent u) <= 100)%nat.

Definition keeps_bound (f : UserData -> UserData) : Prop :=
  forall u, (length (jobs_sent u) <= 100)%nat ->
            (length (jobs_sent (f u)) <= 100)%nat.

(** Every profile of the store has its threshold between 0 and 100. *)
Definition thresholds_ok (st : State) : Prop :=
  forall k u, users st !! k = Some u -> 0 <= min_match_score u <= 100.

Definition keeps_threshold (f : UserData -> UserData) : Prop :=
  forall u, 0 <= min_match_score u <= 100 -> 0 <= min_match_score (f u) <= 100.

(** The calls that change or read the bot: the methods of the class. *)
Inductive Op :=
| OpRegisterUser (chat_id : ChatId)
| OpSetResume (chat_id : ChatId) (resume_text : string)
| OpSetSearchPreferences (chat_id : ChatId) (keywords : option (list string))
    (location : option string) (min_score : option Z)
    (notification_time : option string)
| OpHandleDocument (file_id : string) (chat_id : ChatId)
| OpSendResumeAnalysis (chat_id : ChatId)
| OpSendJobsToUser (chat_id : ChatId)
| OpParseCommand (text : string) (chat_id : ChatId) (skip_welcome : bool)
| OpProcessTelegramUpdates.

(** The state after a call, whether it returns or raises; [sc] is the
    scoring method that [send_jobs_to_user] calls. *)
Definition run_op (w : World) (sc : Scorer) (op : Op) (st : State) : State :=
  match op with
  | OpRegisterUser c => snd (register_user w c st)
  | OpSetResume c t => snd (set_resume w c t st)
  | OpSetSearchPreferences c k l s n => snd (set_search_preferences w c k l s n st)
  | OpHandleDocument f c => snd (handle_document w f c st)
  | OpSendResumeAnalysis c => snd (send_resume_analysis w c st)
  | OpSendJobsToUser c => snd (send_jobs_to_user_with w sc c st)
  | OpParseCommand t c s => snd (parse_command w t c s st)
  | OpProcessTelegramUpdates => snd (process_telegram_updates w st)
  end.

(** ** What a board contributes, said without the monad

    These three functions describe one block of [scrape_jobs] by its
    inputs alone; they are compared with [scrape_board] below.  [t] is
    the count of interactions when the block starts.  The address and
    the parser of a card compute without the state, so they are run in
    the empty one. *)

(** The postings: none when the address cannot be built or the request
    fails or is refused; otherwise the cards, among the first ten, that
    parse. *)
Definition board_jobs (w : World) (url : M string) (selector : string)
    (parse : Card -> M Job) (t : nat) : list Job :=
  match outcome url with
  | Raise _ => []
  | Ok u =>
      match fetch_page w t u with
      | PageRaises => []
      | PageStatus code select =>
          if code =? 200 then
            omap (fun c => match outcome (parse c) with
                           | Ok j => Some j
                           | Raise _ => None
                           end)
                 (Py.first_n 10 (select selector))
          else []
      end
  end.

(** The trace: the request, and one log line for the failure of the
    block or for each card that does not parse. *)
Definition board_trace (w : World) (board : string) (url : M string)
    (selector : string) (parse : Card -> M Job) (t : nat) : list Event :=
  match outcome url with
  | Raise e => [EvLogError (board +:+ " scraping error") (Some e)]
  | Ok u =>
      EvGet u ::
      match fetch_page w t u with
      | PageRaises =>
          [EvLogError (board +:+ " scraping error") (Some RequestException)]
      | PageStatus code select =>
          if code =? 200 then
            flat_map (fun c => match outcome (parse c) with
                               | Ok _ => []
                               | Raise e =>
                                   [EvLogError (board +:+ " parsing error") (Some e)]
                               end)
                     (Py.first_n 10 (select selector))
          else []
      end
  end.

(** The interactions: one when the request is made. *)
Definition board_ticks (url : M string) : nat :=
  match outcome url with
  | Raise _ => 0
  | Ok _ => 1
  end.

(** A posting comes from one of the two parsers, run in the world [w]. *)
Definition scraped (w : World) (j : Job) : Prop :=
  exists c, outcome (linkedin_job w c) = Ok j \/ outcome (indeed_job w c) = Ok j.

(** ** Runs and polls *)

(** The log line that follows a request to [sendMessage] made at count [t]. *)
Definition post_log (w : World) (t : nat) : list Event :=
  match post_message w t with
  | PostRaises => [EvLogError "Error sending message" (Some RequestException)]
  | PostStatus code =>
      if code =? 200 then [] else [EvLogError "Failed to send message" None]
  end.

(** The messages of a trace, its log lines and the postings that were
    scored. *)
Definition sends_of (evs : list Event) : list (ChatId * string * option string) :=
  omap (fun e => match e with EvSend c t m => Some (c, t, m) | _ => None end) evs.

Definition logs_of (evs : list Event) : list (string * option Exn) :=
  omap (fun e => match e with EvLogError what e => Some (what, e) | _ => None end)
       evs.

Definition scored_of (evs : list Event) : list Job :=
  omap (fun e => match e with EvScore j => Some j | _ => None end) evs.

(** An event of a run over the postings [jobs] for a user whose
    delivered ids were [sent] when the run began: a scoring call is for a
    fetched posting whose id was not delivered, and so is a formatted
    message, which is the notification of such a posting. *)
Definition fresh_only (jobs : list Job) (sent : list string) (e : Event) : Prop :=
  match e with
  | EvScore j => (j ∈ jobs) /\ (job_id j ∉ sent)
  | EvSend _ text (Some _) =>
      exists j s a,
        (j ∈ jobs) /\ (job_id j ∉ sent) /\ text = match_message j s a
  | _ => True
  end.

(** The reading of "the offset is advanced only after the batch is
    processed" on the events of a poll: nothing follows the write to
    [last_update_id]. *)
Definition acknowledges_last (evs : list Event) : Prop :=
  forall before n after, evs = before ++ EvOffset n :: after -> after = [].

(** * Concrete worlds and states

    They serve as inputs of the examples below. *)

Definition linkedin_card (title company location href : string) : Card :=
  fun sel =>
    if String.eqb sel "h3" then Some (mkElement title None)
    else if String.eqb sel "h4" then Some (mkElement company None)
    else if String.eqb sel ".job-search-card__location"
         then Some (mkElement location None)
    else if String.eqb sel "a" then Some (mkElement "" (Some href))
    else None.

Definition indeed_card (title company location href : string) : Card :=
  fun sel =>
    if String.eqb sel "h2 a" then Some (mkElement title (Some href))
    else if String.eqb sel ".companyName" then Some (mkElement company None)
    else if String.eqb sel ".companyLocation" then Some (mkElement location None)
    else None.

(** The result pages of the two boards: [li] are the cards of LinkedIn
    and [ind] the cards of Indeed, whatever is searched. *)
Definition pages (li ind : list Card) (t : nat) (url : string) : PageReply :=
  PageStatus 200
    (fun sel =>
       if String.eqb sel ".base-card" then li
       else if String.eqb sel ".job_seen_beacon" then ind
       else []).

(** A world where Telegram and the file system answer, the boards show
    the given pages and every other service is down. *)
Definition world_with (fetch : nat -> string -> PageReply)
    (updates : nat -> option Z -> UpdatesReply) (secret : Z * Z) : World :=
  mkWorld (fun _ => "2024-05-01T09:00:00"%string) (fun _ => false)
          (fun _ => PostStatus 200) updates
          (fun _ _ => FileInfoRaises) (fun _ _ => DownloadRaises)
          (fun _ => false) (fun _ _ => None) fetch (fun _ _ => None)
          (fun _ => false) secret "TOKEN" "llama3-70b-8192".

Definition quiet_world : World :=
  world_with (fun _ _ => PageRaises) (fun _ _ => UpdatesJson None) (0, 0).

(** A profile with a resume, as [register_user] and [set_resume] leave it. *)
Definition alice : UserData :=
  with_resume "Python developer, five years" (new_user "2024-05-01T08:00:00").

(** The bot with the single user 42 and nothing done yet. *)
Definition bot_with (u : UserData) : State :=
  mkState {[ "42"%string := u ]} None [] 0.

Definition card_a : Card :=
  linkedin_card "ML Engineer" "Acme" "Pune" "https://www.linkedin.com/jobs/view/1".
Definition card_b : Card :=
  linkedin_card "Data Scientist" "Initech" "Delhi" "https://www.linkedin.com/jobs/view/2".

(** A profile with a hundred delivered ids, [id0] the oldest. *)
Definition hundred_ids : list string :=
  map (fun n => "id" +:+ pretty n) (seq 0 100).

Definition full_alice : UserData := with_jobs_sent hundred_ids alice.

(** Two postings, as [scrape_jobs] returns them. *)
Definition job_a : Job :=
  mkJob "LinkedIn" "ML Engineer" "Acme" "Pune"
        "https://www.linkedin.com/jobs/view/1" "li_3388448179458071919".
Definition job_b : Job :=
  mkJob "LinkedIn" "Data Scientist" "Initech" "Delhi"
        "https://www.linkedin.com/jobs/view/2" "li_4535889626023638794".

(** The two boards: LinkedIn shows the two cards, Indeed nothing. *)
Definition world_ab : World :=
  world_with (pages [card_a; card_b] []) (fun _ _ => UpdatesJson None) (0, 0).

(** The profile after both postings were delivered. *)
Definition seen_alice : UserData :=
  with_jobs_sent [job_id job_a; job_id job_b] alice.

(** A scoring method that answers: 80 for the first posting, 40 for any
    other. *)
Definition scorer_80_40 : Scorer :=
  fun _ job _ =>
    Ok (Some (mkMatch (if String.eqb (job_title job) "ML Engineer" then 80 else 40)
                      "Score: n")).

(** The hash secret that the interpreter derives from the seed 1; the
    secret of [world_ab] is the one of the seed 0. *)
Definition secret_of_seed_1 : Z * Z :=
  (12598376723466036009, 16999324916296290386).

(** The boards of [world_ab], seen by a process started anew. *)
Definition world_ab_restarted : World :=
  world_with (pages [card_a; card_b] []) (fun _ _ => UpdatesJson None)
             secret_of_seed_1.

(** The first posting as the restarted process builds it. *)
Definition job_a_restarted : Job :=
  mkJob "LinkedIn" "ML Engineer" "Acme" "Pune"
        "https://www.linkedin.com/jobs/view/1" "li_-5328423417510594393".

(** Telegram delivers one batch, whatever the offset: [/help] from chat 42. *)
Definition world_help : World :=
  world_with (fun _ _ => PageRaises)
    (fun _ _ => UpdatesJson
                  (Some [mkUpdate 7 (Some (mkMessage 42 None (Some "/help"%string)))]))
    (0, 0).

(** Telegram cannot be reached. *)
Definition world_offline : World :=
  world_with (fun _ _ => PageRaises) (fun _ _ => UpdatesRaise) (0, 0).

(** LinkedIn answers with twelve cards, the second of which has no
    title; Indeed cannot be reached. *)
Definition broken_card : Card :=
  fun sel => if String.eqb sel "h3" then None else card_a sel.

Definition world_mixed : World :=
  world_with
    (fun _ url =>
       if String.prefix "https://www.linkedin.com" url
       then pages (card_a :: broken_card :: card_b :: replicate 9 card_a) [] 0 url
       else PageRaises)
    (fun _ _ => UpdatesJson None) (0, 0).

(** * Further vocabulary *)

(** [x if x is not None else d] *)
Definition given {A} (o : option A) (d : A) : A :=
  match o with
  | Some a => a
  | None => d
  end.

(** The profile [u] after [set_search_preferences] with these arguments
    at time [t]. *)
Definition with_preferences (keywords : option (list string))
    (location : option string) (min_score : option Z)
    (notif_time : option string) (t : string) (u : UserData) : UserData :=
  mkUser (resume u) (given keywords (search_keywords u))
         (given location (search_location u))
         (given min_score (min_match_score u)) (jobs_sent u)
         (given notif_time (notification_time u)) (is_active u) t
         (welcomed u).

(** What [save_users] leaves in the trace when it runs at count [t] on
    the store [us]: the snapshot written, or the log line of the
    failure. *)
Definition save_event (w : World) (t : nat) (us : gmap string UserData) : Event :=
  if dump_fails w t then EvLogError "Error saving user data" (Some OSError)
  else EvSave us.

(** The addresses requested in a trace. *)
Definition gets_of (evs : list Event) : list string :=
  omap (fun e => match e with EvGet u => Some u | _ => None end) evs.

(** The oracle requests of a trace. *)
Definition completions_of (evs : list Event) : list (string * string) :=
  omap (fun e => match e with EvComplete p t => Some (p, t) | _ => None end) evs.

(** The threads started in a trace. *)
Definition threads_of (evs : list Event) : list (Target * ChatId) :=
  omap (fun e => match e with EvThread t c => Some (t, c) | _ => None end) evs.

(** The prefixes that [parse_command] acts on, in the order of its
    branches. *)
Definition command_prefixes : list string :=
  ["/start"; "/help"; "/preferences"; "/keywords"; "/location"; "/score";
   "/time"; "/jobs"; "/analyze"; "/pause"; "/resume"]%string.

(** The stripped text begins with none of them. *)
Definition matches_no_command (text : string) : bool :=
  forallb (fun p => negb (Py.startswith (Py.strip text) p)) command_prefixes.

Definition resume_request : string :=
  "🚀 Please send your resume (as a PDF) so I can match jobs for you!".

Definition paused_reply : string :=
  "⏸️ Job notifications paused. Type /resume to restart.".

Definition resumed_reply : string := "▶️ Job notifications resumed!".

Definition analyzing_notice : string :=
  "🔍 Analyzing your resume... This may take a minute.".

(** The message that carries the suggestions. *)
Definition analysis_report (suggestions : string) : string :=
  "📋 *Resume Analysis*" +:+ nl +:+ nl +:+ suggestions +:+ nl +:+ nl +:+
  "Would you like me to help you implement these suggestions? Reply with /improve to get started.".

Definition suggestions_fallback : string :=
  "Error generating resume improvement suggestions.".

(** ** Documents *)

Definition document_error : string :=
  "❌ Something went wrong processing your document.".

Definition resume_received : string :=
  "✅ Resume received! I'll start sending job matches based on your profile.".

(** What [extract_text_from_pdf] returns for what the reader gives:
    [None] when the reader raises. *)
Definition pdf_text (pages : option (list string)) : string :=
  match pages with
  | None => "❌ Error reading PDF."
  | Some ps =>
      if Py.truthy (Py.join nl ps) then Py.strip (Py.join nl ps)
      else "❌ Unable to extract text."
  end.

Definition pdf_path_of (chat_id : ChatId) : string :=
  "resumes/resume_" +:+ str_chat chat_id +:+ ".pdf".

Definition file_url_of (w : World) (file_path : string) : string :=
  "https://api.telegram.org/file/bot" +:+ BOT_TOKEN w +:+ "/" +:+ file_path.

(** The document sent at count [t] reaches the disk: Telegram names its
    path, the download answers 200 and the file is written. *)
Definition document_saved (w : World) (t : nat) (file_id : string) : bool :=
  match get_file w t file_id with
  | FileInfoJson (Some (Some file_path)) =>
      match download w (S t) (file_url_of w file_path) with
      | DownloadStatus code => (code =? 200) && negb (write_pdf_fails w (S (S t)))
      | DownloadRaises => false
      end
  | _ => false
  end.

(** Telegram delivers the file, which the reader cannot open. *)
Definition world_unreadable_pdf : World :=
  mkWorld (fun _ => "2024-05-01T09:00:00"%string) (fun _ => false)
          (fun _ => PostStatus 200) (fun _ _ => UpdatesJson None)
          (fun _ _ => FileInfoJson (Some (Some "documents/file_1.pdf"%string)))
          (fun _ _ => DownloadStatus 200)
          (fun _ => false) (fun _ _ => None) (fun _ _ => PageRaises)
          (fun _ _ => None) (fun _ => false) (0, 0) "TOKEN" "llama3-70b-8192".

(** The replies of [handle_document] to a document sent at count [t]. *)
Definition document_replies (w : World) (t : nat) (file_id : string)
    (registered : bool) : list string :=
  match get_file w t file_id with
  | FileInfoRaises => [document_error]
  | FileInfoJson None => []
  | FileInfoJson (Some None) => [document_error]
  | FileInfoJson (Some (Some file_path)) =>
      match download w (S t) (file_url_of w file_path) with
      | DownloadRaises => [document_error]
      | DownloadStatus code =>
          if code =? 200 then
            if write_pdf_fails w (S (S t)) then [document_error]
            else if registered then [resume_received; preferences_prompt]
            else ["❌ Failed to save your resume. Please try again."%string]
          else ["❌ Failed to download the PDF."%string]
      end
  end.

(** ** Polling *)

(** The state in which the first message of a batch is handled: the
    request is made and the offset is written. *)
Definition batch_start (w : World) (st : State) (first : Update)
    (rest : list Update) : State :=
  mkState (users st) (Some (max_update_id first rest))
    (trace st ++ [EvGetUpdates (request_offset (last_update_id st));
                  EvOffset (max_update_id first rest)])
    (S (ticks st)).

(** Telegram delivers [/jobs] and then [/help] from chat 42, and no
    thread can be started. *)
Definition world_no_threads : World :=
  mkWorld (fun _ => "2024-05-01T09:00:00"%string) (fun _ => false)
          (fun _ => PostStatus 200)
          (fun _ _ => UpdatesJson
             (Some [mkUpdate 8 (Some (mkMessage 42 None (Some "/jobs"%string)));
                    mkUpdate 9 (Some (mkMessage 42 None (Some "/help"%string)))]))
          (fun _ _ => FileInfoRaises) (fun _ _ => DownloadRaises)
          (fun _ => false) (fun _ _ => None) (fun _ _ => PageRaises)
          (fun _ _ => None) (fun _ => true) (0, 0) "TOKEN" "llama3-70b-8192".

(** ** A run with a scoring method that answers *)

(** The postings of [jobs] whose id is not among the delivered ids of
    [u]. *)
Definition new_postings (u : UserData) (jobs : list Job) : list Job :=
  filter (fun job => job_id job ∉ jobs_sent u) jobs.

(** Those that the scoring [f] puts at or above [threshold]. *)
Definition matches_of (f : Job -> MatchResult) (threshold : Z)
    (new_jobs : list Job) : list Job :=
  filter (fun job => threshold <= score (f job)) new_jobs.

(** The notification of a posting, as [sends_of] shows it. *)
Definition notification (chat_id : ChatId) (f : Job -> MatchResult) (job : Job)
    : ChatId * string * option string :=
  (chat_id, match_message job (score (f job)) (analysis (f job)),
   Some "Markdown"%string).

(** The message that closes a run over [found] new postings of which
    [matched] were notified. *)
Definition closing_message (chat_id : ChatId) (threshold : Z) (found : nat)
    (matched : nat) : ChatId * string * option string :=
  (chat_id,
   match matched with
   | O => none_met found threshold
   | _ => sent_summary (Z.of_nat matched)
   end,
   None).

(** The scoring that [scorer_80_40] computes. *)
Definition score_80_40 (job : Job) : MatchResult :=
  mkMatch (if String.eqb (job_title job) "ML Engineer" then 80 else 40)
          "Score: n".

(** ** Refusals *)

(** The replies that turn a command down begin with a cross. *)
Definition is_refusal (e : Event) : bool :=
  match e with
  | EvSend _ text _ => Py.startswith text "❌"
  | _ => false
  end.

Definition accepted (e : Event) : Prop := is_refusal e = false.

(** Whatever [m] returns or raises, it leaves the store as it was or it
    sends no refusal. *)
Definition kept_or_accepted {A} (m : M A) : Prop :=
  forall st,
    users (snd (m st)) = users st
    \/ extends (trace st) accepted (snd (m st)).

(** ** Whose profile a call may change *)

(** Whatever [m] returns or raises, the entry of the key [k] in the
    store is after [m] what it was before. *)
Definition keeps {A} (k : string) (m : M A) : Prop :=
  forall st, users (snd (m st)) !! k = users st !! k.

(** Every key of [us] is a key of the store. *)
Definition holds_all (us : gmap string UserData) (st : State) : Prop :=
  dom us ⊆ dom (users st).

(** The chat id that a method is called with. *)
Definition op_chat (op : Op) : option ChatId :=
  match op with
  | OpRegisterUser c | OpSetResume c _ | OpSetSearchPreferences c _ _ _ _
  | OpHandleDocument _ c | OpSendResumeAnalysis c | OpSendJobsToUser c
  | OpParseCommand _ c _ => Some c
  | OpProcessTelegramUpdates => None
  end.

(** The key of the chat that an update comes from. *)
Definition sender (update : Update) : option string :=
  match upd_message update with
  | Some message => Some (str_chat (IntId (msg_chat message)))
  | None => None
  end.

(** * The daily broadcast and the schedule *)

(** [send_jobs_to_all_users].  [items us] is [self.users.items()]: the
    entries of the store in the order of the dictionary, which the store
    of the model does not record.  The keys of the store are strings, so
    the thread is started with a string as its chat id.  The line of the
    informational log is not part of the trace. *)
Definition send_jobs_to_all_users (w : World)
    (items : gmap string UserData -> list (string * UserData)) : M unit :=
  us ← gets users;
  for_each (items us)
    (fun item =>
       let chat_id := fst item in
       let user_data := snd item in
       if is_active user_data then
         try_except
           (start_thread w TSendJobsToUser (StrId chat_id);;
            emit (EvSleep "2"))
           (fun e =>
              emit (EvLogError ("Error sending jobs to user " +:+ chat_id)
                               (Some e)))
       else mret tt).

(** The events of a broadcast over the entries [l]. *)
Definition broadcast_event (l : list (string * UserData)) (e : Event) : Prop :=
  e = EvSleep "2"
  \/ exists chat_id u,
       ((chat_id, u) ∈ l) /\ is_active u = true
       /\ (e = EvThread TSendJobsToUser (StrId chat_id)
           \/ e = EvLogError ("Error sending jobs to user " +:+ chat_id)
                             (Some RuntimeError)).

(** A world where only the first attempt to start a thread fails. *)
Definition world_first_thread_fails : World :=
  mkWorld (fun _ => "2024-05-01T09:00:00"%string) (fun _ => false)
          (fun _ => PostStatus 200) (fun _ _ => UpdatesJson None)
          (fun _ _ => FileInfoRaises) (fun _ _ => DownloadRaises)
          (fun _ => false) (fun _ _ => None) (fun _ _ => PageRaises)
          (fun _ _ => None) (fun t => Nat.eqb t 0) (0, 0) "TOKEN"
          "llama3-70b-8192".

(** Three users: the first and the third active, the second paused. *)
Definition three_users : State :=
  mkState (<[ "1"%string := alice ]>
             (<[ "2"%string := with_is_active false alice ]>
                {[ "3"%string := alice ]}))
          None [] 0.

(** ** The scheduler

    The module [schedule] keeps the list of its jobs; the bot adds jobs
    of three kinds. *)
Inductive Action := DoHealthCheck | DoSendJobsToAllUsers | DoScheduleUserJobs.

Inductive When :=
| EveryMinutes (n : nat)
| DailyAt (time : string).

(** The jobs of the scheduler and the lines of the informational log. *)
Record Scheduler := mkScheduler {
  pending : list (When * Action);
  info_log : list string
}.

(** [schedule_user_jobs] returns, or [at] raises for a time that the
    library does not take. *)
Inductive SchedRes :=
| Scheduled
| InvalidTime (time : string).

Definition add_job (job : When * Action) (s : Scheduler) : Scheduler :=
  mkScheduler (pending s ++ [job]) (info_log s).

Definition log_info (line : string) (s : Scheduler) : Scheduler :=
  mkScheduler (pending s) (info_log s ++ [line]).

(** Lines 611 to 614: [time_groups] is a dictionary from a time to the
    chat ids that asked for it, its keys in the order of their first
    use. *)
Fixpoint add_to_group (notif_time chat_id : string)
    (time_groups : list (string * list string)) : list (string * list string) :=
  match time_groups with
  | [] => [(notif_time, [chat_id])]
  | (t, users) :: rest =>
      if String.eqb t notif_time then (t, users ++ [chat_id]) :: rest
      else (t, users) :: add_to_group notif_time chat_id rest
  end.

(** The loop of lines 609 to 614. *)
Definition group_by_time (items : list (string * UserData))
    : list (string * list string) :=
  fold_left (fun time_groups item =>
               if is_active (snd item)
               then add_to_group (notification_time (snd item)) (fst item)
                                 time_groups
               else time_groups)
            items [].

(** The loop of lines 617 to 619.  [valid_at] is the check that [at]
    makes on its argument before the job exists; the job is added to
    the list by [do]. *)
Fixpoint schedule_groups (valid_at : string -> bool)
    (time_groups : list (string * list string)) (s : Scheduler)
    : SchedRes * Scheduler :=
  match time_groups with
  | [] => (Scheduled, s)
  | (notif_time, users) :: rest =>
      let s := log_info ("Scheduling jobs at " +:+ notif_time +:+ " for "
                         +:+ Py.str_int (Z.of_nat (length users)) +:+ " users")
                        s in
      if valid_at notif_time then
        schedule_groups valid_at rest
          (add_job (DailyAt notif_time, DoSendJobsToAllUsers) s)
      else (InvalidTime notif_time, s)
  end.

(** [schedule_user_jobs], on the entries [items] of the store. *)
Definition schedule_user_jobs (valid_at : string -> bool)
    (items : list (string * UserData)) (s : Scheduler) : SchedRes * Scheduler :=
  let s := mkScheduler [] (info_log s) in
  let s := add_job (EveryMinutes 15, DoHealthCheck) s in
  let time_groups := group_by_time items in
  match schedule_groups valid_at time_groups s with
  | (Scheduled, s) =>
      if valid_at "00:01"
      then (Scheduled, add_job (DailyAt "00:01", DoScheduleUserJobs) s)
      else (InvalidTime "00:01", s)
  | (InvalidTime t, s) => (InvalidTime t, s)
  end.

(** The times of the daily alerts in a list of jobs. *)
Definition alert_times (jobs : list (When * Action)) : list string :=
  omap (fun job => match job with
                   | (DailyAt t, DoSendJobsToAllUsers) => Some t
                   | _ => None
                   end) jobs.

(** A check of the form [HH:MM], for the examples. *)
Definition hh_mm (time : string) : bool :=
  match time with
  | String h1 (String h2 (String c (String m1 (String m2 EmptyString)))) =>
      Py.isdigit h1 && Py.isdigit h2 && Ascii.eqb c ":"
      && Py.isdigit m1 && Py.isdigit m2
  | _ => false
  end.

(** Entries of a store: two users at nine, one at a time that is not a
    time, one paused. *)
Definition four_items : list (string * UserData) :=
  [("1", alice); ("2", with_notification_time "ab:cd" alice);
   ("3", alice); ("4", with_is_active false alice)]%string.

(** * Properties *)

(** ** Running a computation *)

Lemma run_ret {A} (a : A) (st : State) : (mret a : M A) st = (Ok a, st).
Proof. reflexivity. Qed.

Lemma run_bind {A B} (m : M A) (k : A -> M B) (st : State) :
  (m ≫= k) st =
  match m st with
  | (Ok a, st') => k a st'
  | (Raise e, st') => (Raise e, st')
  end.
Proof. reflexivity. Qed.

Lemma run_bind_ok {A B} (m : M A) (k : A -> M B) (st st' : State) (a : A) :
  m st = (Ok a, st') -> (m ≫= k) st = k a st'.
Proof. intros H. rewrite run_bind, H. reflexivity. Qed.

Lemma run_bind_raise {A B} (m : M A) (k : A -> M B) (st st' : State) (e : Exn) :
  m st = (Raise e, st') -> (m ≫= k) st = (Raise e, st').
Proof. intros H. rewrite run_bind, H. reflexivity. Qed.

Lemma run_try {A} (body : M A) (handler : Exn -> M A) (st : State) :
  try_except body handler st =
  match body st with
  | (Ok a, st') => (Ok a, st')
  | (Raise e, st') => handler e st'
  end.
Proof. reflexivity. Qed.

Lemma run_emit (e : Event) (st : State) :
  emit e st = (Ok tt, mkState (users st) (last_update_id st) (trace st ++ [e])
                              (ticks st)).
Proof. reflexivity. Qed.

Lemma run_ask {A} (f : nat -> A) (st : State) :
  ask f st = (Ok (f (ticks st)),
              mkState (users st) (last_update_id st) (trace st) (S (ticks st))).
Proof. reflexivity. Qed.

Lemma run_gets {A} (f : State -> A) (st : State) : gets f st = (Ok (f st), st).
Proof. reflexivity. Qed.

Lemma run_raise {A} (e : Exn) (st : State) : (raise e : M A) st = (Raise e, st).
Proof. reflexivity. Qed.

Lemma user_data_run (k : string) (u : UserData) (st : State) :
  users st !! k = Some u -> user_data k st = (Ok u, st).
Proof.
  intros Hu. unfold user_data. rewrite run_bind, run_gets. cbv beta iota.
  rewrite Hu. reflexivity.
Qed.

Lemma run_set_users (us : gmap string UserData) (st : State) :
  set_users us st = (Ok tt, mkState us (last_update_id st) (trace st) (ticks st)).
Proof. reflexivity. Qed.

(** Rewriting with the equations of the monad, then reducing the
    matches on the results. *)
Ltac run :=
  repeat (first [ rewrite run_bind | rewrite run_try | rewrite run_emit
                | rewrite run_ask | rewrite run_gets | rewrite run_ret
                | rewrite run_raise | rewrite run_set_users ];
          cbv beta iota);
  cbn [users last_update_id trace ticks fst snd].

(** ** The store operations on unknown and on registered ids *)

(** C10: [set_resume] and [set_search_preferences] on an id that is not
    in the store return [False] and leave the whole state as it was (no
    profile is touched, nothing is written or sent); [register_user] on
    an id that is in the store returns [False] and leaves the whole state,
    hence the profile of that user, as it was. *)
Theorem store_calls_without_effect (w : World) (chat_id : ChatId) (st : State) :
  match users st !! str_chat chat_id with
  | None =>
      (forall resume_text, set_resume w chat_id resume_text st = (Ok false, st))
      /\ (forall keywords location min_score notification_time,
            set_search_preferences w chat_id keywords location min_score
              notification_time st = (Ok false, st))
  | Some _ => register_user w chat_id st = (Ok false, st)
  end.
Proof.
  destruct (users st !! str_chat chat_id) as [u|] eqn:Hu.
  - unfold register_user. rewrite run_bind. simpl. rewrite Hu. reflexivity.
  - split; intros.
    + unfold set_resume. rewrite run_bind. simpl. rewrite Hu. reflexivity.
    + unfold set_search_preferences. rewrite run_bind. simpl. rewrite Hu.
      reflexivity.
Qed.


(** ** The calculus of invariants *)

Lemma preserves_ret {A} I (a : A) : preserves I (mret a : M A).
Proof. intros st H. exact H. Qed.

Lemma preserves_raise {A} I e : preserves I (raise e : M A).
Proof. intros st H. exact H. Qed.

Lemma preserves_gets {A} I (f : State -> A) : preserves I (gets f).
Proof. intros st H. exact H. Qed.

Lemma preserves_subscript {A} I (o : option A) e : preserves I (subscript o e).
Proof. destruct o; intros st H; exact H. Qed.

Lemma preserves_bind {A B} I (m : M A) (k : A -> M B) :
  preserves I m -> (forall a, preserves I (k a)) -> preserves I (m ≫= k).
Proof.
  intros Hm Hk st H. rewrite run_bind. specialize (Hm st H).
  destruct (m st) as [[a|e] st']; simpl in *.
  - apply Hk, Hm.
  - exact Hm.
Qed.

Lemma preserves_try {A} I (body : M A) (handler : Exn -> M A) :
  preserves I body -> (forall e, preserves I (handler e)) ->
  preserves I (try_except body handler).
Proof.
  intros Hb Hh st H. unfold try_except. specialize (Hb st H).
  destruct (body st) as [[a|e] st']; simpl in *.
  - exact Hb.
  - apply Hh, Hb.
Qed.

Lemma preserves_for_each {A} I (l : list A) (body : A -> M unit) :
  (forall x, preserves I (body x)) -> preserves I (for_each l body).
Proof.
  intros Hb. induction l as [|x l IH]; simpl.
  - apply preserves_ret.
  - apply preserves_bind; [apply Hb | intros _; exact IH].
Qed.

Lemma preserves_for_fold {A B} I (l : list A) (acc : B) (body : A -> B -> M B) :
  (forall x b, preserves I (body x b)) -> preserves I (for_fold l acc body).
Proof.
  intros Hb. revert acc. induction l as [|x l IH]; intros acc; simpl.
  - apply preserves_ret.
  - apply preserves_bind; [apply Hb | intros b; apply IH].
Qed.


Lemma last_n_short {A} (n : nat) (l : list A) :
  (length l <= n)%nat -> Py.last_n n l = l.
Proof.
  intros H. unfold Py.last_n.
  replace (length l - n)%nat with 0%nat by lia. reflexivity.
Qed.

Lemma length_last_n {A} (n : nat) (l : list A) :
  length (Py.last_n n l) = Nat.min n (length l).
Proof. unfold Py.last_n. rewrite length_drop. lia. Qed.

Lemma record_sent_run (k id : string) (st : State) :
  record_sent k id st =
  match users st !! k with
  | Some u => (Ok tt, mkState (<[k := mark_sent id u]> (users st))
                              (last_update_id st) (trace st) (ticks st))
  | None => (Raise KeyError, st)
  end.
Proof.
  unfold record_sent, update_user, user_data.
  rewrite run_bind. simpl. rewrite run_bind. simpl.
  destruct (users st !! k) as [u|] eqn:Hu; simpl; [|reflexivity].
  rewrite !run_bind. simpl. rewrite lookup_insert_eq. simpl.
  destruct (Nat.ltb 100 (length (jobs_sent u ++ [id]))) eqn:Hlen.
  - rewrite run_bind. simpl. rewrite lookup_insert_eq. simpl.
    rewrite insert_insert_eq. reflexivity.
  - simpl. apply Nat.ltb_ge in Hlen. unfold mark_sent.
    rewrite last_n_short by exact Hlen. reflexivity.
Qed.


Lemma field_edit_with_resume v : field_edit (with_resume v).
Proof. intros u. split; reflexivity. Qed.
Lemma field_edit_with_search_keywords v : field_edit (with_search_keywords v).
Proof. intros u. split; reflexivity. Qed.
Lemma field_edit_with_search_location v : field_edit (with_search_location v).
Proof. intros u. split; reflexivity. Qed.
Lemma field_edit_with_notification_time v : field_edit (with_notification_time v).
Proof. intros u. split; reflexivity. Qed.
Lemma field_edit_with_is_active v : field_edit (with_is_active v).
Proof. intros u. split; reflexivity. Qed.
Lemma field_edit_with_last_activity v : field_edit (with_last_activity v).
Proof. intros u. split; reflexivity. Qed.

Create HintDb bot.
#[export] Hint Resolve field_edit_with_resume field_edit_with_search_keywords
  field_edit_with_search_location field_edit_with_notification_time
  field_edit_with_is_active field_edit_with_last_activity : bot.

Section Preservation.

Variable I : State -> Prop.
Variable EvOk : Event -> Prop.
Variable FOk : (UserData -> UserData) -> Prop.
Hypothesis HS : Stable I EvOk FOk.
Variable w : World.

Lemma preserves_emit e : EvOk e -> preserves I (emit e).
Proof. intros He st H. simpl. apply (stable_emit _ _ _ HS); assumption. Qed.

Lemma preserves_emit_neutral e : neutral e = true -> preserves I (emit e).
Proof. intros He. apply preserves_emit, (stable_neutral _ _ _ HS), He. Qed.

Lemma preserves_ask {A} (f : nat -> A) : preserves I (ask f).
Proof. intros st H. simpl. apply (stable_ask _ _ _ HS), H. Qed.

Lemma preserves_update_user k f : FOk f -> preserves I (update_user k f).
Proof.
  intros Hf st H. unfold update_user. rewrite run_bind. simpl.
  destruct (users st !! k) as [u|] eqn:Hu; simpl.
  - apply (stable_update _ _ _ HS); assumption.
  - exact H.
Qed.

Lemma preserves_user_data k : preserves I (user_data k).
Proof.
  unfold user_data. apply preserves_bind; [apply preserves_gets|].
  intros us. apply preserves_subscript.
Qed.

(** One rule of the calculus, chosen by the shape of the computation. *)
Ltac pres_step :=
  lazymatch goal with
  | |- preserves _ (mret _) => apply preserves_ret
  | |- preserves _ (raise _) => apply preserves_raise
  | |- preserves _ (gets _) => apply preserves_gets
  | |- preserves _ (subscript _ _) => apply preserves_subscript
  | |- preserves _ (ask _) => apply preserves_ask
  | |- preserves _ (user_data _) => apply preserves_user_data
  | |- preserves _ (emit _) =>
      first [ apply preserves_emit_neutral; reflexivity
            | apply preserves_emit; auto ]
  | |- preserves _ (update_user _ _) =>
      apply preserves_update_user; solve [eauto with bot]
  | |- preserves _ (_ ≫= _) => apply preserves_bind; [| intros ?]
  | |- preserves _ (try_except _ _) => apply preserves_try; [| intros ?]
  | |- preserves _ (for_each _ _) => apply preserves_for_each; intros ?
  | |- preserves _ (for_fold _ _ _) => apply preserves_for_fold; intros ? ?
  | |- preserves _ (when_given ?o _) => destruct o; simpl
  | |- preserves _ (match ?x with _ => _ end) => destruct x eqn:?
  end.

Ltac pres :=
  cbv zeta;
  repeat (first [ pres_step | solve [eauto with bot] ]; cbv zeta);
  auto.

#[local] Hint Unfold text_of href_of keywords_str linkedin_url indeed_url
  linkedin_job indeed_job item complete start_thread nth_part
  ask_for_preferences : bot.

Lemma preserves_save_users : preserves I (save_users w).
Proof. unfold save_users. pres. Qed.

Lemma preserves_send_message chat_id text mode :
  EvOk (EvSend chat_id text (data_mode mode)) ->
  preserves I (send_message w chat_id text mode).
Proof. intros He. unfold send_message. pres. Qed.

Lemma preserves_ask_for_resume chat_id :
  (forall text, EvOk (EvSend chat_id text None)) ->
  preserves I (ask_for_resume w chat_id).
Proof. intros He. apply preserves_send_message, He. Qed.

#[local] Hint Resolve preserves_save_users preserves_send_message
  preserves_ask_for_resume : bot.

Lemma preserves_scrape_board board url selector parse job_list :
  preserves I url -> (forall c, preserves I (parse c)) ->
  preserves I (scrape_board w board url selector parse job_list).
Proof. intros Hu Hp. unfold scrape_board. pres. Qed.

Lemma preserves_scrape_jobs keywords location :
  preserves I (scrape_jobs w keywords location).
Proof.
  unfold scrape_jobs. pres;
    (apply preserves_scrape_board; [|intros c]; autounfold with bot; pres).
Qed.

Lemma preserves_record_sent k id :
  FOk (mark_sent id) -> preserves I (record_sent k id).
Proof.
  intros Hf st H. rewrite record_sent_run.
  destruct (users st !! k) as [u|] eqn:Hu; simpl; [|exact H].
  apply (stable_update _ _ _ HS); assumption.
Qed.

Lemma preserves_call_scorer sc job resume_text :
  EvOk (EvScore job) -> preserves I (call_scorer sc job resume_text).
Proof. intros He. unfold call_scorer. pres. Qed.

(** What follows [record_sent] in the body of the loop. *)
Lemma preserves_score_and_send sc chat_id job matches_found :
  EvOk (EvScore job) ->
  (forall s a, EvOk (EvSend chat_id (match_message job s a) (Some "Markdown"%string))) ->
  preserves I (score_and_send w sc chat_id job matches_found).
Proof.
  intros Hs Hm. unfold score_and_send. autounfold with bot.
  pose proof (preserves_call_scorer sc job) as Hc.
  pres.
Qed.

Lemma preserves_process_job sc chat_id job matches_found :
  FOk (mark_sent (job_id job)) ->
  EvOk (EvScore job) ->
  (forall s a, EvOk (EvSend chat_id (match_message job s a) (Some "Markdown"%string))) ->
  preserves I (process_job w sc chat_id job matches_found).
Proof.
  intros Hf Hs Hm. unfold process_job.
  apply preserves_bind; [apply preserves_record_sent, Hf | intros _].
  apply preserves_score_and_send; assumption.
Qed.

Lemma preserves_for_fold_in {A B} (l : list A) (acc : B) (body : A -> B -> M B) :
  (forall x b, x ∈ l -> preserves I (body x b)) ->
  preserves I (for_fold l acc body).
Proof.
  revert acc. induction l as [|x l IH]; intros acc Hb; simpl.
  - apply preserves_ret.
  - apply preserves_bind; [apply Hb; left | intros b; apply IH].
    intros y c Hy. apply Hb. right. exact Hy.
Qed.

(** The run once the postings are fetched, for a registered user: the
    postings that pass the filter are the only ones recorded, scored and
    sent. *)
Lemma deliver_from sc chat_id jobs u st :
  users st !! str_chat chat_id = Some u ->
  (forall text, EvOk (EvSend chat_id text None)) ->
  (forall j, j ∈ jobs -> job_id j ∉ jobs_sent u ->
     FOk (mark_sent (job_id j)) /\ EvOk (EvScore j)
     /\ forall s a, EvOk (EvSend chat_id (match_message j s a)
                                 (Some "Markdown"%string))) ->
  I st -> I (snd (deliver w sc chat_id jobs st)).
Proof.
  intros Hu Hplain Hnew H. unfold deliver. destruct jobs as [|j0 jobs'].
  - apply preserves_send_message; auto.
  - cbv zeta. rewrite run_bind, (user_data_run _ _ _ Hu). cbv beta iota.
    assert (Hin : forall x,
               x ∈ filter (fun job => job_id job ∉ jobs_sent u) (j0 :: jobs') ->
               x ∈ j0 :: jobs' /\ job_id x ∉ jobs_sent u).
    { intros x Hx. apply list_elem_of_filter in Hx. tauto. }
    destruct (filter (fun job => job_id job ∉ jobs_sent u) (j0 :: jobs'))
      as [|n ns].
    + apply preserves_send_message; auto.
    + revert H. generalize st. apply preserves_bind.
      * apply preserves_for_fold_in. intros x b Hx.
        destruct (Hin x Hx) as [Hx1 Hx2].
        destruct (Hnew x Hx1 Hx2) as (Hf & Hs & Hm).
        apply preserves_process_job; assumption.
      * intros matches_found. pres.
Qed.

(** From here on: a fresh profile may be registered, the fields other
    than the delivered ids and the threshold may be edited, every
    delivery and every scoring call is allowed. *)
Hypothesis I_insert : forall st k t, users st !! k = None -> I st ->
  I (mkState (<[k := new_user t]> (users st)) (last_update_id st) (trace st)
             (ticks st)).
Hypothesis FOk_field : forall f, field_edit f -> FOk f.
Hypothesis EvOk_send : forall c t m, EvOk (EvSend c t m).
Hypothesis EvOk_score : forall j, EvOk (EvScore j).
Hypothesis FOk_mark : forall id, FOk (mark_sent id).

Lemma preserves_register_user chat_id : preserves I (register_user w chat_id).
Proof.
  intros st H. unfold register_user. rewrite run_bind. simpl.
  destruct (users st !! str_chat chat_id) eqn:Hu; [exact H|].
  set (st1 := mkState (users st) (last_update_id st) (trace st) (S (ticks st))).
  assert (H1 : I st1) by (apply (stable_ask _ _ _ HS), H).
  rewrite run_bind. simpl. fold st1.
  set (st2 := mkState (<[str_chat chat_id := new_user (now w (ticks st))]> (users st1))
                      (last_update_id st1) (trace st1) (ticks st1)).
  assert (H2 : I st2) by (apply I_insert; assumption).
  change (I (snd ((save_users w;; (mret true : M bool)) st2))).
  revert H2. generalize st2. change (preserves I (save_users w;; (mret true : M bool))).
  pres.
Qed.

Lemma preserves_set_resume chat_id text : preserves I (set_resume w chat_id text).
Proof. unfold set_resume. pres. Qed.

Lemma preserves_set_search_preferences chat_id kws loc sc nt :
  (forall v, sc = Some v -> FOk (with_min_match_score v)) ->
  preserves I (set_search_preferences w chat_id kws loc sc nt).
Proof. intros Hsc. unfold set_search_preferences. pres. Qed.

#[local] Hint Resolve preserves_scrape_jobs preserves_record_sent
  preserves_call_scorer preserves_process_job preserves_register_user
  preserves_set_resume : bot.

Lemma preserves_deliver sc chat_id jobs :
  preserves I (deliver w sc chat_id jobs).
Proof. unfold deliver. pres. Qed.

Lemma preserves_send_jobs_to_user_with sc chat_id :
  preserves I (send_jobs_to_user_with w sc chat_id).
Proof.
  unfold send_jobs_to_user_with. pres. apply preserves_deliver.
Qed.

Lemma preserves_extract_text_from_pdf path :
  preserves I (extract_text_from_pdf w path).
Proof. unfold extract_text_from_pdf. pres. Qed.

#[local] Hint Resolve preserves_extract_text_from_pdf : bot.

Lemma preserves_handle_document file_id chat_id :
  preserves I (handle_document w file_id chat_id).
Proof. unfold handle_document. autounfold with bot. pres. Qed.

Lemma preserves_send_resume_analysis chat_id :
  preserves I (send_resume_analysis w chat_id).
Proof.
  unfold send_resume_analysis, get_resume_improvement_suggestions,
    read_unbound_prompt, extract_score.
  autounfold with bot. pres.
Qed.

Lemma preserves_cmd_score text chat_id :
  (forall v, 0 <= v <= 100 -> FOk (with_min_match_score v)) ->
  preserves I (cmd_score w text chat_id).
Proof.
  intros Hv. unfold cmd_score. pres.
  apply preserves_set_search_preferences. intros v [= <-]. apply Hv. lia.
Qed.

Lemma preserves_cmd_time text chat_id : preserves I (cmd_time w text chat_id).
Proof.
  unfold cmd_time. pres.
  apply preserves_set_search_preferences. intros v [=].
Qed.

Lemma preserves_cmd_keywords text chat_id :
  preserves I (cmd_keywords w text chat_id).
Proof.
  unfold cmd_keywords. pres.
  apply preserves_set_search_preferences. intros v [=].
Qed.

Lemma preserves_cmd_location text chat_id :
  preserves I (cmd_location w text chat_id).
Proof.
  unfold cmd_location. pres.
  apply preserves_set_search_preferences. intros v [=].
Qed.

Lemma preserves_cmd_set_active chat_id active reply :
  preserves I (cmd_set_active w chat_id active reply).
Proof. unfold cmd_set_active. pres. Qed.

(** Every command but the combined one. *)
Lemma preserves_parse_command_but_preferences text chat_id skip_welcome :
  Py.startswith (Py.strip text) "/preferences" = false ->
  (forall v, 0 <= v <= 100 -> FOk (with_min_match_score v)) ->
  preserves I (parse_command w text chat_id skip_welcome).
Proof.
  intros Hno Hv.
  pose proof (fun t c => preserves_cmd_score t c Hv) as Hscore.
  pose proof preserves_cmd_time. pose proof preserves_cmd_keywords.
  pose proof preserves_cmd_location. pose proof preserves_cmd_set_active.
  unfold parse_command. autounfold with bot. pres; congruence.
Qed.

(** The combined command stores whatever integer it reads. *)
Hypothesis FOk_score : forall v, FOk (with_min_match_score v).

Lemma preserves_cmd_preferences text chat_id :
  preserves I (cmd_preferences w text chat_id).
Proof.
  unfold cmd_preferences. autounfold with bot. pres.
  apply preserves_set_search_preferences. intros; apply FOk_score.
Qed.

#[local] Hint Resolve preserves_cmd_score preserves_cmd_time
  preserves_cmd_keywords preserves_cmd_location preserves_cmd_set_active
  preserves_cmd_preferences preserves_handle_document : bot.

Lemma preserves_parse_command text chat_id skip_welcome :
  preserves I (parse_command w text chat_id skip_welcome).
Proof. unfold parse_command. autounfold with bot. pres. Qed.

#[local] Hint Resolve preserves_parse_command : bot.

Lemma preserves_handle_update update : preserves I (handle_update w update).
Proof. unfold handle_update. pres. Qed.

#[local] Hint Resolve preserves_handle_update : bot.

(** The write to [last_update_id] is one more elementary step. *)
Hypothesis I_offset : forall st n, I st ->
  I (mkState (users st) (Some n) (trace st ++ [EvOffset n]) (ticks st)).

Lemma preserves_set_last_update_id n : preserves I (set_last_update_id n).
Proof. intros st H. simpl. apply I_offset, H. Qed.

Lemma preserves_process_telegram_updates :
  preserves I (process_telegram_updates w).
Proof.
  pose proof preserves_set_last_update_id.
  unfold process_telegram_updates. pres.
Qed.

End Preservation.

(** ** The bound on the delivered ids *)


Lemma store_ok_stable : Stable store_ok (fun _ => True) keeps_bound.
Proof.
  split; try (intros; exact Logic.I).
  - intros st e _ H. exact H.
  - intros st H. exact H.
  - intros st k u f Hf Hu H k' u'. simpl. rewrite lookup_insert.
    case_decide as Hk.
    + intros [= <-]. apply Hf. apply (H k u Hu).
    + apply H.
Qed.

Lemma store_ok_insert st k t :
  users st !! k = None -> store_ok st ->
  store_ok (mkState (<[k := new_user t]> (users st)) (last_update_id st)
                    (trace st) (ticks st)).
Proof.
  intros Hk H k' u'. simpl. rewrite lookup_insert.
  case_decide as Hk'.
  - intros [= <-]. simpl. lia.
  - apply H.
Qed.

Lemma keeps_bound_field f : field_edit f -> keeps_bound f.
Proof. intros Hf u Hu. destruct (Hf u) as [-> _]. exact Hu. Qed.

Lemma keeps_bound_mark_sent id : keeps_bound (mark_sent id).
Proof.
  intros u _. unfold mark_sent. simpl. rewrite length_last_n. lia.
Qed.

Lemma keeps_bound_score v : keeps_bound (with_min_match_score v).
Proof. intros u H. exact H. Qed.


Lemma run_op_store_ok (w : World) (sc : Scorer) (op : Op) (st : State) :
  store_ok st -> store_ok (run_op w sc op st).
Proof.
  pose proof store_ok_stable as HS.
  pose proof keeps_bound_mark_sent as Hm.
  pose proof keeps_bound_score as Hv.
  pose proof store_ok_insert as Hi.
  pose proof keeps_bound_field as Hf.
  destruct op; simpl.
  - apply (preserves_register_user _ _ _ HS); auto.
  - apply (preserves_set_resume _ _ _ HS); auto.
  - apply (preserves_set_search_preferences _ _ _ HS); auto.
  - apply (preserves_handle_document _ _ _ HS); auto.
  - apply (preserves_send_resume_analysis _ _ _ HS); auto.
  - apply (preserves_send_jobs_to_user_with _ _ _ HS); auto.
  - apply (preserves_parse_command _ _ _ HS); auto.
  - apply (preserves_process_telegram_updates _ _ _ HS); auto.
Qed.

(** C6: in a store where every profile holds at most a hundred delivered
    ids, every call of a method of the bot, returning or raising and
    whatever the scoring method does, leaves a store with the same bound;
    and recording an id keeps the last hundred entries of the old list
    followed by the new id, in their order: what is dropped is a prefix,
    the oldest entries. *)
Theorem jobs_sent_bounded_oldest_evicted
    (w : World) (sc : Scorer) (op : Op) (st : State) (H : store_ok st) :
  store_ok (run_op w sc op st)
  /\ forall k u id, users st !! k = Some u ->
       exists evicted kept,
         users (snd (record_sent k id st)) !! k = Some (with_jobs_sent kept u)
         /\ jobs_sent u ++ [id] = evicted ++ kept
         /\ length kept = Nat.min 100 (length (jobs_sent u) + 1)
         /\ (length evicted <= 1)%nat.
Proof.
  split; [apply run_op_store_ok, H|].
  intros k u id Hu. rewrite record_sent_run, Hu. cbn [snd users].
  exists (take (length (jobs_sent u ++ [id]) - 100) (jobs_sent u ++ [id])),
         (Py.last_n 100 (jobs_sent u ++ [id])).
  rewrite lookup_insert_eq. split; [reflexivity|].
  unfold Py.last_n. rewrite take_drop. split; [reflexivity|].
  specialize (H k u Hu).
  rewrite length_drop, length_take, !length_app. simpl length. lia.
Qed.

Lemma store_ok_bot_with (u : UserData) :
  (length (jobs_sent u) <= 100)%nat -> store_ok (bot_with u).
Proof.
  intros Hu k u'. unfold bot_with. simpl.
  rewrite lookup_singleton. case_decide; [|discriminate].
  intros [= <-]. exact Hu.
Defined.

Lemma jobs_sent_bounded_oldest_evicted_witness :
  store_ok (run_op quiet_world get_match_score (OpSendJobsToUser (IntId 42))
                   (bot_with full_alice)).
Proof.
  apply (jobs_sent_bounded_oldest_evicted quiet_world get_match_score
           (OpSendJobsToUser (IntId 42)) (bot_with full_alice)).
  apply store_ok_bot_with. vm_compute. lia.
Defined.

(** The hundred-and-first id pushes out the oldest one. *)
Example record_sent_full :
  jobs_sent <$> (users (snd (record_sent "42" "li_new" (bot_with full_alice)))
                 !! "42"%string)
  = Some (drop 1 hundred_ids ++ ["li_new"%string]).
Proof. vm_compute. reflexivity. Qed.

(** ** Results of computations *)

Lemma returns_ret {A} (P : A -> Prop) (a : A) : P a -> returns P (mret a : M A).
Proof. intros H st. exists a. split; [reflexivity | exact H]. Qed.

Lemma returns_weaken {A} (P Q : A -> Prop) (m : M A) :
  (forall a, P a -> Q a) -> returns P m -> returns Q m.
Proof.
  intros HPQ Hm st. destruct (Hm st) as (a & Ha & HP). exists a. auto.
Qed.

Lemma returns_bind {A B} (P : A -> Prop) (Q : B -> Prop) (m : M A) (k : A -> M B) :
  returns P m -> (forall a, P a -> returns Q (k a)) -> returns Q (m ≫= k).
Proof.
  intros Hm Hk st. rewrite run_bind. destruct (Hm st) as (a & Ha & HP).
  destruct (m st) as [r st']. simpl in Ha. subst r. apply (Hk a HP).
Qed.

Lemma never_raises_bind {A B} (Q : B -> Prop) (m : M A) (k : A -> M B) :
  never_raises m -> (forall a, returns Q (k a)) -> returns Q (m ≫= k).
Proof. intros Hm Hk. apply (returns_bind (fun _ => True)); auto. Qed.

Lemma returns_gets {A} (f : State -> A) : never_raises (gets f).
Proof. intros st. exists (f st). split; [reflexivity | exact Logic.I]. Qed.

Lemma returns_emit e : never_raises (emit e).
Proof. intros st. exists tt. split; [reflexivity | exact Logic.I]. Qed.

Lemma returns_ask {A} (f : nat -> A) : never_raises (ask f).
Proof. intros st. exists (f (ticks st)). split; [reflexivity | exact Logic.I]. Qed.

(** A [try] whose handler returns: the result is in [Q] as soon as the
    results of the body, when it has one, are. *)
Lemma returns_try {A} (Q : A -> Prop) (body : M A) (handler : Exn -> M A) :
  ensures Q body -> (forall e, returns Q (handler e)) ->
  returns Q (try_except body handler).
Proof.
  intros Hb Hh st. unfold try_except. specialize (Hb st).
  destruct (body st) as [[a|e] st']; simpl in *.
  - exists a. split; [reflexivity | exact Hb].
  - apply Hh.
Qed.

Lemma ensures_true {A} (m : M A) : ensures (fun _ => True) m.
Proof. intros st. destruct (fst (m st)); exact Logic.I. Qed.

Lemma ensures_ret {A} (P : A -> Prop) (a : A) : P a -> ensures P (mret a : M A).
Proof. intros H st. exact H. Qed.

Lemma ensures_raise {A} (P : A -> Prop) e : ensures P (raise e : M A).
Proof. intros st. exact Logic.I. Qed.

Lemma ensures_bind {A B} (Q : B -> Prop) (m : M A) (k : A -> M B) :
  (forall a, ensures Q (k a)) -> ensures Q (m ≫= k).
Proof.
  intros Hk st. rewrite run_bind.
  destruct (m st) as [[a|e] st']; simpl; [apply Hk | exact Logic.I].
Qed.

Lemma returns_ensures {A} (P : A -> Prop) (m : M A) : returns P m -> ensures P m.
Proof.
  intros Hm st. destruct (Hm st) as (a & Ha & HP). rewrite Ha. exact HP.
Qed.

(** A loop whose body returns: [P i] holds of the local variable after
    [i] rounds. *)
Lemma returns_for_fold {A B} (P : nat -> B -> Prop) (l : list A) (acc : B)
    (body : A -> B -> M B) :
  P 0%nat acc ->
  (forall x b i, P i b -> returns (P (S i)) (body x b)) ->
  returns (P (length l)) (for_fold l acc body).
Proof.
  intros H0 Hb. revert acc P H0 Hb.
  induction l as [|x l IH]; intros acc P H0 Hb; simpl.
  - apply returns_ret, H0.
  - apply (returns_bind (P 1%nat)); [apply Hb, H0|].
    intros b Hb1. apply (IH b (fun i => P (S i))); [exact Hb1|].
    intros y c i Hc. apply Hb, Hc.
Qed.

Lemma never_raises_save_users w : never_raises (save_users w).
Proof.
  unfold save_users. apply returns_try; [apply ensures_true|].
  intros e. apply returns_emit.
Qed.

Lemma never_raises_send_message w chat_id text mode :
  never_raises (send_message w chat_id text mode).
Proof.
  unfold send_message. apply returns_try; [apply ensures_true|].
  intros e. apply returns_emit.
Qed.

(** ** Fetching postings *)

Lemma stateless_keywords_str keywords : stateless (keywords_str keywords).
Proof. intros st. destruct keywords; reflexivity. Qed.

Lemma stateless_linkedin_url keywords location :
  stateless (linkedin_url keywords location).
Proof. intros st. destruct keywords; reflexivity. Qed.

Lemma stateless_indeed_url keywords location :
  stateless (indeed_url keywords location).
Proof. intros st. destruct keywords; reflexivity. Qed.

Lemma stateless_linkedin_job w c : stateless (linkedin_job w c).
Proof.
  intros st. unfold outcome, linkedin_job, text_of, href_of.
  destruct (c "h3"%string); [|reflexivity].
  destruct (c "h4"%string); [|reflexivity].
  destruct (c ".job-search-card__location"%string); [|reflexivity].
  destruct (c "a"%string) as [anchor|]; [|reflexivity].
  destruct (el_href anchor); reflexivity.
Qed.

Lemma stateless_indeed_job w c : stateless (indeed_job w c).
Proof.
  intros st. unfold outcome, indeed_job, text_of, href_of.
  destruct (c "h2 a"%string) as [anchor|]; [|reflexivity].
  destruct (el_href anchor); [|reflexivity].
  destruct (c ".companyName"%string); [|reflexivity].
  destruct (c ".companyLocation"%string); reflexivity.
Qed.

(** The loop over the cards of a page. *)
Lemma card_loop_run (board : string) (parse : Card -> M Job) (cards : list Card) :
  (forall c, stateless (parse c)) ->
  forall (job_list : list Job) (st : State),
  for_fold cards job_list
    (fun job job_list =>
       try_except
         (j ← parse job; mret (job_list ++ [j]))
         (fun e => emit (EvLogError (board +:+ " parsing error") (Some e));;
                   mret job_list)) st
  = (Ok (job_list ++ omap (fun c => match outcome (parse c) with
                                    | Ok j => Some j
                                    | Raise _ => None
                                    end) cards),
     mkState (users st) (last_update_id st)
       (trace st ++ flat_map (fun c => match outcome (parse c) with
                                       | Ok _ => []
                                       | Raise e =>
                                           [EvLogError (board +:+ " parsing error")
                                                       (Some e)]
                                       end) cards)
       (ticks st)).
Proof.
  intros Hp. induction cards as [|c cards IH]; intros job_list st.
  - simpl. rewrite !app_nil_r. destruct st; reflexivity.
  - cbn [for_fold flat_map]. rewrite run_bind. unfold try_except at 1.
    rewrite run_bind, (Hp c st).
    change (omap ?f (c :: cards)) with
      (match f c with Some y => y :: omap f cards | None => omap f cards end).
    cbn beta.
    destruct (outcome (parse c)) as [j|e]; cbn -[for_fold omap flat_map].
    + rewrite IH. rewrite <- app_assoc. reflexivity.
    + rewrite run_bind. cbn -[for_fold omap flat_map]. rewrite IH.
      cbn -[omap flat_map]. rewrite <- app_assoc. reflexivity.
Qed.

(** One block of [scrape_jobs] returns the list it was given followed by
    the postings of the board, and changes nothing but the trace and the
    count of interactions. *)
Lemma scrape_board_run (w : World) (board : string) (url : M string)
    (selector : string) (parse : Card -> M Job) (job_list : list Job)
    (st : State) :
  stateless url -> (forall c, stateless (parse c)) ->
  scrape_board w board url selector parse job_list st
  = (Ok (job_list ++ board_jobs w url selector parse (ticks st)),
     mkState (users st) (last_update_id st)
             (trace st ++ board_trace w board url selector parse (ticks st))
             (ticks st + board_ticks url)).
Proof.
  intros Hu Hp. unfold scrape_board, board_jobs, board_trace, board_ticks.
  rewrite run_try, run_bind, (Hu st).
  destruct (outcome url) as [u|e]; cbv beta iota.
  - rewrite run_bind, run_emit. cbv beta iota. rewrite run_bind, run_ask.
    cbv beta iota. cbn [users last_update_id trace ticks].
    destruct (fetch_page w (ticks st) u) as [|code select].
    + run. rewrite app_nil_r, <- app_assoc, Nat.add_1_r. reflexivity.
    + destruct (code =? 200).
      * rewrite card_loop_run by exact Hp.
        cbn [users last_update_id trace ticks].
        rewrite <- app_assoc, Nat.add_1_r. reflexivity.
      * run. rewrite !app_nil_r, Nat.add_1_r. reflexivity.
  - run. rewrite app_nil_r, Nat.add_0_r. reflexivity.
Qed.

Lemma length_omap_le {A B} (f : A -> option B) (l : list A) :
  (length (omap f l) <= length l)%nat.
Proof.
  unfold omap. induction l as [|x l IH]; simpl; [lia|].
  destruct (f x); simpl; lia.
Qed.

Lemma length_board_jobs w url selector parse t :
  (length (board_jobs w url selector parse t) <= 10)%nat.
Proof.
  unfold board_jobs. destruct (outcome url) as [u|]; [|apply Nat.le_0_l].
  destruct (fetch_page w t u) as [|code select]; [apply Nat.le_0_l|].
  destruct (code =? 200); [|apply Nat.le_0_l].
  etransitivity; [apply length_omap_le|].
  unfold Py.first_n. rewrite length_take. apply Nat.le_min_l.
Qed.

Lemma linkedin_job_source w c j :
  outcome (linkedin_job w c) = Ok j -> job_source j = "LinkedIn"%string.
Proof.
  unfold outcome, linkedin_job, text_of, href_of.
  destruct (c "h3"%string); [|discriminate].
  destruct (c "h4"%string); [|discriminate].
  destruct (c ".job-search-card__location"%string); [|discriminate].
  destruct (c "a"%string) as [anchor|]; [|discriminate].
  destruct (el_href anchor); [|discriminate].
  intros [= <-]. reflexivity.
Qed.

Lemma indeed_job_source w c j :
  outcome (indeed_job w c) = Ok j -> job_source j = "Indeed"%string.
Proof.
  unfold outcome, indeed_job, text_of, href_of.
  destruct (c "h2 a"%string) as [anchor|]; [|discriminate].
  destruct (el_href anchor); [|discriminate].
  destruct (c ".companyName"%string); [|discriminate].
  destruct (c ".companyLocation"%string); [|discriminate].
  intros [= <-]. reflexivity.
Qed.

Lemma board_jobs_source w url selector parse t (board : string) :
  (forall c j, outcome (parse c) = Ok j -> job_source j = board) ->
  Forall (fun j => job_source j = board) (board_jobs w url selector parse t).
Proof.
  intros Hp. unfold board_jobs.
  destruct (outcome url) as [u|]; [|constructor].
  destruct (fetch_page w t u) as [|code select]; [constructor|].
  destruct (code =? 200); [|constructor].
  apply List.Forall_forall. intros j Hj. rewrite <- list_elem_of_In in Hj.
  apply list_elem_of_omap in Hj. destruct Hj as (c & _ & Hc).
  apply (Hp c). destruct (outcome (parse c)); congruence.
Qed.

(** Twelve cards on one board, one of them broken, and the other board
    down: nine postings, all from the first ten cards, and two log
    lines. *)
Example scrape_with_failures :
  let r := scrape_jobs world_mixed ["AI Engineer"%string] "India" empty_state in
  (match fst r with Ok jobs => Some (length jobs) | Raise _ => None end) = Some 9%nat
  /\ logs_of (trace (snd r))
     = [("LinkedIn parsing error"%string, Some AttributeError);
        ("Indeed scraping error"%string, Some RequestException)].
Proof. vm_compute. split; reflexivity. Qed.

(** An empty keyword list: both blocks fail at [keywords[0]], nothing is
    requested and the empty list is returned. *)
Example scrape_without_keywords :
  let r := scrape_jobs world_ab [] "India" empty_state in
  fst r = Ok []
  /\ trace (snd r)
     = [EvSleep "random.uniform(1, 3)";
        EvLogError "LinkedIn scraping error" (Some IndexError);
        EvLogError "Indeed scraping error" (Some IndexError)].
Proof. vm_compute. split; reflexivity. Qed.

(** C9: [scrape_jobs] returns in every world and for every keyword list
    and location, the empty list included: its result is the postings of
    LinkedIn followed by those of Indeed, each block being what its own
    board answered (nothing when the address cannot be built, the
    request raises or is refused; otherwise the cards among the first ten
    that parse), at most ten per board; each failure leaves a log line in
    the trace, and the fields of the bot are untouched. *)
Theorem scrape_jobs_keeps_going (w : World) (keywords : list string)
    (location : string) (st : State) :
  let li_url := linkedin_url keywords location in
  let in_url := indeed_url keywords location in
  let t1 := ticks st in
  let t2 := (t1 + board_ticks li_url)%nat in
  let li := board_jobs w li_url ".base-card" (linkedin_job w) t1 in
  let ind := board_jobs w in_url ".job_seen_beacon" (indeed_job w) t2 in
  scrape_jobs w keywords location st
  = (Ok (li ++ ind),
     mkState (users st) (last_update_id st)
       (trace st
        ++ [EvSleep "random.uniform(1, 3)"]
        ++ board_trace w "LinkedIn" li_url ".base-card" (linkedin_job w) t1
        ++ board_trace w "Indeed" in_url ".job_seen_beacon" (indeed_job w) t2)
       (t2 + board_ticks in_url))
  /\ (length li <= 10)%nat /\ (length ind <= 10)%nat
  /\ Forall (fun j => job_source j = "LinkedIn"%string) li
  /\ Forall (fun j => job_source j = "Indeed"%string) ind.
Proof.
  cbv zeta. split; [|repeat split].
  - unfold scrape_jobs. rewrite run_bind, run_emit. cbv beta iota.
    rewrite run_bind.
    rewrite scrape_board_run
      by (try apply stateless_linkedin_url; apply stateless_linkedin_job).
    cbv beta iota. rewrite run_bind.
    rewrite scrape_board_run
      by (try apply stateless_indeed_url; apply stateless_indeed_job).
    cbv beta iota. cbn [users last_update_id trace ticks app].
    rewrite run_ret, <- !app_assoc. reflexivity.
  - apply length_board_jobs.
  - apply length_board_jobs.
  - apply board_jobs_source, linkedin_job_source.
  - apply board_jobs_source, indeed_job_source.
Qed.

(** ** One run for one user *)

Lemma extends_stable (t0 : list Event) (P : Event -> Prop) :
  (forall e, neutral e = true -> P e) ->
  Stable (extends t0 P) P (fun _ => True).
Proof.
  intros Hn. split.
  - intros st e He (evs & Ht & Hall). exists (evs ++ [e]). simpl.
    rewrite Ht, <- app_assoc. split; [reflexivity|].
    apply Forall_app. split; [exact Hall | repeat constructor; exact He].
  - intros st H. exact H.
  - intros st k u f _ _ H. exact H.
  - exact Hn.
Qed.

Lemma users_are_stable (us : gmap string UserData) :
  Stable (users_are us) (fun _ => True) (fun _ => False).
Proof.
  split; try (intros; exact Logic.I).
  - intros st e _ H. exact H.
  - intros st H. exact H.
  - intros st k u f [].
Qed.

Lemma scrape_jobs_users w keywords location st :
  users (snd (scrape_jobs w keywords location st)) = users st.
Proof.
  apply (preserves_scrape_jobs _ _ _ (users_are_stable (users st))).
  reflexivity.
Qed.

Lemma send_message_run w chat_id text mode st :
  send_message w chat_id text mode st
  = (Ok tt, mkState (users st) (last_update_id st)
                    (trace st ++ EvSend chat_id text (data_mode mode)
                                 :: post_log w (ticks st))
                    (S (ticks st))).
Proof.
  unfold send_message, post_log. run.
  destruct (post_message w (ticks st)) as [|code]; run.
  - rewrite <- app_assoc. reflexivity.
  - destruct (code =? 200); run; try rewrite <- app_assoc; reflexivity.
Qed.

Lemma fresh_only_neutral jobs sent e : neutral e = true -> fresh_only jobs sent e.
Proof. destruct e; try discriminate; intros _; exact Logic.I. Qed.

Lemma sends_of_post_log w t : sends_of (post_log w t) = [].
Proof.
  unfold post_log. destruct (post_message w t) as [|code]; [reflexivity|].
  destruct (code =? 200); reflexivity.
Qed.

Lemma scored_of_post_log w t : scored_of (post_log w t) = [].
Proof.
  unfold post_log. destruct (post_message w t) as [|code]; [reflexivity|].
  destruct (code =? 200); reflexivity.
Qed.

Lemma fresh_only_post_log w t jobs sent : Forall (fresh_only jobs sent) (post_log w t).
Proof.
  unfold post_log. destruct (post_message w t) as [|code].
  - repeat constructor.
  - destruct (code =? 200); repeat constructor.
Qed.

Lemma filter_all_delivered (jobs : list Job) (sent : list string) :
  (forall j, j ∈ jobs -> job_id j ∈ sent) ->
  filter (fun job => job_id job ∉ sent) jobs = [].
Proof.
  induction jobs as [|j l IH]; intros Hold; [reflexivity|].
  rewrite filter_cons_False.
  - apply IH. intros x Hx. apply Hold. right. exact Hx.
  - intros Hn. apply Hn, Hold. left.
Qed.

(** C8: in a run for a registered, active user with a resume, whatever
    the scoring method does: after the fetch, every scoring call and
    every formatted notification is for a fetched posting whose id was
    not in the delivered ids when the run began; and when every fetched
    posting was already delivered (also when nothing was fetched), the
    run sends the single message that no new jobs were found, scores
    nothing and leaves the store as it was. *)
Theorem delivered_postings_are_skipped
    (w : World) (sc : Scorer) (chat_id : ChatId) (st st1 : State)
    (u : UserData) (jobs : list Job) :
  users st !! str_chat chat_id = Some u ->
  is_active u = true ->
  resume u <> EmptyString ->
  scrape_jobs w (search_keywords u) (search_location u) st = (Ok jobs, st1) ->
  let st2 := snd (send_jobs_to_user_with w sc chat_id st) in
  exists evs,
    trace st2 = trace st1 ++ evs
    /\ Forall (fresh_only jobs (jobs_sent u)) evs
    /\ ((forall j, j ∈ jobs -> job_id j ∈ jobs_sent u) ->
        sends_of evs = [(chat_id, no_new_jobs, None)]
        /\ scored_of evs = []
        /\ users st2 = users st).
Proof.
  intros Hu Hact Hres Hscrape st2.
  assert (Hus1 : users st1 = users st).
  { pose proof (scrape_jobs_users w (search_keywords u) (search_location u) st) as E.
    rewrite Hscrape in E. exact E. }
  assert (Hu1 : users st1 !! str_chat chat_id = Some u) by (rewrite Hus1; exact Hu).
  assert (Est2 : st2 = snd (deliver w sc chat_id jobs st1)).
  { subst st2. unfold send_jobs_to_user_with. cbv zeta.
    rewrite run_bind, run_gets. cbv beta iota. rewrite Hu, Hact.
    destruct (resume u) eqn:Er; [contradiction|]. cbn [negb Py.truthy].
    cbv iota. rewrite run_bind, Hscrape. reflexivity. }
  destruct (decide (filter (fun job => job_id job ∉ jobs_sent u) jobs = []))
    as [Hnone|Hsome].
  - (* nothing new: the single message *)
    assert (E : deliver w sc chat_id jobs st1
                = send_message w chat_id no_new_jobs None st1).
    { unfold deliver. destruct jobs as [|j0 jobs']; [reflexivity|].
      cbv zeta. rewrite run_bind, (user_data_run _ _ _ Hu1). cbv beta iota.
      rewrite Hnone. reflexivity. }
    rewrite Est2, E, send_message_run. cbn [snd trace users].
    eexists. split; [reflexivity|]. split.
    + constructor; [exact Logic.I | apply fresh_only_post_log].
    + intros _. cbn [data_mode]. unfold sends_of, scored_of. cbn [omap list_omap].
      fold (sends_of (post_log w (ticks st1))).
      fold (scored_of (post_log w (ticks st1))).
      rewrite sends_of_post_log, scored_of_post_log. auto.
  - (* some posting is new *)
    pose proof (extends_stable (trace st1) (fresh_only jobs (jobs_sent u))
                  (fresh_only_neutral jobs (jobs_sent u))) as HS.
    assert (H2 : extends (trace st1) (fresh_only jobs (jobs_sent u)) st2).
    { rewrite Est2. apply (deliver_from _ _ _ HS w sc chat_id jobs u st1 Hu1).
      - intros text. exact Logic.I.
      - intros j Hj Hnew. split; [exact Logic.I|]. split; [split; assumption|].
        intros s a. exists j, s, a. auto.
      - exists []. rewrite app_nil_r. split; [reflexivity | constructor]. }
    destruct H2 as (evs & Ht & Hall). exists evs. split; [exact Ht|].
    split; [exact Hall|]. intros Hold. exfalso.
    apply Hsome, filter_all_delivered, Hold.
Qed.

Lemma delivered_postings_are_skipped_witness :
  let st := bot_with seen_alice in
  let st1 := snd (scrape_jobs world_ab (search_keywords seen_alice)
                              (search_location seen_alice) st) in
  let st2 := snd (send_jobs_to_user_with world_ab get_match_score (IntId 42) st) in
  exists evs,
    trace st2 = trace st1 ++ evs
    /\ Forall (fresh_only [job_a; job_b] (jobs_sent seen_alice)) evs
    /\ ((forall j, j ∈ [job_a; job_b] -> job_id j ∈ jobs_sent seen_alice) ->
        sends_of evs = [(IntId 42, no_new_jobs, None)]
        /\ scored_of evs = []
        /\ users st2 = users st).
Proof.
  apply (delivered_postings_are_skipped world_ab get_match_score (IntId 42)
           (bot_with seen_alice) _ seen_alice [job_a; job_b]).
  - vm_compute. reflexivity.
  - reflexivity.
  - discriminate.
  - vm_compute. reflexivity.
Defined.

(** The second of two runs over the same two postings: one message, no
    scoring, the store as it was. *)
Example second_run_finds_nothing :
  let r := send_jobs_to_user world_ab (IntId 42) (bot_with seen_alice) in
  fst r = Ok tt
  /\ sends_of (trace (snd r)) = [(IntId 42, no_new_jobs, None)]
  /\ scored_of (trace (snd r)) = []
  /\ users (snd r) = users (bot_with seen_alice).
Proof. vm_compute. repeat split; reflexivity. Qed.

(** ** The scoring method of the class *)

Lemma call_scorer_run (sc : Scorer) (job : Job) (resume_text : string) (st : State) :
  call_scorer sc job resume_text st
  = (sc (ticks st) job resume_text,
     mkState (users st) (last_update_id st) (trace st ++ [EvScore job])
             (S (ticks st))).
Proof.
  unfold call_scorer. run.
  destruct (sc (ticks st) job resume_text); reflexivity.
Qed.

(** With [get_match_score], the scoring of a posting raises at
    [match_result["score"]]. *)
Lemma score_and_send_raises w chat_id job matches_found st u :
  users st !! str_chat chat_id = Some u ->
  score_and_send w get_match_score chat_id job matches_found st
  = (Raise TypeError,
     mkState (users st) (last_update_id st) (trace st ++ [EvScore job])
             (S (ticks st))).
Proof.
  intros Hu. unfold score_and_send. cbv zeta.
  rewrite run_bind, (user_data_run _ _ _ Hu). cbv beta iota.
  rewrite run_bind, call_scorer_run. reflexivity.
Qed.

(** The run stops at the first posting that passes the filter: its id is
    recorded, the scoring call is made, and [TypeError] leaves the loop
    and the method. *)
Lemma deliver_stops w chat_id jobs st u j rest :
  users st !! str_chat chat_id = Some u ->
  filter (fun job => job_id job ∉ jobs_sent u) jobs = j :: rest ->
  deliver w get_match_score chat_id jobs st
  = (Raise TypeError,
     mkState (<[str_chat chat_id := mark_sent (job_id j) u]> (users st))
             (last_update_id st) (trace st ++ [EvScore j]) (S (ticks st))).
Proof.
  intros Hu Hnew. unfold deliver. destruct jobs as [|j0 jobs']; [discriminate|].
  cbv zeta. rewrite run_bind, (user_data_run _ _ _ Hu). cbv beta iota.
  rewrite Hnew. rewrite run_bind. cbn [for_fold]. rewrite run_bind.
  unfold process_job. rewrite run_bind, record_sent_run, Hu. cbv beta iota.
  erewrite score_and_send_raises by (cbn [users]; apply lookup_insert_eq).
  reflexivity.
Qed.

Lemma ensures_after_raise {A B} (Q : B -> Prop) (e : Exn) (k : A -> M B) :
  ensures Q ((raise e : M A) ≫= k).
Proof. intros st. rewrite run_bind, run_raise. exact Logic.I. Qed.

(** The block of lines 275 to 294 never reaches the oracle: reading
    [prompt] raises and the handler returns the fallback. *)
Lemma send_resume_analysis_result w chat_id :
  returns (fun r => r = None \/ r = Some (mkMatch 50 "Error in analysis"))
          (send_resume_analysis w chat_id).
Proof.
  unfold send_resume_analysis. cbv zeta.
  apply never_raises_bind; [apply returns_gets|]. intros us.
  destruct (us !! str_chat chat_id) as [u|]; [|apply returns_ret; left; reflexivity].
  destruct (negb (Py.truthy (resume u))).
  - apply never_raises_bind; [apply never_raises_send_message|].
    intros _. apply returns_ret. left. reflexivity.
  - apply never_raises_bind; [apply never_raises_send_message|]. intros _.
    apply never_raises_bind.
    { unfold get_resume_improvement_suggestions. cbv zeta.
      apply returns_try; [apply ensures_true|]. intros e.
      apply never_raises_bind; [apply returns_emit|]. intros _.
      apply returns_ret. exact Logic.I. }
    intros suggestions. cbv zeta.
    apply never_raises_bind; [apply never_raises_send_message|]. intros _.
    apply returns_try; [apply ensures_after_raise|]. intros e.
    apply never_raises_bind; [apply returns_emit|]. intros _.
    apply returns_ret. right. reflexivity.
Qed.

(** C1: [get_match_score] hands back [None] for every posting and every
    resume, not a result with a score; so the scoring of a posting in a
    run always ends in an exception, and a run with a new posting raises
    [TypeError] before any message is sent.  The code that reads the
    score from the oracle's answer stands in [send_resume_analysis],
    where it is never reached: that method returns [None] or the fixed
    result of its handler. *)
Theorem get_match_score_has_no_result :
  (forall t job resume_text, get_match_score t job resume_text = Ok None)
  /\ (forall w chat_id job matches_found st,
        exists e,
          fst (score_and_send w get_match_score chat_id job matches_found st)
          = Raise e)
  /\ (let r := send_jobs_to_user world_ab (IntId 42) (bot_with alice) in
      fst r = Raise TypeError /\ sends_of (trace (snd r)) = [])
  /\ (forall w chat_id st,
        fst (send_resume_analysis w chat_id st) = Ok None
        \/ fst (send_resume_analysis w chat_id st)
           = Ok (Some (mkMatch 50 "Error in analysis"))).
Proof.
  split; [reflexivity|]. split; [|split].
  - intros w chat_id job n st.
    destruct (users st !! str_chat chat_id) as [u|] eqn:Hu.
    + exists TypeError. rewrite (score_and_send_raises _ _ _ _ _ _ Hu). reflexivity.
    + exists KeyError. unfold score_and_send, user_data. cbv zeta.
      rewrite !run_bind, run_gets. cbv beta iota. rewrite Hu. reflexivity.
  - vm_compute. split; reflexivity.
  - intros w chat_id st.
    destruct (send_resume_analysis_result w chat_id st) as (r & Hr & [-> | ->]);
      rewrite Hr; auto.
Qed.

(** C7: with the scoring method of the class, a run in which at least
    one fetched posting passes the filter records the id of the first such
    posting, calls the scoring method for it and then raises [TypeError]:
    the postings after the first are neither recorded nor scored. *)
Theorem run_stops_at_first_new_posting
    (w : World) (chat_id : ChatId) (jobs : list Job) (st : State)
    (u : UserData) (j : Job) (rest : list Job) :
  users st !! str_chat chat_id = Some u ->
  filter (fun job => job_id job ∉ jobs_sent u) jobs = j :: rest ->
  let r := deliver w get_match_score chat_id jobs st in
  fst r = Raise TypeError
  /\ users (snd r) !! str_chat chat_id = Some (mark_sent (job_id j) u)
  /\ trace (snd r) = trace st ++ [EvScore j].
Proof.
  intros Hu Hnew r. subst r. rewrite (deliver_stops _ _ _ _ _ _ _ Hu Hnew).
  cbn [fst snd users trace]. rewrite lookup_insert_eq. auto.
Qed.

Lemma run_stops_at_first_new_posting_witness :
  let r := deliver world_ab get_match_score (IntId 42) [job_a; job_b]
                   (bot_with alice) in
  fst r = Raise TypeError
  /\ users (snd r) !! str_chat (IntId 42) = Some (mark_sent (job_id job_a) alice)
  /\ trace (snd r) = trace (bot_with alice) ++ [EvScore job_a].
Proof.
  apply (run_stops_at_first_new_posting world_ab (IntId 42) [job_a; job_b]
           (bot_with alice) alice job_a [job_b]).
  - vm_compute. reflexivity.
  - vm_compute. reflexivity.
Defined.

(** A whole run over two new postings: the id of the second one is not
    in the delivered ids afterwards, nothing is sent and nothing saved. *)
Example second_posting_is_not_recorded :
  let r := send_jobs_to_user world_ab (IntId 42) (bot_with alice) in
  fst r = Raise TypeError
  /\ jobs_sent <$> (users (snd r) !! "42"%string) = Some [job_id job_a]
  /\ scored_of (trace (snd r)) = [job_a]
  /\ sends_of (trace (snd r)) = []
  /\ Forall (fun e => match e with EvSave _ => False | _ => True end)
            (trace (snd r)).
Proof. vm_compute. repeat split; repeat constructor. Qed.

(** ** The loop with a scoring method that answers

    The order of the steps of the loop is as the source has it: were the
    scoring method to return a result for every posting, every posting
    that passes the filter would be recorded, whatever its score. *)

Lemma score_and_send_answers w (sc : Scorer) chat_id job matches_found st u :
  (forall t j r, exists d, sc t j r = Ok (Some d)) ->
  users st !! str_chat chat_id = Some u ->
  exists n st',
    score_and_send w sc chat_id job matches_found st = (Ok n, st')
    /\ users st' = users st.
Proof.
  intros Hsc Hu. unfold score_and_send. cbv zeta.
  rewrite run_bind, (user_data_run _ _ _ Hu). cbv beta iota.
  rewrite run_bind, call_scorer_run.
  destruct (Hsc (ticks st) job (resume u)) as [d ->]. cbv beta iota.
  unfold item. rewrite run_bind, run_ret. cbv beta iota.
  rewrite run_bind, run_ret. cbv beta iota.
  rewrite run_bind. erewrite user_data_run by (cbn [users]; exact Hu).
  cbv beta iota.
  destruct (min_match_score u <=? score d).
  - rewrite run_bind, send_message_run. run. eauto.
  - run. eauto.
Qed.

Lemma loop_answers w (sc : Scorer) chat_id (new_jobs : list Job) :
  (forall t j r, exists d, sc t j r = Ok (Some d)) ->
  forall matches_found st u,
  users st !! str_chat chat_id = Some u ->
  exists n st',
    for_fold new_jobs matches_found (process_job w sc chat_id) st = (Ok n, st')
    /\ users st' = <[str_chat chat_id := record_all new_jobs u]> (users st).
Proof.
  intros Hsc. induction new_jobs as [|j l IH]; intros n st u Hu.
  - exists n, st. split; [reflexivity|]. simpl. symmetry. apply insert_id, Hu.
  - cbn [for_fold record_all fold_left]. rewrite run_bind.
    unfold process_job at 1. rewrite run_bind, record_sent_run, Hu. cbv beta iota.
    set (st1 := mkState _ _ _ _).
    assert (Hu1 : users st1 !! str_chat chat_id = Some (mark_sent (job_id j) u))
      by apply lookup_insert_eq.
    destruct (score_and_send_answers w sc chat_id j n st1 _ Hsc Hu1)
      as (n1 & st2 & E & Hus). rewrite E. cbv beta iota.
    assert (Hu2 : users st2 !! str_chat chat_id = Some (mark_sent (job_id j) u))
      by (rewrite Hus; exact Hu1).
    destruct (IH n1 st2 _ Hu2) as (n2 & st3 & E3 & Hus3).
    exists n2, st3. split; [exact E3|].
    rewrite Hus3, Hus. subst st1. cbn [users]. apply insert_insert_eq.
Qed.

Lemma last_n_step {A} (l : list A) (a : A) (more : list A) :
  Py.last_n 100 (Py.last_n 100 (l ++ [a]) ++ more)
  = Py.last_n 100 (l ++ a :: more).
Proof.
  change (l ++ a :: more) with (l ++ [a] ++ more).
  rewrite (app_assoc l [a] more). generalize (l ++ [a]). intros L.
  unfold Py.last_n.
  rewrite <- (drop_app_le L more (length L - 100)) by lia.
  rewrite drop_drop. f_equal. rewrite length_drop, length_app. lia.
Qed.

Lemma jobs_sent_record_all (new_jobs : list Job) (u : UserData) :
  new_jobs <> [] ->
  jobs_sent (record_all new_jobs u)
  = Py.last_n 100 (jobs_sent u ++ map job_id new_jobs).
Proof.
  intros Hne. destruct new_jobs as [|j l]; [contradiction|]. clear Hne.
  revert u j. induction l as [|j' l IH]; intros u j.
  - reflexivity.
  - change (record_all (j :: j' :: l) u)
      with (record_all (j' :: l) (mark_sent (job_id j) u)).
    rewrite IH. cbn [mark_sent with_jobs_sent jobs_sent map].
    apply last_n_step.
Qed.

(** Scenario of two new postings, scored 80 and 40 against a threshold of
    70: one notification, the summary of one match, both ids recorded. *)
Example two_postings_one_match :
  let r := send_jobs_to_user_with world_ab scorer_80_40 (IntId 42)
                                  (bot_with alice) in
  fst r = Ok tt
  /\ sends_of (trace (snd r))
     = [(IntId 42, match_message job_a 80 "Score: n", Some "Markdown"%string);
        (IntId 42, sent_summary 1, None)]
  /\ jobs_sent <$> (users (snd r) !! "42"%string)
     = Some [job_id job_a; job_id job_b].
Proof. vm_compute. repeat split; reflexivity. Qed.

Lemma save_users_run w st :
  exists evs,
    save_users w st
    = (Ok tt, mkState (users st) (last_update_id st) (trace st ++ evs)
                      (S (ticks st))).
Proof.
  unfold save_users. rewrite run_try, run_bind, run_ask. cbv beta iota.
  destruct (dump_fails w (ticks st)); run; eauto.
Qed.

(** With a scoring method that answers, the run returns and the ids of
    all postings that pass the filter are recorded, in their order, the
    last hundred being kept; the threshold plays no part in it. *)
Lemma deliver_records_every_new_posting w (sc : Scorer) chat_id jobs st u :
  (forall t j r, exists d, sc t j r = Ok (Some d)) ->
  users st !! str_chat chat_id = Some u ->
  filter (fun job => job_id job ∉ jobs_sent u) jobs <> [] ->
  let r := deliver w sc chat_id jobs st in
  fst r = Ok tt
  /\ jobs_sent <$> (users (snd r) !! str_chat chat_id)
     = Some (Py.last_n 100
               (jobs_sent u
                ++ map job_id (filter (fun job => job_id job ∉ jobs_sent u) jobs))).
Proof.
  intros Hsc Hu Hne r. subst r. unfold deliver.
  destruct jobs as [|j0 jobs']; [contradiction Hne; reflexivity|].
  cbv zeta. rewrite run_bind, (user_data_run _ _ _ Hu). cbv beta iota.
  rewrite <- (jobs_sent_record_all _ u Hne).
  destruct (filter (fun job => job_id job ∉ jobs_sent u) (j0 :: jobs'))
    as [|n ns] eqn:Hnew; [contradiction Hne; reflexivity|].
  destruct (loop_answers w sc chat_id (n :: ns) Hsc 0 st u Hu)
    as (m & st1 & E & Hus).
  rewrite run_bind, E. cbv beta iota.
  assert (Hu1 : users st1 !! str_chat chat_id = Some (record_all (n :: ns) u))
    by (rewrite Hus; apply lookup_insert_eq).
  rewrite run_bind, (user_data_run _ _ _ Hu1). cbv beta iota.
  rewrite run_bind.
  assert (Hsend : forall text,
            send_message w chat_id text None st1
            = (Ok tt, mkState (users st1) (last_update_id st1)
                        (trace st1 ++ EvSend chat_id text None
                                      :: post_log w (ticks st1))
                        (S (ticks st1))))
    by (intros; apply send_message_run).
  destruct (m =? 0); rewrite Hsend; cbv beta iota;
    match goal with
    | |- context [save_users w ?s] =>
        destruct (save_users_run w s) as (evs & ->)
    end; cbn [fst snd users]; rewrite Hu1; auto.
Qed.

(** ** Preference commands *)

Lemma thresholds_ok_stable : Stable thresholds_ok (fun _ => True) keeps_threshold.
Proof.
  split; try (intros; exact Logic.I).
  - intros st e _ H. exact H.
  - intros st H. exact H.
  - intros st k u f Hf Hu H k' u'. simpl. rewrite lookup_insert.
    case_decide as Hk.
    + intros [= <-]. apply Hf. apply (H k u Hu).
    + apply H.
Qed.

(** Every command other than [/preferences], [/score] among them, keeps
    the thresholds of the store between 0 and 100. *)
Lemma other_commands_keep_thresholds w text chat_id skip_welcome st :
  Py.startswith (Py.strip text) "/preferences" = false ->
  thresholds_ok st ->
  thresholds_ok (snd (parse_command w text chat_id skip_welcome st)).
Proof.
  intros Hno. apply (preserves_parse_command_but_preferences _ _ _ thresholds_ok_stable).
  - intros st' k t Hk H k' u'. simpl. rewrite lookup_insert.
    case_decide; [intros [= <-]; simpl; lia | apply H].
  - intros f Hf u Hu. destruct (Hf u) as [_ ->]. exact Hu.
  - intros; exact Logic.I.
  - exact Hno.
  - intros v Hv u _. exact Hv.
Qed.

(** C2: the combined command stores the integer it reads without a
    range check; after [/preferences ... | 150 | ...] and after
    [/preferences ... | -5 | ...] from a registered user the stored
    threshold is 150 and -5, and the reply says that the preferences are
    updated; the single command [/score 150] is refused and leaves the
    threshold at 70. *)
Theorem preferences_stores_out_of_range_score :
  let updated := "✅ Your job search preferences have been updated!"%string in
  let r1 := parse_command quiet_world
              "/preferences Data Scientist, ML Engineer | Remote | 150 | 08:30"
              (IntId 42) false (bot_with alice) in
  let r2 := parse_command quiet_world "/preferences AI | India | -5 | 09:00"
              (IntId 42) false (bot_with alice) in
  let r3 := parse_command quiet_world "/score 150" (IntId 42) false
              (bot_with alice) in
  (min_match_score <$> (users (snd r1) !! "42"%string) = Some 150
   /\ sends_of (trace (snd r1)) = [(IntId 42, updated, None)])
  /\ (min_match_score <$> (users (snd r2) !! "42"%string) = Some (-5)
      /\ sends_of (trace (snd r2)) = [(IntId 42, updated, None)])
  /\ (min_match_score <$> (users (snd r3) !! "42"%string) = Some 70
      /\ sends_of (trace (snd r3))
         = [(IntId 42, "❌ Score must be between 0 and 100."%string, None)]).
Proof. vm_compute. repeat split; reflexivity. Qed.

(** The combined command on the values of the fifth scenario. *)
Example preferences_scenario :
  let r := parse_command quiet_world
             "/preferences Data Scientist, ML Engineer | Remote | 80 | 08:30"
             (IntId 42) false (bot_with alice) in
  (fun u => (search_keywords u, search_location u, min_match_score u,
             notification_time u)) <$> (users (snd r) !! "42"%string)
  = Some (["Data Scientist"; "ML Engineer"]%string, "Remote"%string, 80,
          "08:30"%string).
Proof. vm_compute. reflexivity. Qed.

(** [/time] refuses an argument that has not five characters or holds
    no colon: the reply names the format and nothing else happens. *)
Lemma cmd_time_rejects w text chat_id st :
  let time_str := Py.strip (Py.replace text "/time" "") in
  String.length time_str <> 5%nat \/ Py.contains ":" time_str = false ->
  cmd_time w text chat_id st = send_message w chat_id time_format_error None st.
Proof.
  intros time_str H. unfold cmd_time. fold time_str.
  destruct (Py.truthy time_str); [|reflexivity].
  destruct (Nat.eqb_spec (String.length time_str) 5) as [E|E]; [|reflexivity].
  destruct H as [H|H]; [contradiction|]. rewrite H. reflexivity.
Qed.

(** [/time] takes any five characters with a colon among them. *)
Lemma cmd_time_accepts w text chat_id st u :
  let time_str := Py.strip (Py.replace text "/time" "") in
  users st !! str_chat chat_id = Some u ->
  String.length time_str = 5%nat ->
  Py.contains ":" time_str = true ->
  notification_time <$> (users (snd (cmd_time w text chat_id st)) !! str_chat chat_id)
  = Some time_str.
Proof.
  intros time_str Hu Hlen Hcolon. unfold cmd_time. fold time_str.
  assert (Ht : Py.truthy time_str = true)
    by (destruct time_str; [discriminate|reflexivity]).
  rewrite Ht, Hlen, Hcolon. cbn [Nat.eqb andb]. cbv iota.
  rewrite run_bind. unfold set_search_preferences. cbv zeta.
  rewrite run_bind, run_gets. cbv beta iota. rewrite Hu.
  unfold when_given, update_user. run. rewrite Hu. run.
  rewrite lookup_insert_eq. run.
  match goal with
  | |- context [save_users w ?s] => destruct (save_users_run w s) as (evs & ->)
  end.
  run. rewrite send_message_run. cbn [snd users].
  rewrite lookup_insert_eq. reflexivity.
Qed.

(** C5: [/time 1:234], five characters with the colon at index 1, is
    accepted: the stored time becomes [1:234] and the reply says so;
    [/time ab:cd] is accepted as well; [/time 8:30], four characters, is
    refused with the reply that names the format and the stored time
    stays [09:00]. *)
Theorem time_accepts_colon_anywhere :
  let r1 := parse_command quiet_world "/time 1:234" (IntId 42) false
              (bot_with alice) in
  let r2 := parse_command quiet_world "/time ab:cd" (IntId 42) false
              (bot_with alice) in
  let r3 := parse_command quiet_world "/time 8:30" (IntId 42) false
              (bot_with alice) in
  (notification_time <$> (users (snd r1) !! "42"%string) = Some "1:234"%string
   /\ sends_of (trace (snd r1)) = [(IntId 42, time_updated "1:234", None)])
  /\ (notification_time <$> (users (snd r2) !! "42"%string) = Some "ab:cd"%string)
  /\ (notification_time <$> (users (snd r3) !! "42"%string) = Some "09:00"%string
      /\ users (snd r3) = users (bot_with alice)
      /\ sends_of (trace (snd r3)) = [(IntId 42, time_format_error, None)]).
Proof. vm_compute. repeat split; reflexivity. Qed.

(** ** The identity of a posting *)

Lemma append_cancel (p s1 s2 : string) : p +:+ s1 = p +:+ s2 -> s1 = s2.
Proof.
  induction p as [|c p IH]; simpl; [auto|]. intros [= H]. apply IH, H.
Qed.

Lemma linkedin_job_id w c j :
  outcome (linkedin_job w c) = Ok j ->
  job_source j = "LinkedIn"%string
  /\ job_id j = "li_" +:+ Py.str_int (py_hash w (job_link j)).
Proof.
  unfold outcome, linkedin_job, text_of, href_of.
  destruct (c "h3"%string); [|discriminate].
  destruct (c "h4"%string); [|discriminate].
  destruct (c ".job-search-card__location"%string); [|discriminate].
  destruct (c "a"%string) as [anchor|]; [|discriminate].
  destruct (el_href anchor); [|discriminate].
  intros [= <-]. split; reflexivity.
Qed.

Lemma indeed_job_id w c j :
  outcome (indeed_job w c) = Ok j ->
  job_source j = "Indeed"%string
  /\ exists href, job_link j = "https://in.indeed.com" +:+ href
                  /\ job_id j = "indeed_" +:+ Py.str_int (py_hash w href).
Proof.
  unfold outcome, indeed_job, text_of, href_of.
  destruct (c "h2 a"%string) as [anchor|]; [|discriminate].
  destruct (el_href anchor) as [href|]; [|discriminate].
  destruct (c ".companyName"%string); [|discriminate].
  destruct (c ".companyLocation"%string); [|discriminate].
  intros [= <-]. split; [reflexivity|]. exists href. split; reflexivity.
Qed.

(** Within one process the id is a function of the source and the link:
    two postings built by the parsers in the same world, with the same
    source and the same link, have the same id. *)
Lemma same_process_same_id w j1 j2 :
  scraped w j1 -> scraped w j2 ->
  job_source j1 = job_source j2 -> job_link j1 = job_link j2 ->
  job_id j1 = job_id j2.
Proof.
  intros [c1 [H1|H1]] [c2 [H2|H2]] Hs Hl.
  - apply linkedin_job_id in H1 as [_ ->]. apply linkedin_job_id in H2 as [_ ->].
    rewrite Hl. reflexivity.
  - apply linkedin_job_id in H1 as [S1 _]. apply indeed_job_id in H2 as [S2 _].
    rewrite S1, S2 in Hs. discriminate.
  - apply indeed_job_id in H1 as [S1 _]. apply linkedin_job_id in H2 as [S2 _].
    rewrite S1, S2 in Hs. discriminate.
  - apply indeed_job_id in H1 as (_ & h1 & L1 & ->).
    apply indeed_job_id in H2 as (_ & h2 & L2 & ->).
    rewrite L1, L2 in Hl. apply append_cancel in Hl. rewrite Hl. reflexivity.
Qed.

(** C3: the id is built from [hash], whose value depends on the secret
    of the process: the card of one posting gives one id in a process
    with the secret of seed 0 and another id in a process with the secret
    of seed 1, source and link being the same; so a process started anew
    on the store that records both postings as delivered notifies the
    first one again. *)
Theorem job_id_changes_with_the_process :
  outcome (linkedin_job world_ab card_a) = Ok job_a
  /\ outcome (linkedin_job world_ab_restarted card_a) = Ok job_a_restarted
  /\ job_source job_a = job_source job_a_restarted
  /\ job_link job_a = job_link job_a_restarted
  /\ job_id job_a <> job_id job_a_restarted
  /\ (let r := send_jobs_to_user_with world_ab_restarted scorer_80_40
                 (IntId 42) (bot_with seen_alice) in
      sends_of (trace (snd r))
      = [(IntId 42, match_message job_a_restarted 80 "Score: n",
          Some "Markdown"%string);
         (IntId 42, sent_summary 1, None)]).
Proof. vm_compute. repeat split; try reflexivity. discriminate. Qed.

(** ** Polling *)

Lemma polled_stable (m : Z) (t0 : list Event) :
  Stable (polled m t0) (fun e => is_offset e = false) (fun _ => True).
Proof.
  split.
  - intros st e He [Hm (evs & Ht & Hall)]. split; [exact Hm|].
    exists (evs ++ [e]). simpl. rewrite Ht, <- app_assoc. split; [reflexivity|].
    apply Forall_app. split; [exact Hall | repeat constructor; exact He].
  - intros st H. exact H.
  - intros st k u f _ _ H. exact H.
  - intros e He. destruct e; try reflexivity; discriminate.
Qed.

Lemma max_update_id_upper (first : Update) (rest : list Update) (x : Update) :
  x ∈ first :: rest -> update_id x <= max_update_id first rest.
Proof.
  unfold max_update_id.
  assert (G : forall l a, a <= fold_left Z.max l a
                          /\ forall y, y ∈ l -> y <= fold_left Z.max l a).
  { induction l as [|b l IH]; intros a; simpl.
    - split; [lia|]. intros y Hy. inversion Hy.
    - destruct (IH (Z.max a b)) as [H1 H2]. split; [lia|].
      intros y Hy. apply elem_of_cons in Hy as [->|Hy]; [lia | apply H2, Hy]. }
  intros Hx. destruct (G (map update_id rest) (update_id first)) as [G1 G2].
  apply elem_of_cons in Hx as [->|Hx]; [exact G1|].
  apply G2. apply list_elem_of_fmap. exists x. auto.
Qed.

(** The batch is processed in a state whose offset is already the
    highest id of the batch. *)
Lemma process_telegram_updates_batch w st first rest :
  get_updates w (ticks st) (request_offset (last_update_id st))
  = UpdatesJson (Some (first :: rest)) ->
  process_telegram_updates w st
  = try_except (for_each (first :: rest) (handle_update w))
      (fun e => emit (EvLogError "Error processing updates" (Some e)))
      (mkState (users st) (Some (max_update_id first rest))
         (trace st ++ [EvGetUpdates (request_offset (last_update_id st));
                       EvOffset (max_update_id first rest)])
         (S (ticks st))).
Proof.
  intros Hreply. unfold process_telegram_updates.
  rewrite run_bind, run_gets. cbv beta iota zeta.
  rewrite !run_try, run_bind, run_emit. cbv beta iota.
  rewrite run_bind, run_ask. cbv beta iota. cbn [users last_update_id trace ticks].
  rewrite Hreply. rewrite run_bind. unfold set_last_update_id at 1.
  cbv beta iota. cbn [users last_update_id trace ticks].
  rewrite <- app_assoc. reflexivity.
Qed.

(** C4 as amended: a poll requests the updates after the stored offset;
    when the request or the decoding of its answer raises, the offset,
    and so the offset of the next request, stay as they were and nothing
    is processed; when a batch arrives, the offset is set to the highest
    update id of the batch first, and every event of the processing of
    the batch comes after that write, the offset staying at that value
    to the end of the poll. *)
Theorem offset_advanced_before_processing (w : World) (st : State) :
  let off := request_offset (last_update_id st) in
  let st' := snd (process_telegram_updates w st) in
  match get_updates w (ticks st) off with
  | UpdatesRaise =>
      last_update_id st' = last_update_id st
      /\ request_offset (last_update_id st') = off
      /\ users st' = users st
      /\ trace st' = trace st ++ [EvGetUpdates off;
                                  EvLogError "Error processing updates"
                                             (Some RequestException)]
  | UpdatesJson (Some (first :: rest)) =>
      let m := max_update_id first rest in
      (forall x, x ∈ first :: rest -> update_id x <= m)
      /\ last_update_id st' = Some m
      /\ exists evs,
           trace st' = trace st ++ [EvGetUpdates off; EvOffset m] ++ evs
           /\ Forall (fun e => is_offset e = false) evs
  | UpdatesJson _ =>
      last_update_id st' = last_update_id st
      /\ users st' = users st
      /\ trace st' = trace st ++ [EvGetUpdates off]
  end.
Proof.
  cbv zeta.
  destruct (get_updates w (ticks st) (request_offset (last_update_id st)))
    as [|[[|first rest]|]] eqn:Hreply.
  - unfold process_telegram_updates. run. rewrite Hreply. run.
    rewrite <- app_assoc. auto.
  - unfold process_telegram_updates. run. rewrite Hreply. run. auto.
  - split; [apply max_update_id_upper|].
    rewrite (process_telegram_updates_batch _ _ _ _ Hreply).
    set (m := max_update_id first rest).
    set (t1 := trace st ++ [EvGetUpdates (request_offset (last_update_id st));
                            EvOffset m]).
    set (st1 := mkState (users st) (Some m) t1 (S (ticks st))).
    assert (H1 : polled m t1 st1).
    { split; [reflexivity|]. exists []. rewrite app_nil_r.
      split; [reflexivity | constructor]. }
    pose proof (polled_stable m t1) as HS.
    assert (H2 : polled m t1
                   (snd (try_except (for_each (first :: rest) (handle_update w))
                           (fun e => emit (EvLogError "Error processing updates"
                                                      (Some e))) st1))).
    { revert H1. generalize st1. apply preserves_try.
      - apply preserves_for_each. intros x.
        apply (preserves_handle_update _ _ _ HS); try (intros; exact Logic.I);
          try reflexivity.
        intros st0 k t _ H. exact H.
      - intros e. apply (preserves_emit _ _ _ HS). reflexivity. }
    destruct H2 as [Hm (evs & Ht & Hall)]. split; [exact Hm|].
    exists evs. split; [|exact Hall]. rewrite Ht. unfold t1.
    rewrite <- app_assoc. reflexivity.
  - unfold process_telegram_updates. run. rewrite Hreply. run. auto.
Qed.

(** C4 as stated fails: on a batch of one [/help] the write to
    [last_update_id] is followed by the reply to the message. *)
Lemma offset_written_before_the_reply :
  ~ acknowledges_last
      (trace (snd (process_telegram_updates world_help (bot_with alice)))).
Proof.
  intros H.
  specialize (H [EvGetUpdates None] 7
                [EvSend (IntId 42) help_msg (Some "Markdown"%string)]).
  assert (E : trace (snd (process_telegram_updates world_help (bot_with alice)))
              = [EvGetUpdates None] ++ EvOffset 7
                :: [EvSend (IntId 42) help_msg (Some "Markdown"%string)])
    by (vm_compute; reflexivity).
  specialize (H E). discriminate H.
Qed.

(** When Telegram cannot be reached the bot is as before, offset
    included, but for the trace and the count of interactions. *)
Example offline_poll_keeps_offset :
  let st := mkState {[ "42"%string := alice ]} (Some 7) [] 0 in
  let st' := snd (process_telegram_updates world_offline st) in
  last_update_id st' = Some 7
  /\ users st' = users st
  /\ trace st' = [EvGetUpdates (Some 8);
                  EvLogError "Error processing updates" (Some RequestException)].
Proof. vm_compute. repeat split; reflexivity. Qed.

(** * Further properties *)

(** ** The store *)

Lemma save_users_exact w st :
  save_users w st
  = (Ok tt, mkState (users st) (last_update_id st)
                    (trace st ++ [save_event w (ticks st) (users st)])
                    (S (ticks st))).
Proof.
  unfold save_users, save_event. rewrite run_try, run_bind, run_ask.
  cbv beta iota. destruct (dump_fails w (ticks st)); run; reflexivity.
Qed.

Lemma register_user_new w chat_id st :
  users st !! str_chat chat_id = None ->
  register_user w chat_id st
  = (Ok true,
     mkState (<[str_chat chat_id := new_user (now w (ticks st))]> (users st))
       (last_update_id st)
       (trace st ++ [save_event w (S (ticks st))
                       (<[str_chat chat_id := new_user (now w (ticks st))]>
                          (users st))])
       (S (S (ticks st)))).
Proof.
  intros Hu. unfold register_user. cbv zeta. rewrite run_bind, run_gets.
  cbv beta iota. rewrite Hu. run. rewrite save_users_exact. run. reflexivity.
Qed.

Lemma register_user_known w chat_id st u :
  users st !! str_chat chat_id = Some u ->
  register_user w chat_id st = (Ok false, st).
Proof.
  intros Hu. unfold register_user. cbv zeta. rewrite run_bind, run_gets.
  cbv beta iota. rewrite Hu. reflexivity.
Qed.

(** X1: [register_user] leaves the id registered and the other profiles
    as they were; on an id that was not in the store it returns [True],
    creates the profile with the default preferences, an empty resume
    and no delivered id, and writes the store; called again on its own
    result it returns [False] and changes nothing. *)
Theorem register_user_once (w : World) (chat_id : ChatId) (st : State) :
  let r := register_user w chat_id st in
  let k := str_chat chat_id in
  (forall k', k' <> k -> users (snd r) !! k' = users st !! k')
  /\ register_user w chat_id (snd r) = (Ok false, snd r)
  /\ match users st !! k with
     | None =>
         fst r = Ok true
         /\ users (snd r) !! k = Some (new_user (now w (ticks st)))
         /\ trace (snd r)
            = trace st ++ [save_event w (S (ticks st)) (users (snd r))]
     | Some u => r = (Ok false, st)
     end.
Proof.
  cbv zeta. destruct (users st !! str_chat chat_id) as [u|] eqn:Hu.
  - rewrite (register_user_known _ _ _ _ Hu). cbn [fst snd].
    rewrite (register_user_known _ _ _ _ Hu). auto.
  - rewrite (register_user_new _ _ _ Hu). cbn [fst snd users trace].
    split; [|split].
    + intros k' Hk. apply lookup_insert_ne. congruence.
    + eapply register_user_known. cbn [users]. apply lookup_insert_eq.
    + rewrite lookup_insert_eq. auto.
Qed.

Lemma set_search_preferences_known w chat_id kws loc sc nt st u :
  users st !! str_chat chat_id = Some u ->
  set_search_preferences w chat_id kws loc sc nt st
  = (Ok true,
     mkState (<[str_chat chat_id :=
                  with_preferences kws loc sc nt (now w (ticks st)) u]> (users st))
       (last_update_id st)
       (trace st ++ [save_event w (S (ticks st))
                       (<[str_chat chat_id :=
                            with_preferences kws loc sc nt (now w (ticks st)) u]>
                          (users st))])
       (S (S (ticks st)))).
Proof.
  intros Hu. unfold set_search_preferences. cbv zeta.
  rewrite run_bind, run_gets. cbv beta iota. rewrite Hu.
  assert (Hstep : forall (f : UserData -> UserData) (us : gmap string UserData)
                         (v : UserData) lid tr tk,
             us !! str_chat chat_id = Some v ->
             update_user (str_chat chat_id) f (mkState us lid tr tk)
             = (Ok tt, mkState (<[str_chat chat_id := f v]> us) lid tr tk)).
  { intros f us v lid tr tk Hv. unfold update_user. run. rewrite Hv. reflexivity. }
  destruct st as [us lid tr tk]. cbn [users last_update_id trace ticks] in *.
  destruct kws, loc, sc, nt; cbn [when_given];
    repeat (rewrite run_bind;
            first [ erewrite Hstep by (first [exact Hu | apply lookup_insert_eq])
                  | rewrite run_ret | rewrite run_ask | rewrite save_users_exact ];
            cbv beta iota; cbn [users last_update_id trace ticks]);
    rewrite ?run_ret, ?insert_insert_eq; reflexivity.
Qed.

(** X2: on a registered id, [set_search_preferences] returns [True],
    replaces the preferences that are given and keeps those that are
    not, stamps the activity, keeps the resume, the delivered ids and the
    flags, leaves the other profiles and the offset alone, and writes the
    store it has built. *)
Theorem set_search_preferences_frame
    (w : World) (chat_id : ChatId) (keywords : option (list string))
    (location : option string) (min_score : option Z)
    (notification_time : option string) (st : State) (u : UserData) :
  users st !! str_chat chat_id = Some u ->
  let r := set_search_preferences w chat_id keywords location min_score
             notification_time st in
  let u' := with_preferences keywords location min_score notification_time
              (now w (ticks st)) u in
  fst r = Ok true
  /\ users (snd r) = <[str_chat chat_id := u']> (users st)
  /\ (resume u' = resume u /\ jobs_sent u' = jobs_sent u
      /\ is_active u' = is_active u /\ welcomed u' = welcomed u)
  /\ last_update_id (snd r) = last_update_id st
  /\ trace (snd r) = trace st ++ [save_event w (S (ticks st)) (users (snd r))].
Proof.
  intros Hu. cbv zeta. rewrite (set_search_preferences_known _ _ _ _ _ _ _ _ Hu).
  cbn [fst snd users last_update_id trace]. repeat split; reflexivity.
Qed.

Lemma set_search_preferences_frame_witness :
  let r := set_search_preferences quiet_world (IntId 42) None (Some "Remote"%string)
             None None (bot_with alice) in
  let u' := with_preferences None (Some "Remote"%string) None None
              (now quiet_world 0) alice in
  fst r = Ok true
  /\ users (snd r) = <[ "42"%string := u']> (users (bot_with alice))
  /\ (resume u' = resume alice /\ jobs_sent u' = jobs_sent alice
      /\ is_active u' = is_active alice /\ welcomed u' = welcomed alice)
  /\ last_update_id (snd r) = last_update_id (bot_with alice)
  /\ trace (snd r) = trace (bot_with alice)
                     ++ [save_event quiet_world 1 (users (snd r))].
Proof.
  apply (set_search_preferences_frame quiet_world (IntId 42) None
           (Some "Remote"%string) None None (bot_with alice) alice).
  vm_compute. reflexivity.
Defined.

(** ** Messages *)

Lemma sends_of_app (a b : list Event) : sends_of (a ++ b) = sends_of a ++ sends_of b.
Proof. apply omap_app. Qed.

Lemma sends_of_send c t m (evs : list Event) :
  sends_of (EvSend c t m :: evs) = (c, t, m) :: sends_of evs.
Proof. reflexivity. Qed.

Lemma sends_of_save_event w t us : sends_of [save_event w t us] = [].
Proof. unfold save_event. destruct (dump_fails w t); reflexivity. Qed.

(** X3: [send_message] returns in every world: it makes one request to
    Telegram, carrying the parse mode only when it is truthy; an
    exception of the transport or a status other than 200 is logged and
    nothing else happens; the store and the offset are untouched. *)
Theorem send_message_is_contained (w : World) (chat_id : ChatId) (text : string)
    (parse_mode : option string) (st : State) :
  let r := send_message w chat_id text parse_mode st in
  fst r = Ok tt
  /\ users (snd r) = users st
  /\ last_update_id (snd r) = last_update_id st
  /\ sends_of (trace (snd r))
     = sends_of (trace st) ++ [(chat_id, text, data_mode parse_mode)]
  /\ logs_of (trace (snd r))
     = logs_of (trace st)
       ++ match post_message w (ticks st) with
          | PostRaises => [("Error sending message"%string, Some RequestException)]
          | PostStatus code =>
              if code =? 200 then []
              else [("Failed to send message"%string, None)]
          end.
Proof.
  cbv zeta. rewrite send_message_run. cbn [fst snd users last_update_id trace].
  repeat split.
  - unfold sends_of. rewrite omap_app. cbn [omap list_omap].
    fold (sends_of (post_log w (ticks st))). rewrite sends_of_post_log.
    reflexivity.
  - unfold logs_of. rewrite omap_app. cbn [omap list_omap]. f_equal.
    unfold post_log. destruct (post_message w (ticks st)) as [|code];
      [reflexivity|]. destruct (code =? 200); reflexivity.
Qed.

(** ** Commands that match no branch *)

(** X4: a text whose stripped form begins with none of the eleven
    prefixes of [parse_command] is dropped: no reply is sent and the bot
    is exactly as before.  [/status], which the help text lists,
    [/extract] and [/improve] are such texts. *)
Theorem unknown_command_is_dropped (w : World) (text : string)
    (chat_id : ChatId) (skip_welcome : bool) (st : State) :
  matches_no_command text = true ->
  parse_command w text chat_id skip_welcome st = (Ok tt, st).
Proof.
  unfold matches_no_command, command_prefixes. cbn [forallb].
  rewrite !andb_true_iff, !negb_true_iff.
  intros (H1 & H2 & H3 & H4 & H5 & H6 & H7 & H8 & H9 & H10 & H11 & _).
  unfold parse_command. cbv zeta.
  rewrite H1, H2, H3, H4, H5, H6, H7, H8, H9, H10, H11. reflexivity.
Qed.

Lemma unknown_command_is_dropped_witness :
  parse_command quiet_world "/status" (IntId 42) false (bot_with alice)
  = (Ok tt, bot_with alice).
Proof.
  apply (unknown_command_is_dropped quiet_world "/status" (IntId 42) false
           (bot_with alice)).
  vm_compute. reflexivity.
Defined.

Example other_unknown_commands :
  matches_no_command "/extract" = true
  /\ matches_no_command "/improve" = true
  /\ matches_no_command "hello" = true.
Proof. vm_compute. auto. Qed.

(** ** Pausing *)

Lemma prefix_split (p s : string) :
  String.prefix p s = true -> exists rest, s = p +:+ rest.
Proof.
  revert s. induction p as [|c p IH]; intros s H.
  - exists s. reflexivity.
  - destruct s as [|d s]; [discriminate|]. simpl in H.
    destruct (ascii_dec c d) as [->|]; [|discriminate].
    destruct (IH s H) as [rest ->]. exists rest. reflexivity.
Qed.

Lemma cmd_set_active_known w chat_id active reply st u :
  users st !! str_chat chat_id = Some u ->
  cmd_set_active w chat_id active reply st
  = (Ok tt,
     mkState (<[str_chat chat_id := with_is_active active u]> (users st))
       (last_update_id st)
       (trace st
        ++ [save_event w (ticks st)
              (<[str_chat chat_id := with_is_active active u]> (users st))]
        ++ EvSend chat_id reply None :: post_log w (S (ticks st)))
       (S (S (ticks st)))).
Proof.
  intros Hu. unfold cmd_set_active. cbv zeta.
  rewrite run_bind, run_gets. cbv beta iota. rewrite Hu.
  unfold update_user. run. rewrite Hu. run.
  rewrite save_users_exact. run. rewrite send_message_run.
  cbn [users last_update_id trace ticks]. rewrite <- app_assoc. reflexivity.
Qed.

(** A text that begins with the prefix of one branch fails the test of
    every branch whose prefix differs from it within their common
    length: [E] gives the beginning of the text, [q] is the other
    prefix. *)
Ltac fails_test E q :=
  match type of E with
  | ?s = _ =>
      replace (Py.startswith s q) with false by (rewrite E; reflexivity)
  end.

Lemma parse_command_pause w text chat_id skip_welcome st :
  Py.startswith (Py.strip text) "/pause" = true ->
  parse_command w text chat_id skip_welcome st
  = cmd_set_active w chat_id false paused_reply st.
Proof.
  intros H. unfold parse_command. cbv zeta.
  destruct (prefix_split _ _ H) as [rest E].
  fails_test E "/start"%string. fails_test E "/help"%string.
  fails_test E "/preferences"%string. fails_test E "/keywords"%string.
  fails_test E "/location"%string. fails_test E "/score"%string.
  fails_test E "/time"%string. fails_test E "/jobs"%string.
  fails_test E "/analyze"%string. rewrite H. reflexivity.
Qed.

Lemma parse_command_resume w text chat_id skip_welcome st :
  Py.startswith (Py.strip text) "/resume" = true ->
  parse_command w text chat_id skip_welcome st
  = cmd_set_active w chat_id true resumed_reply st.
Proof.
  intros H. unfold parse_command. cbv zeta.
  destruct (prefix_split _ _ H) as [rest E].
  fails_test E "/start"%string. fails_test E "/help"%string.
  fails_test E "/preferences"%string. fails_test E "/keywords"%string.
  fails_test E "/location"%string. fails_test E "/score"%string.
  fails_test E "/time"%string. fails_test E "/jobs"%string.
  fails_test E "/analyze"%string. fails_test E "/pause"%string.
  rewrite H. reflexivity.
Qed.

(** X5: a run for an id that is not registered, or whose profile is not
    active, does nothing at all; a run for an active profile without a
    resume sends the request for a resume and fetches nothing. *)
Theorem run_guards (w : World) (sc : Scorer) (chat_id : ChatId) (st : State) :
  let r := send_jobs_to_user_with w sc chat_id st in
  match users st !! str_chat chat_id with
  | None => r = (Ok tt, st)
  | Some u =>
      if is_active u then
        resume u = EmptyString ->
        fst r = Ok tt
        /\ users (snd r) = users st
        /\ trace (snd r)
           = trace st ++ EvSend chat_id resume_request None
                         :: post_log w (ticks st)
      else r = (Ok tt, st)
  end.
Proof.
  cbv zeta. unfold send_jobs_to_user_with. cbv zeta.
  rewrite run_bind, run_gets. cbv beta iota.
  destruct (users st !! str_chat chat_id) as [u|]; [|reflexivity].
  destruct (is_active u); [|reflexivity].
  intros Hres. rewrite Hres. cbn [negb Py.truthy]. cbv iota.
  unfold ask_for_resume. rewrite send_message_run. auto.
Qed.

(** X6: [/pause] from a registered user clears [is_active], writes the
    store and confirms; from then on a run for that user does nothing,
    whatever the scoring method; [/resume] sets the flag again, and for a
    profile that was active the store is then what it was before the
    pause. *)
Theorem pause_stops_runs_and_resume_restores
    (w : World) (sc : Scorer) (chat_id : ChatId) (skip1 skip2 : bool)
    (text1 text2 : string) (st : State) (u : UserData) :
  users st !! str_chat chat_id = Some u ->
  Py.startswith (Py.strip text1) "/pause" = true ->
  Py.startswith (Py.strip text2) "/resume" = true ->
  let st1 := snd (parse_command w text1 chat_id skip1 st) in
  let st2 := snd (parse_command w text2 chat_id skip2 st1) in
  users st1 = <[str_chat chat_id := with_is_active false u]> (users st)
  /\ sends_of (trace st1) = sends_of (trace st) ++ [(chat_id, paused_reply, None)]
  /\ send_jobs_to_user_with w sc chat_id st1 = (Ok tt, st1)
  /\ users st2 = <[str_chat chat_id := with_is_active true u]> (users st)
  /\ (is_active u = true -> users st2 = users st).
Proof.
  intros Hu H1 H2 st1 st2. subst st2 st1.
  rewrite (parse_command_pause _ _ _ _ _ H1).
  rewrite (cmd_set_active_known _ _ _ _ _ _ Hu). cbn [snd].
  set (st1 := mkState _ _ _ _).
  assert (Hu1 : users st1 !! str_chat chat_id = Some (with_is_active false u))
    by apply lookup_insert_eq.
  rewrite (parse_command_resume _ _ _ _ _ H2).
  rewrite (cmd_set_active_known _ _ _ _ _ _ Hu1).
  subst st1. cbn [snd users trace]. repeat split.
  - rewrite !sends_of_app, sends_of_save_event, sends_of_send,
      sends_of_post_log. reflexivity.
  - unfold send_jobs_to_user_with. cbv zeta. rewrite run_bind, run_gets.
    cbv beta iota. cbn [users]. rewrite lookup_insert_eq. reflexivity.
  - rewrite insert_insert_eq. reflexivity.
  - intros Hact. rewrite insert_insert_eq.
    replace (with_is_active true (with_is_active false u)) with u
      by (destruct u; simpl in *; subst; reflexivity).
    apply insert_id, Hu.
Qed.

Lemma pause_stops_runs_and_resume_restores_witness :
  let st := bot_with alice in
  let st1 := snd (parse_command quiet_world "/pause" (IntId 42) false st) in
  let st2 := snd (parse_command quiet_world "/resume" (IntId 42) false st1) in
  users st1 = <[str_chat (IntId 42) := with_is_active false alice]> (users st)
  /\ sends_of (trace st1)
     = sends_of (trace st) ++ [(IntId 42, paused_reply, None)]
  /\ send_jobs_to_user_with quiet_world get_match_score (IntId 42) st1 = (Ok tt, st1)
  /\ users st2 = <[str_chat (IntId 42) := with_is_active true alice]> (users st)
  /\ (is_active alice = true -> users st2 = users st).
Proof.
  apply (pause_stops_runs_and_resume_restores quiet_world get_match_score
           (IntId 42) false false "/pause" "/resume" (bot_with alice) alice).
  - vm_compute. reflexivity.
  - vm_compute. reflexivity.
  - vm_compute. reflexivity.
Defined.

(** ** The welcome *)

Lemma parse_command_start_known w text chat_id skip_welcome st u :
  Py.startswith (Py.strip text) "/start" = true ->
  users st !! str_chat chat_id = Some u ->
  parse_command w text chat_id skip_welcome st
  = if negb skip_welcome && String.eqb (Py.strip text) "/start"
    then (send_message w chat_id welcome_msg None;; ask_for_resume w chat_id) st
    else (Ok tt, st).
Proof.
  intros H Hu. unfold parse_command. cbv zeta. rewrite H.
  rewrite run_bind, (register_user_known _ _ _ _ Hu). cbv beta iota.
  cbn [orb]. destruct (negb skip_welcome && String.eqb (Py.strip text) "/start");
    reflexivity.
Qed.

Lemma welcome_run w chat_id st :
  exists st',
    (send_message w chat_id welcome_msg None;; ask_for_resume w chat_id) st
    = (Ok tt, st')
    /\ users st' = users st
    /\ sends_of (trace st')
       = sends_of (trace st)
         ++ [(chat_id, welcome_msg, None); (chat_id, resume_request, None)].
Proof.
  eexists. rewrite run_bind, send_message_run. cbv beta iota.
  unfold ask_for_resume. rewrite send_message_run.
  split; [reflexivity|]. cbn [users trace ticks]. split; [reflexivity|].
  rewrite !sends_of_app, !sends_of_send, !sends_of_post_log.
  rewrite <- app_assoc. reflexivity.
Qed.

(** X7: an inbound text whose stripped form begins with [/start] leaves
    the sender registered, and is answered with the welcome and the
    request for a resume exactly when the stripped text is [/start]
    itself and either the sender was not registered or the raw text does
    not begin with [/start] (it has leading white space); in every other
    case, [/start] with a payload from a new user among them, nothing is
    sent. *)
Theorem welcome_condition (w : World) (update : Update) (message : Message)
    (text : string) (st : State) :
  upd_message update = Some message ->
  msg_document message = None ->
  msg_text message = Some text ->
  Py.startswith (Py.strip text) "/start" = true ->
  let chat_id := IntId (msg_chat message) in
  let is_new := match users st !! str_chat chat_id with
                | None => true
                | Some _ => false
                end in
  let r := handle_update w update st in
  fst r = Ok tt
  /\ is_Some (users (snd r) !! str_chat chat_id)
  /\ sends_of (trace (snd r))
     = sends_of (trace st)
       ++ (if String.eqb (Py.strip text) "/start"
              && (is_new || negb (Py.startswith text "/start"))
           then [(chat_id, welcome_msg, None); (chat_id, resume_request, None)]
           else []).
Proof.
  intros Hm Hd Ht Hstart chat_id is_new r. subst r is_new.
  unfold handle_update. rewrite Hm, Hd, Ht. fold chat_id.
  rewrite run_bind.
  destruct (users st !! str_chat chat_id) as [u|] eqn:Hu.
  - rewrite (register_user_known _ _ _ _ Hu). cbv beta iota.
    cbn [negb orb andb].
    destruct (Py.startswith text "/start"); cbn [negb andb];
      rewrite (parse_command_start_known _ _ _ _ _ _ Hstart Hu); cbn [negb andb].
    + rewrite andb_false_r. cbn [fst snd]. rewrite app_nil_r, Hu. eauto.
    + rewrite andb_true_r.
      destruct (String.eqb (Py.strip text) "/start").
      * destruct (welcome_run w chat_id st) as (st' & -> & Hus & Hs).
        cbn [fst snd]. rewrite Hus, Hu. eauto.
      * cbn [fst snd]. rewrite app_nil_r, Hu. eauto.
  - rewrite (register_user_new _ _ _ Hu). cbv beta iota.
    set (st1 := mkState _ _ _ _).
    assert (Hu1 : users st1 !! str_chat chat_id
                  = Some (new_user (now w (ticks st)))) by apply lookup_insert_eq.
    assert (Hs1 : sends_of (trace st1) = sends_of (trace st)).
    { subst st1. cbn [trace]. rewrite sends_of_app, sends_of_save_event.
      apply app_nil_r. }
    rewrite andb_false_r.
    rewrite (parse_command_start_known _ _ _ _ _ _ Hstart Hu1). cbn [negb andb orb].
    rewrite andb_true_r.
    destruct (String.eqb (Py.strip text) "/start").
    + destruct (welcome_run w chat_id st1) as (st' & -> & Hus & Hs).
      cbn [fst snd]. rewrite Hus, Hu1, Hs, Hs1. eauto.
    + cbn [fst snd]. rewrite app_nil_r, Hu1, Hs1. eauto.
Qed.

Lemma welcome_condition_witness :
  let update := mkUpdate 1 (Some (mkMessage 7 None (Some "/start ref123"%string))) in
  let chat_id := IntId 7 in
  let st := bot_with alice in
  let is_new := match users st !! str_chat chat_id with
                | None => true
                | Some _ => false
                end in
  let r := handle_update quiet_world update st in
  fst r = Ok tt
  /\ is_Some (users (snd r) !! str_chat chat_id)
  /\ sends_of (trace (snd r))
     = sends_of (trace st)
       ++ (if String.eqb (Py.strip "/start ref123") "/start"
              && (is_new || negb (Py.startswith "/start ref123" "/start"))
           then [(chat_id, welcome_msg, None); (chat_id, resume_request, None)]
           else []).
Proof.
  apply (welcome_condition quiet_world
           (mkUpdate 1 (Some (mkMessage 7 None (Some "/start ref123"%string))))
           (mkMessage 7 None (Some "/start ref123"%string)) "/start ref123"
           (bot_with alice)); reflexivity.
Defined.

(** A new user who opens the bot through a link with a payload is
    registered and receives nothing; the plain command is welcomed. *)
Example start_with_payload_is_silent :
  let quiet c text :=
    sends_of (trace (snd (handle_update quiet_world
                            (mkUpdate 1 (Some (mkMessage c None (Some text))))
                            (bot_with alice)))) in
  quiet 7 "/start ref123"%string = []
  /\ quiet 7 "/start"%string
     = [(IntId 7, welcome_msg, None); (IntId 7, resume_request, None)]
  /\ quiet 42 "/start"%string = []
  /\ quiet 42 " /start"%string
     = [(IntId 42, welcome_msg, None); (IntId 42, resume_request, None)].
Proof. vm_compute. repeat split; reflexivity. Qed.

(** ** The requests of a fetch *)

Lemma scrape_jobs_run w keywords location st :
  scrape_jobs w keywords location st
  = (Ok (board_jobs w (linkedin_url keywords location) ".base-card"
                    (linkedin_job w) (ticks st)
         ++ board_jobs w (indeed_url keywords location) ".job_seen_beacon"
                       (indeed_job w)
                       (ticks st + board_ticks (linkedin_url keywords location))),
     mkState (users st) (last_update_id st)
       (trace st
        ++ [EvSleep "random.uniform(1, 3)"]
        ++ board_trace w "LinkedIn" (linkedin_url keywords location) ".base-card"
                       (linkedin_job w) (ticks st)
        ++ board_trace w "Indeed" (indeed_url keywords location)
                       ".job_seen_beacon" (indeed_job w)
                       (ticks st + board_ticks (linkedin_url keywords location)))
       (ticks st + board_ticks (linkedin_url keywords location)
        + board_ticks (indeed_url keywords location))).
Proof.
  unfold scrape_jobs. rewrite run_bind, run_emit. cbv beta iota.
  rewrite run_bind.
  rewrite scrape_board_run
    by (try apply stateless_linkedin_url; apply stateless_linkedin_job).
  cbv beta iota. rewrite run_bind.
  rewrite scrape_board_run
    by (try apply stateless_indeed_url; apply stateless_indeed_job).
  cbv beta iota. cbn [users last_update_id trace ticks app].
  rewrite run_ret, <- !app_assoc. reflexivity.
Qed.

Lemma gets_of_app (a b : list Event) : gets_of (a ++ b) = gets_of a ++ gets_of b.
Proof. apply omap_app. Qed.

Lemma gets_of_board_trace w board url selector parse t :
  gets_of (board_trace w board url selector parse t)
  = match outcome url with
    | Ok u => [u]
    | Raise _ => []
    end.
Proof.
  unfold board_trace. destruct (outcome url) as [u|e]; [|reflexivity].
  change (u :: gets_of
                 match fetch_page w t u with
                 | PageRaises =>
                     [EvLogError (board +:+ " scraping error") (Some RequestException)]
                 | PageStatus code select =>
                     if code =? 200
                     then flat_map
                            (fun c => match outcome (parse c) with
                                      | Ok _ => []
                                      | Raise e =>
                                          [EvLogError (board +:+ " parsing error")
                                                      (Some e)]
                                      end)
                            (Py.first_n 10 (select selector))
                     else []
                 end = [u]).
  f_equal. destruct (fetch_page w t u) as [|code select]; [reflexivity|].
  destruct (code =? 200); [|reflexivity].
  induction (Py.first_n 10 (select selector)) as [|c l IH]; [reflexivity|].
  cbn [flat_map]. rewrite gets_of_app, IH.
  destruct (outcome (parse c)); reflexivity.
Qed.

(** X8: a fetch asks each board once, for the first keyword only: with a
    keyword list [k :: rest] the two addresses requested are built from
    [k] (commas and white space turned into [+]) and from the location,
    whatever [rest] holds and whatever the boards answer, and the whole
    fetch is the one for the list [[k]]; with an empty list nothing is
    requested and nothing is found. *)
Theorem fetch_uses_first_keyword (w : World) (k : string) (rest : list string)
    (location : string) (st : State) :
  let ks := Py.join "+" (Py.split_ws (Py.replace k "," " ")) in
  gets_of (trace (snd (scrape_jobs w (k :: rest) location st)))
  = gets_of (trace st)
    ++ ["https://www.linkedin.com/jobs/search/?keywords=" +:+ ks
          +:+ "&location=" +:+ location;
        "https://in.indeed.com/jobs?q=" +:+ ks +:+ "&l="
          +:+ Py.replace location " " "+"]
  /\ scrape_jobs w (k :: rest) location st = scrape_jobs w [k] location st
  /\ fst (scrape_jobs w [] location st) = Ok []
  /\ gets_of (trace (snd (scrape_jobs w [] location st))) = gets_of (trace st).
Proof.
  cbv zeta. split; [|split; [reflexivity|]].
  - rewrite scrape_jobs_run. cbn [snd trace].
    rewrite !gets_of_app, !gets_of_board_trace. reflexivity.
  - rewrite scrape_jobs_run. cbn [fst snd trace]. split; [reflexivity|].
    rewrite !gets_of_app, !gets_of_board_trace. cbn. apply app_nil_r.
Qed.

(** ** The resume report *)

(** The replies of the world that decide the log lines of a trace are
    taken by cases. *)
Ltac by_replies :=
  unfold post_log, save_event;
  repeat match goal with
         | |- context [match post_message ?w ?t with _ => _ end] =>
             destruct (post_message w t)
         | |- context [if ?c =? 200 then _ else _] => destruct (c =? 200)
         | |- context [match chat_completion ?w ?t ?p with _ => _ end] =>
             destruct (chat_completion w t p)
         | |- context [if dump_fails ?w ?t then _ else _] =>
             destruct (dump_fails w t)
         end;
  rewrite <- ?app_assoc.

Lemma completions_of_app (a b : list Event) :
  completions_of (a ++ b) = completions_of a ++ completions_of b.
Proof. apply omap_app. Qed.

Lemma completions_of_post_log w t : completions_of (post_log w t) = [].
Proof.
  unfold post_log. destruct (post_message w t) as [|code]; [reflexivity|].
  destruct (code =? 200); reflexivity.
Qed.

Lemma get_resume_improvement_suggestions_run w resume_text job_keywords st :
  let prompt := improvement_prompt resume_text job_keywords in
  get_resume_improvement_suggestions w resume_text job_keywords st
  = (Ok (given (chat_completion w (ticks st) prompt) suggestions_fallback),
     mkState (users st) (last_update_id st)
       (trace st ++ EvComplete prompt "0.3"
                 :: match chat_completion w (ticks st) prompt with
                    | Some _ => []
                    | None => [EvLogError "Resume improvement error" (Some ApiError)]
                    end)
       (S (ticks st))).
Proof.
  cbv zeta. unfold get_resume_improvement_suggestions, complete. cbv zeta. run.
  destruct (chat_completion w (ticks st) _); unfold subscript; run;
    rewrite <- ?app_assoc; reflexivity.
Qed.

(** X9: for a registered user with a resume, [send_resume_analysis]
    sends the notice and then one report, formatted, that carries the
    answer of the oracle to the improvement prompt, or the fallback text
    when the oracle fails; the oracle is asked that one question only;
    the store is untouched and the value returned is the fixed result of
    the handler. *)
Theorem resume_analysis_report (w : World) (chat_id : ChatId) (st : State)
    (u : UserData) :
  users st !! str_chat chat_id = Some u ->
  resume u <> EmptyString ->
  let prompt := improvement_prompt (resume u) (search_keywords u) in
  let suggestions :=
    given (chat_completion w (S (ticks st)) prompt) suggestions_fallback in
  let r := send_resume_analysis w chat_id st in
  fst r = Ok (Some (mkMatch 50 "Error in analysis"))
  /\ users (snd r) = users st
  /\ sends_of (trace (snd r))
     = sends_of (trace st)
       ++ [(chat_id, analyzing_notice, None);
           (chat_id, analysis_report suggestions, Some "Markdown"%string)]
  /\ completions_of (trace (snd r))
     = completions_of (trace st) ++ [(prompt, "0.3"%string)].
Proof.
  intros Hu Hres. cbv zeta. unfold send_resume_analysis. cbv zeta.
  rewrite run_bind, run_gets. cbv beta iota. rewrite Hu.
  destruct (resume u) as [|c0 r0] eqn:Er; [contradiction|].
  cbn [negb Py.truthy]. cbv iota. rewrite <- Er.
  rewrite run_bind, send_message_run. cbv beta iota.
  rewrite run_bind, get_resume_improvement_suggestions_run. cbv beta iota.
  cbn [users last_update_id trace ticks].
  rewrite run_bind, send_message_run. cbv beta iota.
  unfold read_unbound_prompt. run.
  repeat split.
  - by_replies; rewrite sends_of_app; reflexivity.
  - by_replies; rewrite completions_of_app; reflexivity.
Qed.

Lemma resume_analysis_report_witness :
  let st := bot_with alice in
  let prompt := improvement_prompt (resume alice) (search_keywords alice) in
  let suggestions :=
    given (chat_completion quiet_world (S (ticks st)) prompt) suggestions_fallback in
  let r := send_resume_analysis quiet_world (IntId 42) st in
  fst r = Ok (Some (mkMatch 50 "Error in analysis"))
  /\ users (snd r) = users st
  /\ sends_of (trace (snd r))
     = sends_of (trace st)
       ++ [(IntId 42, analyzing_notice, None);
           (IntId 42, analysis_report suggestions, Some "Markdown"%string)]
  /\ completions_of (trace (snd r))
     = completions_of (trace st) ++ [(prompt, "0.3"%string)].
Proof.
  apply (resume_analysis_report quiet_world (IntId 42) (bot_with alice) alice).
  - vm_compute. reflexivity.
  - discriminate.
Defined.

(** ** Documents *)

Lemma run_subscript_some {A} (a : A) (e : Exn) (st : State) :
  subscript (Some a) e st = (Ok a, st).
Proof. reflexivity. Qed.

Lemma run_subscript_none {A} (e : Exn) (st : State) :
  subscript (None : option A) e st = (Raise e, st).
Proof. reflexivity. Qed.

Lemma extract_text_from_pdf_run w pdf_path st :
  exists log,
    extract_text_from_pdf w pdf_path st
    = (Ok (pdf_text (pdf_pages w (ticks st) pdf_path)),
       mkState (users st) (last_update_id st) (trace st ++ log) (S (ticks st)))
    /\ sends_of log = [].
Proof.
  unfold extract_text_from_pdf, pdf_text. rewrite run_try, run_bind, run_ask.
  cbv beta iota. cbn [users last_update_id trace ticks].
  destruct (pdf_pages w (ticks st) pdf_path) as [ps|]; unfold subscript; run.
  - exists []. rewrite app_nil_r. split; [|reflexivity].
    destruct (Py.truthy (Py.join nl ps)); reflexivity.
  - eexists. split; reflexivity.
Qed.

Lemma set_resume_known w chat_id resume_text st u :
  users st !! str_chat chat_id = Some u ->
  set_resume w chat_id resume_text st
  = (Ok true,
     mkState (<[str_chat chat_id :=
                  with_last_activity (now w (ticks st)) (with_resume resume_text u)]>
                (users st))
       (last_update_id st)
       (trace st ++ [save_event w (S (ticks st))
                       (<[str_chat chat_id :=
                            with_last_activity (now w (ticks st))
                              (with_resume resume_text u)]> (users st))])
       (S (S (ticks st)))).
Proof.
  intros Hu. unfold set_resume. cbv zeta. rewrite run_bind, run_gets.
  cbv beta iota. rewrite Hu. unfold update_user. run. rewrite Hu. run.
  rewrite lookup_insert_eq. run. rewrite save_users_exact. run.
  rewrite insert_insert_eq. reflexivity.
Qed.

Lemma set_resume_unknown w chat_id resume_text st :
  users st !! str_chat chat_id = None ->
  set_resume w chat_id resume_text st = (Ok false, st).
Proof.
  intros Hu. unfold set_resume. cbv zeta. rewrite run_bind, run_gets.
  cbv beta iota. rewrite Hu. reflexivity.
Qed.

(** The handler of [handle_document]. *)
Lemma document_handler_run w chat_id e st :
  (emit (EvLogError "Error handling document" (Some e));;
   send_message w chat_id document_error None) st
  = (Ok tt,
     mkState (users st) (last_update_id st)
       (trace st ++ EvLogError "Error handling document" (Some e)
                 :: EvSend chat_id document_error None :: post_log w (ticks st))
       (S (ticks st))).
Proof.
  rewrite run_bind, run_emit. cbv beta iota. rewrite send_message_run.
  cbn [users last_update_id trace ticks]. rewrite <- app_assoc. reflexivity.
Qed.

(** X10: [handle_document] returns in every world.  The resume of the
    sender changes only when the document reaches the disk and the
    sender is registered; it then becomes what [extract_text_from_pdf]
    returned, which is the error text of that method when the file
    cannot be read, and the sender is told that the resume is received.
    Every failure on the way is answered with one message, except an
    answer of [getFile] without a result, which is answered with none. *)
Theorem handle_document_outcome (w : World) (file_id : string)
    (chat_id : ChatId) (st : State) :
  let r := handle_document w file_id chat_id st in
  let t := ticks st in
  let resume_text := pdf_text (pdf_pages w (3 + t) (pdf_path_of chat_id)) in
  fst r = Ok tt
  /\ last_update_id (snd r) = last_update_id st
  /\ users (snd r)
     = match document_saved w t file_id, users st !! str_chat chat_id with
       | true, Some u =>
           <[str_chat chat_id :=
               with_last_activity (now w (4 + t)) (with_resume resume_text u)]>
             (users st)
       | _, _ => users st
       end
  /\ sends_of (trace (snd r))
     = sends_of (trace st)
       ++ map (fun text => (chat_id, text, None))
              (document_replies w t file_id
                 (bool_decide (is_Some (users st !! str_chat chat_id)))).
Proof.
  cbv zeta. unfold handle_document, document_saved, document_replies,
    file_url_of, pdf_path_of.
  cbv zeta. fold document_error.
  rewrite run_try, run_bind, run_emit. cbv beta iota.
  rewrite run_bind, run_ask. cbv beta iota. cbn [users last_update_id trace ticks].
  destruct (get_file w (ticks st) file_id) as [|[[file_path|]|]].
  - (* the request raises *)
    rewrite run_raise. cbv beta iota. rewrite document_handler_run.
    cbn [fst snd users last_update_id trace].
    repeat split. by_replies; rewrite !sends_of_app; reflexivity.
  - (* the path is known *)
    rewrite run_bind, run_subscript_some. cbv beta iota.
    rewrite run_bind, run_emit. cbv beta iota.
    rewrite run_bind, run_ask. cbv beta iota.
    cbn [users last_update_id trace ticks].
    match goal with
    | |- context [download w ?t ?u] => destruct (download w t u) as [|code]
    end.
    + rewrite run_raise. cbv beta iota. rewrite document_handler_run.
      cbn [fst snd users last_update_id trace].
      repeat split. by_replies; rewrite !sends_of_app; reflexivity.
    + destruct (code =? 200); cbn [andb].
      * rewrite run_bind, run_ask. cbv beta iota.
        cbn [users last_update_id trace ticks].
        destruct (write_pdf_fails w (S (S (ticks st)))); cbn [negb].
        -- rewrite run_bind, run_raise. cbv beta iota.
           rewrite document_handler_run.
           cbn [fst snd users last_update_id trace].
           repeat split. by_replies; rewrite !sends_of_app; reflexivity.
        -- rewrite run_bind, run_emit. cbv beta iota. rewrite run_bind.
           match goal with
           | |- context [extract_text_from_pdf w ?p ?s] =>
               destruct (extract_text_from_pdf_run w p s) as (log & -> & Hlog)
           end.
           cbv beta iota. cbn [users last_update_id trace ticks]. rewrite run_bind.
           destruct (users st !! str_chat chat_id) as [u|] eqn:Hu.
           ++ erewrite set_resume_known by (cbn [users]; exact Hu).
              cbv beta iota. cbn [users last_update_id trace ticks].
              rewrite run_bind, send_message_run. cbv beta iota.
              unfold ask_for_preferences. rewrite send_message_run.
              cbn [fst snd users last_update_id trace ticks].
              repeat split.
              rewrite bool_decide_eq_true_2 by eauto.
              rewrite !sends_of_app, Hlog, sends_of_save_event, !sends_of_send,
                !sends_of_post_log.
              cbn [sends_of omap list_omap app data_mode map].
              rewrite ?app_nil_r, <- ?app_assoc. reflexivity.
           ++ erewrite set_resume_unknown by (cbn [users]; exact Hu).
              cbv beta iota. rewrite send_message_run.
              cbn [fst snd users last_update_id trace ticks].
              repeat split.
              rewrite bool_decide_eq_false_2 by (intros [? ?]; discriminate).
              rewrite !sends_of_app, Hlog, !sends_of_send, !sends_of_post_log.
              cbn [sends_of omap list_omap app data_mode map].
              rewrite ?app_nil_r, <- ?app_assoc. reflexivity.
      * rewrite send_message_run.
        cbn [fst snd users last_update_id trace ticks].
        repeat split. by_replies; rewrite !sends_of_app; reflexivity.
  - (* the result has no path *)
    rewrite run_bind, run_subscript_none. cbv beta iota.
    rewrite document_handler_run.
    cbn [fst snd users last_update_id trace].
    repeat split. by_replies; rewrite !sends_of_app; reflexivity.
  - (* no result *)
    rewrite run_ret. cbv beta iota. cbn [fst snd users last_update_id trace map].
    repeat split. rewrite sends_of_app. reflexivity.
Qed.

(** A file that the reader cannot open: the error text of the reader is
    stored as the resume and the reply says that the resume is received. *)
Example unreadable_pdf_becomes_the_resume :
  let r := handle_document world_unreadable_pdf "file_1" (IntId 42)
             (bot_with alice) in
  resume <$> (users (snd r) !! "42"%string) = Some "❌ Error reading PDF."%string
  /\ sends_of (trace (snd r))
     = [(IntId 42, resume_received, None); (IntId 42, preferences_prompt, None)].
Proof. vm_compute. split; reflexivity. Qed.

(** ** Polling, continued *)

Lemma for_each_stops {A} (body : A -> M unit) (done : list A) (x : A)
    (rest : list A) (st1 st2 st3 : State) (e : Exn) :
  for_each done body st1 = (Ok tt, st2) ->
  body x st2 = (Raise e, st3) ->
  for_each (done ++ x :: rest) body st1 = (Raise e, st3).
Proof.
  revert st1. induction done as [|y done IH]; intros st1 Hdone Hx.
  - simpl in Hdone. injection Hdone as <-. simpl. rewrite run_bind, Hx.
    reflexivity.
  - simpl in *. rewrite run_bind in *.
    destruct (body y st1) as [[[]|e'] st'] eqn:Hy; [|discriminate].
    apply IH; assumption.
Qed.

(** X11: when the handling of a message of the batch raises,
    [process_telegram_updates] logs the exception and returns, and the
    messages after that one are not handled; as the offset was set to the
    highest id of the batch before the first message, the next poll does
    not ask for them again. *)
Theorem poll_drops_the_rest_of_a_batch
    (w : World) (st st2 st3 : State) (done : list Update) (x : Update)
    (rest : list Update) (first : Update) (others : list Update) (e : Exn) :
  get_updates w (ticks st) (request_offset (last_update_id st))
  = UpdatesJson (Some (first :: others)) ->
  first :: others = done ++ x :: rest ->
  for_each done (handle_update w) (batch_start w st first others) = (Ok tt, st2) ->
  handle_update w x st2 = (Raise e, st3) ->
  let r := process_telegram_updates w st in
  r = (Ok tt, mkState (users st3) (last_update_id st3)
                (trace st3 ++ [EvLogError "Error processing updates" (Some e)])
                (ticks st3))
  /\ last_update_id (snd r) = Some (max_update_id first others)
  /\ request_offset (last_update_id (snd r))
     = request_offset (Some (max_update_id first others)).
Proof.
  intros Hreply Hsplit Hdone Hx r. subst r.
  rewrite (process_telegram_updates_batch _ _ _ _ Hreply).
  fold (batch_start w st first others). rewrite run_try, Hsplit.
  rewrite (for_each_stops _ _ _ _ _ _ _ _ Hdone Hx). rewrite run_emit.
  cbn [snd last_update_id].
  assert (Hlast : last_update_id st3 = Some (max_update_id first others)).
  { pose proof (polled_stable (max_update_id first others)
                  (trace (batch_start w st first others))) as HS.
    assert (H1 : polled (max_update_id first others)
                   (trace (batch_start w st first others))
                   (batch_start w st first others)).
    { split; [reflexivity|]. exists []. rewrite app_nil_r.
      split; [reflexivity | constructor]. }
    assert (Hh : forall u, preserves
                   (polled (max_update_id first others)
                      (trace (batch_start w st first others)))
                   (handle_update w u)).
    { intros u. apply (preserves_handle_update _ _ _ HS);
        try (intros; exact Logic.I); try reflexivity.
      intros st0 k t _ H. exact H. }
    assert (H2 : polled (max_update_id first others)
                   (trace (batch_start w st first others)) st2).
    { pose proof (preserves_for_each _ done (handle_update w) Hh
                    (batch_start w st first others) H1) as G.
      rewrite Hdone in G. exact G. }
    pose proof (Hh x st2 H2) as G. rewrite Hx in G. apply G. }
  rewrite Hlast. auto.
Qed.

Lemma poll_drops_the_rest_of_a_batch_witness :
  let st := bot_with alice in
  let first := mkUpdate 8 (Some (mkMessage 42 None (Some "/jobs"%string))) in
  let second := mkUpdate 9 (Some (mkMessage 42 None (Some "/help"%string))) in
  let st3 := snd (handle_update world_no_threads first
                    (batch_start world_no_threads st first [second])) in
  let r := process_telegram_updates world_no_threads st in
  r = (Ok tt, mkState (users st3) (last_update_id st3)
                (trace st3 ++ [EvLogError "Error processing updates"
                                          (Some RuntimeError)])
                (ticks st3))
  /\ last_update_id (snd r) = Some (max_update_id first [second])
  /\ request_offset (last_update_id (snd r))
     = request_offset (Some (max_update_id first [second])).
Proof.
  apply (poll_drops_the_rest_of_a_batch world_no_threads (bot_with alice)
           (batch_start world_no_threads (bot_with alice)
              (mkUpdate 8 (Some (mkMessage 42 None (Some "/jobs"%string))))
              [mkUpdate 9 (Some (mkMessage 42 None (Some "/help"%string)))])
           _ []
           (mkUpdate 8 (Some (mkMessage 42 None (Some "/jobs"%string))))
           [mkUpdate 9 (Some (mkMessage 42 None (Some "/help"%string)))]
           (mkUpdate 8 (Some (mkMessage 42 None (Some "/jobs"%string))))
           [mkUpdate 9 (Some (mkMessage 42 None (Some "/help"%string)))]
           RuntimeError).
  - reflexivity.
  - reflexivity.
  - reflexivity.
  - vm_compute. reflexivity.
Defined.

(** The second message of that batch gets no reply, and the next poll
    asks for the updates after it. *)
Example help_after_failed_jobs_is_lost :
  let r := process_telegram_updates world_no_threads (bot_with alice) in
  fst r = Ok tt
  /\ map (fun s => snd (fst s)) (sends_of (trace (snd r)))
     = ["🔍 Searching for jobs matching your profile... This may take a minute."%string]
  /\ request_offset (last_update_id (snd r)) = Some 10.
Proof. vm_compute. repeat split; reflexivity. Qed.

(** ** What can raise *)

Lemma never_raises_value {A} (m : M A) (st : State) :
  never_raises m -> exists a, fst (m st) = Ok a.
Proof. intros H. destruct (H st) as (a & Ha & _). eauto. Qed.

Lemma never_raises_intro {A} (m : M A) :
  (forall st, exists a, fst (m st) = Ok a) -> never_raises m.
Proof. intros H st. destruct (H st) as [a Ha]. exists a. auto. Qed.

Lemma never_raises_register_user w chat_id : never_raises (register_user w chat_id).
Proof.
  apply never_raises_intro. intros st.
  destruct (users st !! str_chat chat_id) as [u|] eqn:Hu.
  - rewrite (register_user_known _ _ _ _ Hu). eauto.
  - rewrite (register_user_new _ _ _ Hu). eauto.
Qed.

Lemma never_raises_set_search_preferences w chat_id kws loc sc nt :
  never_raises (set_search_preferences w chat_id kws loc sc nt).
Proof.
  apply never_raises_intro. intros st.
  destruct (users st !! str_chat chat_id) as [u|] eqn:Hu.
  - rewrite (set_search_preferences_known _ _ _ _ _ _ _ _ Hu). eauto.
  - unfold set_search_preferences. cbv zeta. rewrite run_bind, run_gets.
    cbv beta iota. rewrite Hu. eauto.
Qed.

Lemma never_raises_cmd_set_active w chat_id active reply :
  never_raises (cmd_set_active w chat_id active reply).
Proof.
  apply never_raises_intro. intros st.
  destruct (users st !! str_chat chat_id) as [u|] eqn:Hu.
  - rewrite (cmd_set_active_known _ _ _ _ _ _ Hu). eauto.
  - unfold cmd_set_active. cbv zeta. rewrite run_bind, run_gets.
    cbv beta iota. rewrite Hu. eauto.
Qed.

Lemma never_raises_handled {A} (body : M A) (handler : Exn -> M A) :
  (forall e, never_raises (handler e)) -> never_raises (try_except body handler).
Proof. intros H. apply returns_try; [apply ensures_true | exact H]. Qed.

Lemma never_raises_then {A} (m : M A) (k : M unit) :
  never_raises m -> never_raises k -> never_raises (m ≫= fun _ => k).
Proof. intros Hm Hk. apply never_raises_bind; [exact Hm | intros _; exact Hk]. Qed.

Lemma never_raises_ask_for_resume w chat_id : never_raises (ask_for_resume w chat_id).
Proof. apply never_raises_send_message. Qed.

Lemma never_raises_handle_document w file_id chat_id :
  never_raises (handle_document w file_id chat_id).
Proof.
  unfold handle_document. apply never_raises_handled. intros e.
  apply never_raises_then; [apply returns_emit | apply never_raises_send_message].
Qed.

Lemma never_raises_start_thread w target chat_id :
  (forall t, thread_start_fails w t = false) ->
  never_raises (start_thread w target chat_id).
Proof.
  intros H. apply never_raises_intro. intros st. unfold start_thread.
  rewrite run_bind, run_ask. cbv beta iota. rewrite H. eauto.
Qed.

Lemma never_raises_parse_command w text chat_id skip_welcome :
  (forall t, thread_start_fails w t = false) ->
  never_raises (parse_command w text chat_id skip_welcome).
Proof.
  intros H. unfold parse_command. cbv zeta.
  repeat match goal with
         | |- never_raises (if ?b then _ else _) => destruct b
         end.
  - apply never_raises_bind; [apply never_raises_register_user|].
    intros is_new. destruct (_ && _).
    + apply never_raises_then;
        [apply never_raises_send_message | apply never_raises_ask_for_resume].
    + apply returns_ret. exact Logic.I.
  - apply never_raises_send_message.
  - unfold cmd_preferences. apply never_raises_handled. intros e.
    apply never_raises_then; [apply returns_emit | apply never_raises_send_message].
  - unfold cmd_keywords. apply never_raises_handled. intros e.
    apply never_raises_then; [apply returns_emit | apply never_raises_send_message].
  - unfold cmd_location. cbv zeta. destruct (Py.truthy _).
    + apply never_raises_then;
        [apply never_raises_set_search_preferences | apply never_raises_send_message].
    + apply never_raises_send_message.
  - unfold cmd_score. apply never_raises_handled. intros e.
    apply never_raises_send_message.
  - unfold cmd_time. cbv zeta. destruct (_ && _).
    + apply never_raises_then;
        [apply never_raises_set_search_preferences | apply never_raises_send_message].
    + apply never_raises_send_message.
  - apply never_raises_then;
      [apply never_raises_send_message | apply never_raises_start_thread, H].
  - apply never_raises_then;
      [apply never_raises_send_message | apply never_raises_start_thread, H].
  - apply never_raises_cmd_set_active.
  - apply never_raises_cmd_set_active.
  - apply returns_ret. exact Logic.I.
Qed.

(** X12: in a world where threads can be started, no command and no
    inbound message makes the handling raise: whatever the text, the
    document, the state and the answers of Telegram, of the disk and of
    the other services, [parse_command] and [handle_update] return. *)
Theorem handling_returns_when_threads_start (w : World)
    (H : forall t, thread_start_fails w t = false) :
  (forall text chat_id skip_welcome st,
      fst (parse_command w text chat_id skip_welcome st) = Ok tt)
  /\ (forall update st, fst (handle_update w update st) = Ok tt).
Proof.
  split.
  - intros text chat_id skip st.
    destruct (never_raises_value _ st
                (never_raises_parse_command w text chat_id skip H)) as [[] Ha].
    exact Ha.
  - intros update st.
    assert (G : never_raises (handle_update w update)).
    { unfold handle_update. destruct (upd_message update) as [message|];
        [|apply returns_ret; exact Logic.I].
      cbv zeta. apply never_raises_bind; [apply never_raises_register_user|].
      intros is_new. destruct (msg_document message).
      - apply never_raises_handle_document.
      - destruct (msg_text message); [|apply returns_ret; exact Logic.I].
        destruct (_ && _); apply never_raises_parse_command, H. }
    destruct (never_raises_value _ st G) as [[] Ha]. exact Ha.
Qed.

Lemma handling_returns_when_threads_start_witness :
  (forall text chat_id skip_welcome st,
      fst (parse_command quiet_world text chat_id skip_welcome st) = Ok tt)
  /\ (forall update st, fst (handle_update quiet_world update st) = Ok tt).
Proof.
  apply (handling_returns_when_threads_start quiet_world).
  intros t. reflexivity.
Defined.

(** X13: [process_telegram_updates] returns whatever Telegram answers
    and whatever happens while the batch is handled, a thread that
    cannot be started included. *)
Theorem poll_always_returns (w : World) (st : State) :
  fst (process_telegram_updates w st) = Ok tt.
Proof.
  assert (G : never_raises (process_telegram_updates w)).
  { unfold process_telegram_updates. cbv zeta.
    apply never_raises_bind; [apply returns_gets|]. intros last.
    apply never_raises_handled. intros e. apply returns_emit. }
  destruct (never_raises_value _ st G) as [[] Ha]. exact Ha.
Qed.

(** ** The loop of a run, with a scoring method that answers *)

Lemma matches_of_cons f threshold j l :
  matches_of f threshold (j :: l)
  = if threshold <=? score (f j) then j :: matches_of f threshold l
    else matches_of f threshold l.
Proof.
  unfold matches_of. rewrite filter_cons.
  destruct (decide (threshold <= score (f j))) as [H|H];
    destruct (Z.leb_spec threshold (score (f j))); try lia; reflexivity.
Qed.

Lemma score_and_send_scored w (sc : Scorer) (f : Job -> MatchResult) chat_id job
    matches_found st u :
  (forall t j r, sc t j r = Ok (Some (f j))) ->
  users st !! str_chat chat_id = Some u ->
  exists st',
    score_and_send w sc chat_id job matches_found st
    = (Ok (if min_match_score u <=? score (f job) then matches_found + 1
           else matches_found), st')
    /\ users st' = users st
    /\ sends_of (trace st')
       = sends_of (trace st)
         ++ (if min_match_score u <=? score (f job)
             then [notification chat_id f job] else []).
Proof.
  intros Hsc Hu. unfold score_and_send. cbv zeta.
  rewrite run_bind, (user_data_run _ _ _ Hu). cbv beta iota.
  rewrite run_bind, call_scorer_run, Hsc. cbv beta iota.
  unfold item. rewrite run_bind, run_ret. cbv beta iota.
  rewrite run_bind, run_ret. cbv beta iota.
  rewrite run_bind. erewrite user_data_run by (cbn [users]; exact Hu).
  cbv beta iota.
  destruct (min_match_score u <=? score (f job)).
  - rewrite run_bind, send_message_run. run. eexists. split; [reflexivity|].
    split; [reflexivity|]. cbn [trace].
    rewrite !sends_of_app, sends_of_send, sends_of_post_log.
    cbn. rewrite app_nil_r, <- app_assoc. reflexivity.
  - run. eexists. split; [reflexivity|]. split; [reflexivity|]. cbn [trace].
    rewrite sends_of_app. reflexivity.
Qed.

Lemma loop_sends w (sc : Scorer) (f : Job -> MatchResult) chat_id
    (new_jobs : list Job) :
  (forall t j r, sc t j r = Ok (Some (f j))) ->
  forall matches_found st u,
  users st !! str_chat chat_id = Some u ->
  exists st',
    for_fold new_jobs matches_found (process_job w sc chat_id) st
    = (Ok (matches_found
           + Z.of_nat (length (matches_of f (min_match_score u) new_jobs))), st')
    /\ users st' = <[str_chat chat_id := record_all new_jobs u]> (users st)
    /\ sends_of (trace st')
       = sends_of (trace st)
         ++ map (notification chat_id f)
                (matches_of f (min_match_score u) new_jobs).
Proof.
  intros Hsc. induction new_jobs as [|j l IH]; intros n st u Hu.
  - exists st. cbn. rewrite Z.add_0_r, app_nil_r.
    split; [reflexivity|]. split; [|reflexivity]. symmetry. apply insert_id, Hu.
  - cbn [for_fold record_all fold_left]. rewrite run_bind.
    unfold process_job at 1. rewrite run_bind, record_sent_run, Hu. cbv beta iota.
    set (st1 := mkState _ _ _ _).
    assert (Hu1 : users st1 !! str_chat chat_id = Some (mark_sent (job_id j) u))
      by apply lookup_insert_eq.
    destruct (score_and_send_scored w sc f chat_id j n st1 _ Hsc Hu1)
      as (st2 & E & Hus & Hsends). rewrite E. cbv beta iota.
    assert (Hu2 : users st2 !! str_chat chat_id = Some (mark_sent (job_id j) u))
      by (rewrite Hus; exact Hu1).
    destruct (IH (if min_match_score (mark_sent (job_id j) u) <=? score (f j)
                  then n + 1 else n) st2 _ Hu2) as (st3 & E3 & Hus3 & Hsends3).
    exists st3. rewrite E3, Hus3, Hus, Hsends3, Hsends, matches_of_cons.
    change (min_match_score (mark_sent (job_id j) u)) with (min_match_score u).
    subst st1. cbn [users trace].
    split; [|split].
    + f_equal. f_equal. destruct (min_match_score u <=? score (f j)); cbn [length]; lia.
    + apply insert_insert_eq.
    + rewrite <- app_assoc. f_equal.
      destruct (min_match_score u <=? score (f j)); reflexivity.
Qed.

(** X14: the loop of [send_jobs_to_user], run with a scoring method that
    answers every call with the result [f job].  When some fetched
    posting is new, the run returns; the messages it sends are the
    notifications of the new postings that score at or above the
    threshold of the user, in the order of the fetch, followed by one
    closing message that counts them, or that counts the new postings
    when none was notified; the ids of all new postings, notified or
    not, are added to the delivered ids, of which the last hundred are
    kept. *)
Theorem run_notifies_the_matches (w : World) (sc : Scorer)
    (f : Job -> MatchResult) (chat_id : ChatId) (jobs : list Job) (st : State)
    (u : UserData)
    (Hsc : forall t j r, sc t j r = Ok (Some (f j)))
    (Hu : users st !! str_chat chat_id = Some u)
    (Hnew : new_postings u jobs <> []) :
  let r := deliver w sc chat_id jobs st in
  let matched := matches_of f (min_match_score u) (new_postings u jobs) in
  fst r = Ok tt
  /\ sends_of (trace (snd r))
     = sends_of (trace st)
       ++ map (notification chat_id f) matched
       ++ [closing_message chat_id (min_match_score u)
             (length (new_postings u jobs)) (length matched)]
  /\ jobs_sent <$> (users (snd r) !! str_chat chat_id)
     = Some (Py.last_n 100 (jobs_sent u ++ map job_id (new_postings u jobs))).
Proof.
  intros r matched. subst r matched. unfold new_postings in *. unfold deliver.
  destruct jobs as [|j0 jobs']; [contradiction Hnew; reflexivity|].
  cbv zeta. rewrite run_bind, (user_data_run _ _ _ Hu). cbv beta iota.
  destruct (filter (fun job => job_id job ∉ jobs_sent u) (j0 :: jobs'))
    as [|n ns] eqn:Hf; [contradiction Hnew; reflexivity|].
  destruct (loop_sends w sc f chat_id (n :: ns) Hsc 0 st u Hu)
    as (st1 & E & Hus & Hsends).
  rewrite run_bind, E. cbv beta iota.
  assert (Hu1 : users st1 !! str_chat chat_id = Some (record_all (n :: ns) u))
    by (rewrite Hus; apply lookup_insert_eq).
  rewrite run_bind, (user_data_run _ _ _ Hu1). cbv beta iota.
  assert (Hthr : min_match_score (record_all (n :: ns) u) = min_match_score u).
  { clear. generalize (n :: ns). intros l. revert u.
    induction l as [|j l IH]; intros u; [reflexivity|].
    cbn [record_all fold_left]. apply (IH (mark_sent (job_id j) u)). }
  rewrite Hthr, run_bind.
  set (matched := matches_of f (min_match_score u) (n :: ns)) in *.
  assert (Hclose :
            (if 0 + Z.of_nat (length matched) =? 0
             then none_met (length (n :: ns)) (min_match_score u)
             else sent_summary (0 + Z.of_nat (length matched)))
            = snd (fst (closing_message chat_id (min_match_score u)
                          (length (n :: ns)) (length matched)))).
  { unfold closing_message. cbn [fst snd]. destruct (length matched); reflexivity. }
  assert (Hids : jobs_sent <$> (users st1 !! str_chat chat_id)
                 = Some (Py.last_n 100 (jobs_sent u ++ map job_id (n :: ns)))).
  { rewrite Hu1. cbn [fmap option_fmap option_map]. f_equal.
    apply jobs_sent_record_all. discriminate. }
  destruct (0 + Z.of_nat (length matched) =? 0) eqn:Hz;
    rewrite send_message_run; cbv beta iota; rewrite save_users_exact;
    cbn [fst snd trace users]; (split; [reflexivity|]);
    (split; [|exact Hids]);
    rewrite !sends_of_app, sends_of_send, sends_of_post_log,
      sends_of_save_event, Hsends, Hclose, <- ?app_assoc;
    unfold closing_message; cbn [fst snd app]; reflexivity.
Qed.

Lemma run_notifies_the_matches_witness :
  let r := deliver world_ab scorer_80_40 (IntId 42) [job_a; job_b]
                   (bot_with alice) in
  fst r = Ok tt
  /\ sends_of (trace (snd r))
     = sends_of (trace (bot_with alice))
       ++ map (notification (IntId 42) score_80_40)
              (matches_of score_80_40 (min_match_score alice)
                          (new_postings alice [job_a; job_b]))
       ++ [closing_message (IntId 42) (min_match_score alice)
             (length (new_postings alice [job_a; job_b]))
             (length (matches_of score_80_40 (min_match_score alice)
                                 (new_postings alice [job_a; job_b])))]
  /\ jobs_sent <$> (users (snd r) !! str_chat (IntId 42))
     = Some (Py.last_n 100 (jobs_sent alice
                            ++ map job_id (new_postings alice [job_a; job_b]))).
Proof.
  apply (run_notifies_the_matches world_ab scorer_80_40 score_80_40 (IntId 42)
           [job_a; job_b] (bot_with alice) alice).
  - intros t j r. reflexivity.
  - reflexivity.
  - vm_compute. discriminate.
Defined.

(** ** Refusals *)

Lemma accepted_stable (t0 : list Event) :
  Stable (extends t0 accepted) accepted (fun _ => True).
Proof.
  apply extends_stable. intros e He. destruct e; try discriminate; reflexivity.
Qed.

Lemma kept {A} (m : M A) :
  (forall us, preserves (users_are us) m) -> kept_or_accepted m.
Proof. intros H st. left. apply (H (users st)). reflexivity. Qed.

Lemma all_accepted {A} (m : M A) :
  (forall t0, preserves (extends t0 accepted) m) -> kept_or_accepted m.
Proof.
  intros H st. right. apply (H (trace st)). exists []. rewrite app_nil_r.
  split; [reflexivity | constructor].
Qed.

Lemma kept_send_message w chat_id text mode :
  kept_or_accepted (send_message w chat_id text mode).
Proof.
  apply kept. intros us.
  apply (preserves_send_message _ _ _ (users_are_stable us)). exact Logic.I.
Qed.

Lemma accepted_send_message w chat_id text mode t0 :
  Py.startswith text "❌" = false ->
  preserves (extends t0 accepted) (send_message w chat_id text mode).
Proof.
  intros H. apply (preserves_send_message _ _ _ (accepted_stable t0)). exact H.
Qed.

Lemma accepted_set_search_preferences w chat_id kws loc sc nt t0 :
  preserves (extends t0 accepted) (set_search_preferences w chat_id kws loc sc nt).
Proof.
  apply (preserves_set_search_preferences _ _ _ (accepted_stable t0));
    intros; exact Logic.I.
Qed.

Lemma accepted_register_user w chat_id t0 :
  preserves (extends t0 accepted) (register_user w chat_id).
Proof.
  apply (preserves_register_user _ _ _ (accepted_stable t0)).
  intros st k t _ H. exact H.
Qed.

Lemma accepted_start_thread w target chat_id t0 :
  preserves (extends t0 accepted) (start_thread w target chat_id).
Proof.
  unfold start_thread. apply preserves_bind.
  - apply (preserves_ask _ _ _ (accepted_stable t0)).
  - intros fails. destruct fails; [apply preserves_raise|].
    apply (preserves_emit _ _ _ (accepted_stable t0)). reflexivity.
Qed.

Lemma run_try_returns {A} (body : M A) (handler : Exn -> M A) :
  never_raises body -> forall st, try_except body handler st = body st.
Proof.
  intros H st. rewrite run_try. destruct (H st) as (a & Ha & _).
  destruct (body st) as [[a'|e] st']; [reflexivity | discriminate].
Qed.

Lemma kept_or_accepted_try {A} (body : M A) (handler : Exn -> M A) :
  never_raises body -> kept_or_accepted body ->
  kept_or_accepted (try_except body handler).
Proof. intros Hn H st. rewrite (run_try_returns _ _ Hn). apply H. Qed.

Lemma kept_or_accepted_try_subscript {A B} (o : option A) (e : Exn)
    (k : A -> M B) (handler : Exn -> M B) :
  (forall a, o = Some a -> kept_or_accepted (try_except (k a) handler)) ->
  (o = None -> kept_or_accepted (handler e)) ->
  kept_or_accepted (try_except (subscript o e ≫= k) handler).
Proof.
  intros Hs Hn st. destruct o as [a|].
  - specialize (Hs a eq_refl st). rewrite run_try in *.
    rewrite run_bind, run_subscript_some. exact Hs.
  - specialize (Hn eq_refl st). rewrite run_try, run_bind, run_subscript_none.
    exact Hn.
Qed.

Lemma set_then_confirm w chat_id kws loc sc nt text :
  Py.startswith text "❌" = false ->
  never_raises (set_search_preferences w chat_id kws loc sc nt
                  ≫= fun _ => send_message w chat_id text None)
  /\ kept_or_accepted (set_search_preferences w chat_id kws loc sc nt
                         ≫= fun _ => send_message w chat_id text None).
Proof.
  intros H. split.
  - apply never_raises_then;
      [apply never_raises_set_search_preferences | apply never_raises_send_message].
  - apply all_accepted. intros t0. apply preserves_bind.
    + apply accepted_set_search_preferences.
    + intros _. apply accepted_send_message, H.
Qed.

Lemma kept_or_accepted_cmd_score w text chat_id :
  kept_or_accepted (cmd_score w text chat_id).
Proof.
  unfold cmd_score. apply kept_or_accepted_try_subscript.
  - intros score _. destruct (_ && _).
    + destruct (set_then_confirm w chat_id None None (Some score) None
                  (score_updated score) eq_refl) as [Hn Hk].
      apply kept_or_accepted_try; assumption.
    + apply kept_or_accepted_try;
        [apply never_raises_send_message | apply kept_send_message].
  - intros _. apply kept_send_message.
Qed.

Lemma kept_or_accepted_cmd_preferences w text chat_id :
  kept_or_accepted (cmd_preferences w text chat_id).
Proof.
  unfold cmd_preferences. cbv zeta.
  destruct (Py.split _ "|") as [|p0 [|p1 [|p2 [|p3 rest]]]];
    try (apply kept_or_accepted_try;
         [apply never_raises_send_message | apply kept_send_message]).
  cbn [length Nat.leb]. unfold nth_part. cbn [lookup list_lookup].
  apply kept_or_accepted_try_subscript; [|discriminate]. intros ? _.
  apply kept_or_accepted_try_subscript; [|discriminate]. intros ? _.
  apply kept_or_accepted_try_subscript; [|discriminate]. intros ? _.
  apply kept_or_accepted_try_subscript.
  - intros min_score _.
    apply kept_or_accepted_try_subscript; [|discriminate]. intros ? _.
    apply kept_or_accepted_try; apply set_then_confirm; reflexivity.
  - intros _ st. left.
    rewrite run_bind, run_emit. cbv beta iota. rewrite send_message_run.
    reflexivity.
Qed.

Lemma kept_or_accepted_cmd_keywords w text chat_id :
  kept_or_accepted (cmd_keywords w text chat_id).
Proof.
  unfold cmd_keywords. cbv zeta.
  destruct (map Py.strip _) as [|k0 ks] eqn:E.
  - apply kept_or_accepted_try;
      [apply never_raises_send_message | apply kept_send_message].
  - destruct (Py.truthy k0).
    + apply kept_or_accepted_try; apply set_then_confirm; reflexivity.
    + apply kept_or_accepted_try;
        [apply never_raises_send_message | apply kept_send_message].
Qed.

Lemma kept_or_accepted_cmd_location w text chat_id :
  kept_or_accepted (cmd_location w text chat_id).
Proof.
  unfold cmd_location. cbv zeta. destruct (Py.truthy _).
  - apply set_then_confirm. reflexivity.
  - apply kept_send_message.
Qed.

Lemma kept_or_accepted_cmd_time w text chat_id :
  kept_or_accepted (cmd_time w text chat_id).
Proof.
  unfold cmd_time. cbv zeta. destruct (_ && _).
  - apply set_then_confirm. reflexivity.
  - apply kept_send_message.
Qed.

Lemma accepted_cmd_set_active w chat_id active reply t0 :
  Py.startswith reply "❌" = false ->
  preserves (extends t0 accepted) (cmd_set_active w chat_id active reply).
Proof.
  intros H. unfold cmd_set_active. cbv zeta.
  apply preserves_bind; [apply preserves_gets|]. intros us.
  destruct (us !! str_chat chat_id); [|apply preserves_ret].
  apply preserves_bind.
  - apply (preserves_update_user _ _ _ (accepted_stable t0)). exact Logic.I.
  - intros _. apply preserves_bind.
    + apply (preserves_save_users _ _ _ (accepted_stable t0)).
    + intros _. apply accepted_send_message, H.
Qed.

(** X15: a command that is turned down stores nothing.  Whatever the
    text and the answers of the world, [parse_command] either leaves the
    store as it found it, or none of the messages it sends is a refusal
    (a reply that begins with a cross). *)
Theorem refused_command_stores_nothing (w : World) (text : string)
    (chat_id : ChatId) (skip_welcome : bool) (st : State) :
  let st' := snd (parse_command w text chat_id skip_welcome st) in
  users st' = users st
  \/ exists evs,
       trace st' = trace st ++ evs
       /\ Forall (fun e => is_refusal e = false) evs.
Proof.
  cbv zeta. revert st.
  change (kept_or_accepted (parse_command w text chat_id skip_welcome)).
  unfold parse_command. cbv zeta.
  repeat match goal with
         | |- kept_or_accepted (if ?b then _ else _) => destruct b
         end.
  - apply all_accepted. intros t0. apply preserves_bind.
    + apply accepted_register_user.
    + intros is_new. destruct (_ && _); [|apply preserves_ret].
      apply preserves_bind.
      * apply accepted_send_message. reflexivity.
      * intros _. apply accepted_send_message. reflexivity.
  - apply kept_send_message.
  - apply kept_or_accepted_cmd_preferences.
  - apply kept_or_accepted_cmd_keywords.
  - apply kept_or_accepted_cmd_location.
  - apply kept_or_accepted_cmd_score.
  - apply kept_or_accepted_cmd_time.
  - apply all_accepted. intros t0. apply preserves_bind.
    + apply accepted_send_message. reflexivity.
    + intros _. apply accepted_start_thread.
  - apply all_accepted. intros t0. apply preserves_bind.
    + apply accepted_send_message. reflexivity.
    + intros _. apply accepted_start_thread.
  - apply all_accepted. intros t0. apply accepted_cmd_set_active. reflexivity.
  - apply all_accepted. intros t0. apply accepted_cmd_set_active. reflexivity.
  - apply kept. intros us. apply preserves_ret.
Qed.

(** A refusal on the way in: the message [/score high] of a chat not
    seen before is answered by a refusal, and the profile of the chat is
    stored all the same, by the registration that precedes the command. *)
Example refusal_after_registration :
  let upd := mkUpdate 1 (Some (mkMessage 7 None (Some "/score high"%string))) in
  let st' := snd (handle_update quiet_world upd empty_state) in
  sends_of (trace st')
  = [(IntId 7, "❌ Please enter a valid number."%string, None)]
  /\ users st' !! "7"%string = Some (new_user (now quiet_world 0)).
Proof. vm_compute. split; reflexivity. Qed.

(** * The daily broadcast *)

Lemma broadcast_event_cons x l e :
  broadcast_event l e -> broadcast_event (x :: l) e.
Proof.
  intros [H|(k & u & Hin & Ha & H)]; [left; exact H|].
  right. exists k, u. split; [right; exact Hin | auto].
Qed.

Lemma broadcast_step w (k : string) (st : State) :
  try_except
    (start_thread w TSendJobsToUser (StrId k);; emit (EvSleep "2"))
    (fun e => emit (EvLogError ("Error sending jobs to user " +:+ k) (Some e)))
    st
  = (Ok tt,
     mkState (users st) (last_update_id st)
       (trace st
        ++ (if thread_start_fails w (ticks st)
            then [EvLogError ("Error sending jobs to user " +:+ k)
                             (Some RuntimeError)]
            else [EvThread TSendJobsToUser (StrId k); EvSleep "2"]))
       (S (ticks st))).
Proof.
  unfold start_thread. rewrite run_try, run_bind, run_bind, run_ask.
  cbv beta iota. destruct (thread_start_fails w (ticks st)).
  - rewrite run_raise. cbv beta iota. rewrite run_emit. reflexivity.
  - rewrite run_emit. cbv beta iota. rewrite run_emit. cbn.
    rewrite <- app_assoc. reflexivity.
Qed.

Lemma broadcast_loop w (l : list (string * UserData)) :
  forall st, exists evs n,
    for_each l
      (fun item =>
         if is_active (snd item) then
           try_except
             (start_thread w TSendJobsToUser (StrId (fst item));;
              emit (EvSleep "2"))
             (fun e =>
                emit (EvLogError ("Error sending jobs to user " +:+ fst item)
                                 (Some e)))
         else mret tt) st
    = (Ok tt, mkState (users st) (last_update_id st) (trace st ++ evs)
                      (ticks st + n))
    /\ Forall (broadcast_event l) evs
    /\ (forall chat_id u, (chat_id, u) ∈ l -> is_active u = true ->
          (EvThread TSendJobsToUser (StrId chat_id) ∈ evs)
          \/ (EvLogError ("Error sending jobs to user " +:+ chat_id)
                         (Some RuntimeError) ∈ evs)).
Proof.
  induction l as [|[k u] l IH]; intros st.
  - exists [], 0%nat. cbn [for_each]. rewrite app_nil_r, Nat.add_0_r.
    destruct st. split; [reflexivity|]. split; [constructor|].
    intros ? ? H. inversion H.
  - cbn [for_each fst snd]. rewrite run_bind.
    destruct (is_active u) eqn:Ha.
    + rewrite broadcast_step. cbv beta iota.
      match goal with
      | |- context [for_each l ?b ?s] =>
          destruct (IH s) as (evs & n & E & Hall & Hin)
      end.
      rewrite E. cbn [users last_update_id trace ticks].
      destruct (thread_start_fails w (ticks st)) eqn:Hf.
      * exists (EvLogError ("Error sending jobs to user " +:+ k)
                           (Some RuntimeError) :: evs), (S n).
        rewrite <- app_assoc. split; [f_equal; f_equal; lia|]. split.
        -- constructor.
           ++ right. exists k, u. split; [left | auto].
           ++ eapply Forall_impl; [exact Hall|]. intros e.
              apply broadcast_event_cons.
        -- intros k' u' Hk Ha'. apply elem_of_cons in Hk as [[= -> ->]|Hk].
           ++ right. left.
           ++ destruct (Hin k' u' Hk Ha') as [H|H]; [left | right]; right; exact H.
      * exists (EvThread TSendJobsToUser (StrId k) :: EvSleep "2" :: evs), (S n).
        rewrite <- !app_assoc. split; [f_equal; f_equal; lia|]. split.
        -- constructor; [|constructor].
           ++ right. exists k, u. split; [left | auto].
           ++ left. reflexivity.
           ++ eapply Forall_impl; [exact Hall|]. intros e.
              apply broadcast_event_cons.
        -- intros k' u' Hk Ha'. apply elem_of_cons in Hk as [[= -> ->]|Hk].
           ++ left. left.
           ++ destruct (Hin k' u' Hk Ha') as [H|H];
                [left; right; right | right; right; right]; exact H.
    + rewrite run_ret. cbv beta iota.
      destruct (IH st) as (evs & n & E & Hall & Hin). rewrite E.
      exists evs, n. split; [reflexivity|]. split.
      * eapply Forall_impl; [exact Hall|]. intros e. apply broadcast_event_cons.
      * intros k' u' Hk Ha'. apply elem_of_cons in Hk as [[= -> ->]|Hk];
          [congruence|]. exact (Hin k' u' Hk Ha').
Qed.

(** X16: [send_jobs_to_all_users] returns in every world and leaves the
    store and the offset alone.  For every active user it starts a run
    or, when the thread cannot be started, logs the error with the id of
    the user, and goes on with the next one; it does nothing else than
    that and waiting: no thread is started for a user who paused or for
    a chat that is not in the store, and no message is sent. *)
Theorem broadcast_reaches_every_active_user (w : World)
    (items : gmap string UserData -> list (string * UserData)) (st : State)
    (Hitems : forall k u, (k, u) ∈ items (users st) <-> users st !! k = Some u) :
  let r := send_jobs_to_all_users w items st in
  fst r = Ok tt
  /\ users (snd r) = users st
  /\ last_update_id (snd r) = last_update_id st
  /\ exists evs,
       trace (snd r) = trace st ++ evs
       /\ (forall chat_id u,
             users st !! chat_id = Some u -> is_active u = true ->
             (EvThread TSendJobsToUser (StrId chat_id) ∈ evs)
             \/ (EvLogError ("Error sending jobs to user " +:+ chat_id)
                            (Some RuntimeError) ∈ evs))
       /\ (forall target c,
             EvThread target c ∈ evs ->
             target = TSendJobsToUser
             /\ exists chat_id u,
                  c = StrId chat_id /\ users st !! chat_id = Some u
                  /\ is_active u = true)
       /\ sends_of evs = [].
Proof.
  cbv zeta. unfold send_jobs_to_all_users. rewrite run_bind, run_gets.
  cbv beta iota.
  destruct (broadcast_loop w (items (users st)) st) as (evs & n & E & Hall & Hin).
  cbv zeta in E |- *. rewrite E. cbn [fst snd users last_update_id trace].
  repeat split. exists evs. split; [reflexivity|]. split; [|split].
  - intros k u Hk Ha. apply (Hin k u); [apply Hitems, Hk | exact Ha].
  - intros target c Hc. rewrite List.Forall_forall in Hall.
    apply list_elem_of_In in Hc.
    destruct (Hall _ Hc) as [H|(k & u & Hk & Ha & [H|H])]; try discriminate.
    injection H as -> ->. split; [reflexivity|].
    exists k, u. split; [reflexivity|]. split; [apply Hitems, Hk | exact Ha].
  - clear E Hin. induction Hall as [|e evs' He _ IH]; [reflexivity|].
    destruct He as [->|(k & u & _ & _ & [->| ->])]; exact IH.
Qed.

Lemma broadcast_reaches_every_active_user_witness :
  let r := send_jobs_to_all_users world_first_thread_fails map_to_list
                                  three_users in
  fst r = Ok tt
  /\ users (snd r) = users three_users
  /\ last_update_id (snd r) = last_update_id three_users
  /\ exists evs,
       trace (snd r) = trace three_users ++ evs
       /\ (forall chat_id u,
             users three_users !! chat_id = Some u -> is_active u = true ->
             (EvThread TSendJobsToUser (StrId chat_id) ∈ evs)
             \/ (EvLogError ("Error sending jobs to user " +:+ chat_id)
                            (Some RuntimeError) ∈ evs))
       /\ (forall target c,
             EvThread target c ∈ evs ->
             target = TSendJobsToUser
             /\ exists chat_id u,
                  c = StrId chat_id /\ users three_users !! chat_id = Some u
                  /\ is_active u = true)
       /\ sends_of evs = [].
Proof.
  apply (broadcast_reaches_every_active_user world_first_thread_fails
           map_to_list three_users).
  intros k u. apply elem_of_map_to_list.
Defined.

(** The broadcast over three users of whom the second paused, when the
    first thread cannot be started: the failure is logged and the third
    user is served. *)
Example broadcast_goes_on_after_a_failure :
  exists first other : string,
    trace (snd (send_jobs_to_all_users world_first_thread_fails map_to_list
                                       three_users))
    = [EvLogError ("Error sending jobs to user " +:+ first) (Some RuntimeError);
       EvThread TSendJobsToUser (StrId other); EvSleep "2"]
    /\ first <> other /\ (first ∈ ["1"; "3"]%string) /\ (other ∈ ["1"; "3"]%string).
Proof.
  eexists _, _. split; [vm_compute; reflexivity|].
  split; [discriminate|]. split; repeat constructor.
Qed.

(** * The schedule *)

Lemma add_to_group_keys notif_time chat_id groups :
  groups.*1 ++ (if bool_decide (notif_time ∈ groups.*1) then [] else [notif_time])
  = (add_to_group notif_time chat_id groups).*1.
Proof.
  induction groups as [|[t users] rest IH].
  - reflexivity.
  - cbn [add_to_group fmap list_fmap fst app].
    destruct (String.eqb_spec t notif_time) as [->|Hne].
    + rewrite bool_decide_eq_true_2 by left. cbn. rewrite app_nil_r. reflexivity.
    + cbn [fmap list_fmap fst]. rewrite <- IH. f_equal.
      destruct (bool_decide (notif_time ∈ rest.*1)) eqn:E.
      * apply bool_decide_eq_true_1 in E.
        rewrite bool_decide_eq_true_2 by (right; exact E). reflexivity.
      * apply bool_decide_eq_false_1 in E.
        rewrite bool_decide_eq_false_2; [reflexivity|].
        intros [H|H]%elem_of_cons; [congruence | contradiction].
Qed.

Lemma add_to_group_NoDup notif_time chat_id groups :
  NoDup groups.*1 -> NoDup (add_to_group notif_time chat_id groups).*1.
Proof.
  intros H. rewrite <- add_to_group_keys.
  destruct (bool_decide (notif_time ∈ groups.*1)) eqn:E.
  - rewrite app_nil_r. exact H.
  - apply bool_decide_eq_false_1 in E. apply NoDup_app. split; [exact H|].
    split; [|apply NoDup_singleton].
    intros x Hx ->%list_elem_of_singleton. contradiction.
Qed.

Lemma add_to_group_elem notif_time chat_id groups t :
  t ∈ (add_to_group notif_time chat_id groups).*1
  <-> t = notif_time \/ t ∈ groups.*1.
Proof.
  rewrite <- add_to_group_keys, elem_of_app.
  destruct (bool_decide (notif_time ∈ groups.*1)) eqn:E.
  - apply bool_decide_eq_true_1 in E. split.
    + intros [H|H]; [right; exact H | inversion H].
    + intros [->|H]; left; assumption.
  - rewrite list_elem_of_singleton. tauto.
Qed.

(** The keys of [time_groups]: the notification times of the active
    users, each once. *)
Lemma group_by_time_keys (items : list (string * UserData)) :
  NoDup (group_by_time items).*1
  /\ forall t, t ∈ (group_by_time items).*1
               <-> exists k u, ((k, u) ∈ items) /\ is_active u = true
                               /\ notification_time u = t.
Proof.
  unfold group_by_time.
  assert (G : forall groups,
             NoDup groups.*1 ->
             let r := fold_left
                        (fun time_groups item =>
                           if is_active (snd item)
                           then add_to_group (notification_time (snd item))
                                             (fst item) time_groups
                           else time_groups) items groups in
             NoDup r.*1
             /\ forall t, t ∈ r.*1
                          <-> t ∈ groups.*1
                              \/ exists k u, ((k, u) ∈ items)
                                             /\ is_active u = true
                                             /\ notification_time u = t).
  { induction items as [|[k u] items IH]; intros groups Hnd; cbv zeta.
    - cbn [fold_left]. split; [exact Hnd|]. intros t. split; [auto|].
      intros [H|(k & u & H & _)]; [exact H | inversion H].
    - cbn [fold_left fst snd]. destruct (is_active u) eqn:Ha.
      + destruct (IH (add_to_group (notification_time u) k groups)
                     (add_to_group_NoDup _ _ _ Hnd)) as [Hnd' Hin].
        split; [exact Hnd'|]. intros t. rewrite Hin, add_to_group_elem. split.
        * intros [[->|H]|(k' & u' & H & Ha' & Ht)].
          -- right. exists k, u. split; [left | auto].
          -- left. exact H.
          -- right. exists k', u'. split; [right; exact H | auto].
        * intros [H|(k' & u' & H & Ha' & Ht)]; [left; right; exact H|].
          apply elem_of_cons in H as [[= -> ->]|H].
          -- left. left. symmetry. exact Ht.
          -- right. exists k', u'. auto.
      + destruct (IH groups Hnd) as [Hnd' Hin]. split; [exact Hnd'|].
        intros t. rewrite Hin. split.
        * intros [H|(k' & u' & H & Ha' & Ht)]; [left; exact H|].
          right. exists k', u'. split; [right; exact H | auto].
        * intros [H|(k' & u' & H & Ha' & Ht)]; [left; exact H|].
          apply elem_of_cons in H as [[= -> ->]|H]; [congruence|].
          right. exists k', u'. auto. }
  destruct (G [] (NoDup_nil_2)) as [Hnd Hin]. split; [exact Hnd|].
  intros t. rewrite Hin. split.
  - intros [H|H]; [inversion H | exact H].
  - intros H. right. exact H.
Qed.

Lemma schedule_groups_valid valid_at (groups : list (string * list string)) :
  (forall t, t ∈ groups.*1 -> valid_at t = true) ->
  forall s, exists s',
    schedule_groups valid_at groups s = (Scheduled, s')
    /\ pending s'
       = pending s ++ map (fun t => (DailyAt t, DoSendJobsToAllUsers)) groups.*1.
Proof.
  induction groups as [|[t users] rest IH]; intros Hv s.
  - exists s. cbn. rewrite app_nil_r. auto.
  - cbn [schedule_groups]. cbv zeta. rewrite (Hv t) by left.
    destruct (IH (fun t' H => Hv t' (list_elem_of_further _ _ _ H))
                 (add_job (DailyAt t, DoSendJobsToAllUsers)
                    (log_info ("Scheduling jobs at " +:+ t +:+ " for "
                               +:+ Py.str_int (Z.of_nat (length users))
                               +:+ " users") s)))
      as (s' & E & Hp).
    exists s'. split; [exact E|]. rewrite Hp. cbn. rewrite <- app_assoc.
    reflexivity.
Qed.


(** X17: when the library takes the notification time of every active
    user, [schedule_user_jobs] returns and the jobs of the scheduler
    are, whatever they were before: the health check every fifteen
    minutes, one daily broadcast for each notification time that some
    active user has, each time once, and the daily rebuild of the
    schedule at 00:01.  Every one of the broadcasts is the broadcast to
    all users: the members of a group play no part in its job. *)
Theorem schedule_has_one_broadcast_per_time (valid_at : string -> bool)
    (items : list (string * UserData)) (s : Scheduler)
    (Hvalid : forall k u, (k, u) ∈ items -> is_active u = true ->
                          valid_at (notification_time u) = true)
    (Hrebuild : valid_at "00:01" = true) :
  exists times,
    fst (schedule_user_jobs valid_at items s) = Scheduled
    /\ pending (snd (schedule_user_jobs valid_at items s))
       = (EveryMinutes 15, DoHealthCheck)
         :: map (fun t => (DailyAt t, DoSendJobsToAllUsers)) times
         ++ [(DailyAt "00:01", DoScheduleUserJobs)]
    /\ NoDup times
    /\ forall t, t ∈ times
                 <-> exists k u, ((k, u) ∈ items) /\ is_active u = true
                                 /\ notification_time u = t.
Proof.
  destruct (group_by_time_keys items) as [Hnd Hin].
  exists (group_by_time items).*1. unfold schedule_user_jobs. cbv zeta.
  destruct (schedule_groups_valid valid_at (group_by_time items)) with
    (s := add_job (EveryMinutes 15, DoHealthCheck) (mkScheduler [] (info_log s)))
    as (s' & E & Hp).
  { intros t (k & u & Hk & Ha & <-)%Hin. exact (Hvalid k u Hk Ha). }
  rewrite E, Hrebuild. cbn [fst snd add_job pending]. rewrite Hp.
  cbn [add_job pending app]. auto.
Qed.

Lemma schedule_has_one_broadcast_per_time_witness :
  exists times,
    fst (schedule_user_jobs hh_mm [("1", alice); ("3", alice)]%string
                            (mkScheduler [] []))
    = Scheduled
    /\ pending (snd (schedule_user_jobs hh_mm [("1", alice); ("3", alice)]%string
                                        (mkScheduler [] [])))
       = (EveryMinutes 15, DoHealthCheck)
         :: map (fun t => (DailyAt t, DoSendJobsToAllUsers)) times
         ++ [(DailyAt "00:01", DoScheduleUserJobs)]
    /\ NoDup times
    /\ forall t, t ∈ times
                 <-> exists k u, ((k, u) ∈ [("1", alice); ("3", alice)]%string)
                                 /\ is_active u = true
                                 /\ notification_time u = t.
Proof.
  apply (schedule_has_one_broadcast_per_time hh_mm
           [("1", alice); ("3", alice)]%string (mkScheduler [] [])).
  - intros k u Hk _.
    apply elem_of_cons in Hk as [[= -> ->]|Hk]; [reflexivity|].
    apply elem_of_cons in Hk as [[= -> ->]|Hk]; [reflexivity|].
    inversion Hk.
  - reflexivity.
Defined.



(** A time that [/time] takes and the check refuses: the schedule keeps
    the health check and the broadcast at nine, and the lines of the
    log tell the sizes of the two groups. *)
Example schedule_with_a_malformed_time :
  schedule_user_jobs hh_mm four_items (mkScheduler [] [])
  = (InvalidTime "ab:cd",
     mkScheduler [(EveryMinutes 15, DoHealthCheck);
                  (DailyAt "09:00", DoSendJobsToAllUsers)]
                 ["Scheduling jobs at 09:00 for 2 users";
                  "Scheduling jobs at ab:cd for 1 users"]%string).
Proof. vm_compute. reflexivity. Qed.

(** * Whose profile a call may change *)

Lemma keeps_kept {A} (k : string) (m : M A) :
  (forall us, preserves (users_are us) m) -> keeps k m.
Proof. intros H st. rewrite (H (users st) st eq_refl). reflexivity. Qed.

Lemma keeps_ret {A} k (a : A) : keeps k (mret a : M A).
Proof. intros st. reflexivity. Qed.

Lemma keeps_raise {A} k e : keeps k (raise e : M A).
Proof. intros st. reflexivity. Qed.

Lemma keeps_gets {A} k (f : State -> A) : keeps k (gets f).
Proof. intros st. reflexivity. Qed.

Lemma keeps_subscript {A} k (o : option A) e : keeps k (subscript o e).
Proof. intros st. destruct o; reflexivity. Qed.

Lemma keeps_ask {A} k (f : nat -> A) : keeps k (ask f).
Proof. intros st. reflexivity. Qed.

Lemma keeps_emit k e : keeps k (emit e).
Proof. intros st. reflexivity. Qed.

Lemma keeps_bind {A B} k (m : M A) (f : A -> M B) :
  keeps k m -> (forall a, keeps k (f a)) -> keeps k (m ≫= f).
Proof.
  intros Hm Hf st. rewrite run_bind. specialize (Hm st).
  destruct (m st) as [[a|e] st1]; cbn [snd] in *.
  - rewrite (Hf a st1). exact Hm.
  - exact Hm.
Qed.

Lemma keeps_try {A} k (body : M A) (handler : Exn -> M A) :
  keeps k body -> (forall e, keeps k (handler e)) ->
  keeps k (try_except body handler).
Proof.
  intros Hm Hf st. rewrite run_try. specialize (Hm st).
  destruct (body st) as [[a|e] st1]; cbn [snd] in *.
  - exact Hm.
  - rewrite (Hf e st1). exact Hm.
Qed.

Lemma keeps_for_each_in {A} k (l : list A) (body : A -> M unit) :
  (forall x, x ∈ l -> keeps k (body x)) -> keeps k (for_each l body).
Proof.
  induction l as [|x l IH]; intros H; cbn [for_each].
  - apply keeps_ret.
  - apply keeps_bind; [apply H; left|]. intros _. apply IH.
    intros y Hy. apply H. right. exact Hy.
Qed.

Lemma keeps_for_fold {A B} k (l : list A) (acc : B) (body : A -> B -> M B) :
  (forall x b, keeps k (body x b)) -> keeps k (for_fold l acc body).
Proof.
  intros H. revert acc. induction l as [|x l IH]; intros acc; cbn [for_fold].
  - apply keeps_ret.
  - apply keeps_bind; [apply H|]. intros b. apply IH.
Qed.

Lemma keeps_update_user k key f : k <> key -> keeps k (update_user key f).
Proof.
  intros Hk st. unfold update_user. rewrite run_bind, run_gets. cbv beta iota.
  destruct (users st !! key); [|reflexivity].
  cbn. apply lookup_insert_ne. congruence.
Qed.

Lemma keeps_user_data k key : keeps k (user_data key).
Proof.
  unfold user_data. apply keeps_bind; [apply keeps_gets|]. intros us.
  apply keeps_subscript.
Qed.

Lemma keeps_save_users k w : keeps k (save_users w).
Proof.
  apply keeps_kept. intros us. apply (preserves_save_users _ _ _ (users_are_stable us)).
Qed.

Lemma keeps_send_message k w chat_id text mode :
  keeps k (send_message w chat_id text mode).
Proof.
  apply keeps_kept. intros us.
  apply (preserves_send_message _ _ _ (users_are_stable us)). exact Logic.I.
Qed.

Lemma keeps_scrape_jobs k w keywords location :
  keeps k (scrape_jobs w keywords location).
Proof.
  apply keeps_kept. intros us.
  apply (preserves_scrape_jobs _ _ _ (users_are_stable us)).
Qed.

Lemma keeps_extract_text_from_pdf k w path :
  keeps k (extract_text_from_pdf w path).
Proof.
  apply keeps_kept. intros us.
  apply (preserves_extract_text_from_pdf _ _ _ (users_are_stable us)).
Qed.

Lemma keeps_send_resume_analysis k w chat_id :
  keeps k (send_resume_analysis w chat_id).
Proof.
  apply keeps_kept. intros us.
  apply (preserves_send_resume_analysis _ _ _ (users_are_stable us)).
  intros; exact Logic.I.
Qed.

Lemma keeps_call_scorer k sc job resume_text :
  keeps k (call_scorer sc job resume_text).
Proof.
  apply keeps_kept. intros us.
  apply (preserves_call_scorer _ _ _ (users_are_stable us)). exact Logic.I.
Qed.

Lemma keeps_start_thread k w target chat_id :
  keeps k (start_thread w target chat_id).
Proof.
  unfold start_thread. apply keeps_bind; [apply keeps_ask|].
  intros fails. destruct fails; [apply keeps_raise | apply keeps_emit].
Qed.

Lemma keeps_register_user k w chat_id :
  k <> str_chat chat_id -> keeps k (register_user w chat_id).
Proof.
  intros Hk st. destruct (users st !! str_chat chat_id) as [u|] eqn:Hu.
  - rewrite (register_user_known _ _ _ _ Hu). reflexivity.
  - rewrite (register_user_new _ _ _ Hu). cbn [snd users].
    apply lookup_insert_ne. congruence.
Qed.

Create HintDb keeps.

#[local] Hint Resolve keeps_ret keeps_raise keeps_gets keeps_subscript keeps_ask
  keeps_emit keeps_update_user keeps_user_data keeps_save_users
  keeps_send_message keeps_scrape_jobs keeps_extract_text_from_pdf
  keeps_send_resume_analysis keeps_call_scorer keeps_start_thread
  keeps_register_user : keeps.

Ltac keep_step :=
  lazymatch goal with
  | |- keeps _ (_ ≫= _) => apply keeps_bind; [| intros ?]
  | |- keeps _ (try_except _ _) => apply keeps_try; [| intros ?]
  | |- keeps _ (for_fold _ _ _) => apply keeps_for_fold; intros ? ?
  | |- keeps _ (when_given ?o _) => destruct o; cbn [when_given]
  | |- keeps _ (match ?x with _ => _ end) => destruct x eqn:?
  end.

Ltac keep :=
  cbv zeta;
  repeat (first [ solve [eauto with keeps] | keep_step ]; cbv zeta).

Lemma keeps_set_resume k w chat_id text :
  k <> str_chat chat_id -> keeps k (set_resume w chat_id text).
Proof. intros Hk. unfold set_resume. keep. Qed.

Lemma keeps_set_search_preferences k w chat_id kws loc sc nt :
  k <> str_chat chat_id ->
  keeps k (set_search_preferences w chat_id kws loc sc nt).
Proof. intros Hk. unfold set_search_preferences. keep. Qed.

Lemma keeps_record_sent k key id : k <> key -> keeps k (record_sent key id).
Proof. intros Hk. unfold record_sent. keep. Qed.

#[local] Hint Resolve keeps_set_resume keeps_set_search_preferences
  keeps_record_sent : keeps.

Lemma keeps_send_jobs_to_user_with k w sc chat_id :
  k <> str_chat chat_id -> keeps k (send_jobs_to_user_with w sc chat_id).
Proof.
  intros Hk.
  unfold send_jobs_to_user_with, ask_for_resume, deliver, process_job,
    score_and_send, item.
  keep.
Qed.

Lemma keeps_handle_document k w file_id chat_id :
  k <> str_chat chat_id -> keeps k (handle_document w file_id chat_id).
Proof.
  intros Hk. unfold handle_document, ask_for_preferences. keep.
Qed.

Lemma keeps_parse_command k w text chat_id skip_welcome :
  k <> str_chat chat_id -> keeps k (parse_command w text chat_id skip_welcome).
Proof.
  intros Hk.
  unfold parse_command, cmd_preferences, cmd_keywords, cmd_location, cmd_score,
    cmd_time, cmd_set_active, ask_for_resume, ask_for_preferences, nth_part.
  keep.
Qed.

Lemma keeps_handle_update k w update :
  sender update <> Some k -> keeps k (handle_update w update).
Proof.
  intros Hk. unfold handle_update. unfold sender in Hk.
  destruct (upd_message update) as [message|]; [|apply keeps_ret].
  assert (Hk' : k <> str_chat (IntId (msg_chat message))) by congruence.
  pose proof (keeps_parse_command k w) as Hp.
  pose proof (keeps_handle_document k w) as Hd.
  keep.
Qed.

(** X19: a call of a method of the bot with a chat id changes the
    profile of no other chat: whatever the method, its arguments, the
    scoring method and the answers of the world, and whether it returns
    or raises, every other entry of the store is what it was. *)
Theorem methods_touch_only_their_chat (w : World) (sc : Scorer) (op : Op)
    (chat_id : ChatId) (k : string) (st : State)
    (Hop : op_chat op = Some chat_id) (Hk : k <> str_chat chat_id) :
  users (run_op w sc op st) !! k = users st !! k.
Proof.
  destruct op; cbn [op_chat] in Hop; try discriminate;
    injection Hop as ->; cbn [run_op].
  - apply keeps_register_user, Hk.
  - apply keeps_set_resume, Hk.
  - apply keeps_set_search_preferences, Hk.
  - apply keeps_handle_document, Hk.
  - apply keeps_send_resume_analysis.
  - apply keeps_send_jobs_to_user_with, Hk.
  - apply keeps_parse_command, Hk.
Qed.

Lemma methods_touch_only_their_chat_witness :
  users (run_op world_ab scorer_80_40 (OpSendJobsToUser (IntId 42)) three_users)
    !! "1"%string
  = users three_users !! "1"%string.
Proof.
  apply (methods_touch_only_their_chat world_ab scorer_80_40
           (OpSendJobsToUser (IntId 42)) (IntId 42) "1" three_users).
  - reflexivity.
  - discriminate.
Defined.

(** X20: a poll changes the profiles of the chats that sent a message of
    the batch and no other: the entry of a key from which no update of
    the batch comes is after the poll what it was before. *)
Theorem poll_touches_only_the_senders (w : World) (st : State) (k : string)
    (Hk : forall batch update,
            get_updates w (ticks st) (request_offset (last_update_id st))
            = UpdatesJson (Some batch) ->
            update ∈ batch -> sender update <> Some k) :
  users (snd (process_telegram_updates w st)) !! k = users st !! k.
Proof.
  unfold process_telegram_updates. rewrite run_bind, run_gets. cbv beta iota zeta.
  rewrite run_try, run_bind, run_emit. cbv beta iota.
  rewrite run_bind, run_ask. cbv beta iota. cbn [ticks].
  destruct (get_updates w (ticks st) (request_offset (last_update_id st)))
    as [|[[|first rest]|]] eqn:E; try reflexivity.
  assert (G : keeps k (for_each (first :: rest) (handle_update w))).
  { apply keeps_for_each_in. intros x Hx. apply keeps_handle_update.
    exact (Hk _ x eq_refl Hx). }
  rewrite run_bind. cbn [set_last_update_id].
  match goal with
  | |- context [for_each (first :: rest) (handle_update w) ?s] =>
      specialize (G s); destruct (for_each (first :: rest) (handle_update w) s)
        as [[[]|e] st1]
  end; cbn [snd users] in *; exact G.
Qed.

Lemma poll_touches_only_the_senders_witness :
  users (snd (process_telegram_updates world_help three_users)) !! "1"%string
  = users three_users !! "1"%string.
Proof.
  apply (poll_touches_only_the_senders world_help three_users "1").
  intros batch update [= <-] Hin.
  apply list_elem_of_singleton in Hin as ->. discriminate.
Defined.

(** * Who is in the store *)

Lemma holds_all_stable (us : gmap string UserData) :
  Stable (holds_all us) (fun _ => True) (fun _ => True).
Proof.
  split; try (intros; exact Logic.I).
  - intros st e _ H. exact H.
  - intros st H. exact H.
  - intros st k u f _ _ H. unfold holds_all in *. cbn [users].
    etransitivity; [exact H | apply dom_insert_subseteq].
Qed.

Lemma holds_all_insert (us : gmap string UserData) st k t :
  users st !! k = None -> holds_all us st ->
  holds_all us (mkState (<[k := new_user t]> (users st)) (last_update_id st)
                        (trace st) (ticks st)).
Proof.
  intros _ H. unfold holds_all in *. cbn [users].
  etransitivity; [exact H | apply dom_insert_subseteq].
Qed.

(** X21: no method of the bot removes a user: whatever the call, the
    scoring method and the answers of the world, and whether the call
    returns or raises, every chat that has a profile before the call has
    one after it. *)
Theorem no_method_removes_a_user (w : World) (sc : Scorer) (op : Op) (st : State) :
  dom (users st) ⊆ dom (users (run_op w sc op st)).
Proof.
  pose proof (holds_all_stable (users st)) as HS.
  pose proof (holds_all_insert (users st)) as Hi.
  assert (H0 : holds_all (users st) st) by (unfold holds_all; reflexivity).
  change (holds_all (users st) (run_op w sc op st)).
  destruct op; cbn [run_op].
  - apply (preserves_register_user _ _ _ HS); auto.
  - apply (preserves_set_resume _ _ _ HS); auto.
  - apply (preserves_set_search_preferences _ _ _ HS); auto.
  - apply (preserves_handle_document _ _ _ HS); auto.
  - apply (preserves_send_resume_analysis _ _ _ HS); auto.
  - apply (preserves_send_jobs_to_user_with _ _ _ HS); auto.
  - apply (preserves_parse_command _ _ _ HS); auto.
  - apply (preserves_process_telegram_updates _ _ _ HS); auto.
Qed.

Lemma registered_after {A} (m : M A) (k : string) (st : State) :
  (forall us, preserves (holds_all us) m) ->
  is_Some (users st !! k) ->
  is_Some (users (snd (m st)) !! k).
Proof.
  intros Hm Hk. apply elem_of_dom.
  apply (Hm (users st) st); [unfold holds_all; reflexivity|].
  apply elem_of_dom, Hk.
Qed.

Lemma holds_all_handling w (message : Message) (c : ChatId) (b : bool)
    (us : gmap string UserData) :
  preserves (holds_all us)
    (match msg_document message with
     | Some file_id => handle_document w file_id c
     | None =>
         match msg_text message with
         | Some text =>
             if Py.startswith text "/start" && negb b
             then parse_command w text c true
             else parse_command w text c false
         | None => mret tt
         end
     end).
Proof.
  pose proof (holds_all_stable us) as HS.
  pose proof (holds_all_insert us) as Hi.
  destruct (msg_document message).
  - apply (preserves_handle_document _ _ _ HS); auto.
  - destruct (msg_text message); [|apply preserves_ret].
    destruct (_ && _); apply (preserves_parse_command _ _ _ HS); auto.
Qed.

(** X22: an update that carries a message registers the chat it comes
    from, whatever the message holds and whatever happens while it is
    handled: after [handle_update] the chat has a profile. *)
Theorem every_sender_is_registered (w : World) (update : Update) (st : State)
    (k : string) (Hk : sender update = Some k) :
  is_Some (users (snd (handle_update w update st)) !! k).
Proof.
  unfold sender in Hk. unfold handle_update.
  destruct (upd_message update) as [message|]; [|discriminate].
  injection Hk as <-. cbv zeta. rewrite run_bind.
  destruct (users st !! str_chat (IntId (msg_chat message))) as [u|] eqn:Hu.
  - rewrite (register_user_known _ _ _ _ Hu). cbv beta iota.
    apply registered_after; [intros us; apply holds_all_handling|].
    exists u. exact Hu.
  - rewrite (register_user_new _ _ _ Hu). cbv beta iota.
    apply registered_after; [intros us; apply holds_all_handling|].
    eexists. cbn [users]. apply lookup_insert_eq.
Qed.

Lemma every_sender_is_registered_witness :
  is_Some
    (users (snd (handle_update quiet_world
                   (mkUpdate 1 (Some (mkMessage 7 None (Some "/score high"%string))))
                   empty_state)) !! "7"%string).
Proof.
  apply (every_sender_is_registered quiet_world
           (mkUpdate 1 (Some (mkMessage 7 None (Some "/score high"%string))))
           empty_state "7").
  reflexivity.
Defined.
